(** * Critical-apparatus tools: siglum resolution, expansion, merging,
      validation and renumbering

    A shallow embedding of the Python scripts
    [negative_to_positive_apparatus.py], [validate_collation.py],
    [merge_variation_units.py] and [transpose_variant_readings.py],
    followed by the properties of the specification that concern them.

    Conventions of the embedding.
    - A Python [str] is a [string]; its characters are the code points
      below 256 ([ascii]).
    - A [dict] whose iteration order is observable is an association list
      in insertion order ([Py.dict_set] keeps the position of an existing
      key, as Python does).
    - A [while True] loop is a fixpoint on a fuel argument returning
      [option]; [None] stands for "has not returned yet".
    - A raised exception is a value of an error type. *)

From Stdlib Require Import String Ascii List Bool Arith Lia ZArith.
From Stdlib Require Import Permutation Sorted DecimalString DecimalNat.
Import ListNotations.
Local Open Scope list_scope.
Local Open Scope string_scope.

(* ================================================================== *)
(** * Python primitives *)
(* ================================================================== *)

Module Py.

(** [s.endswith(suffix)] *)
Fixpoint endswith (s suffix : string) : bool :=
  if String.eqb s suffix then true
  else match s with
       | EmptyString => false
       | String _ s' => endswith s' suffix
       end.

(** [s[:-n]].  Python reads [-0] as [0], so [s[:-0]] is the empty
    string; for [n] at least [len(s)] the slice is empty as well. *)
Definition slice_to_minus (s : string) (n : nat) : string :=
  match n with
  | 0 => EmptyString
  | _ => substring 0 (String.length s - n) s
  end.

(** [needle in s] on strings: substring test. *)
Fixpoint contains (s needle : string) : bool :=
  if prefix needle s then true
  else match s with
       | EmptyString => false
       | String _ s' => contains s' needle
       end.

(** [sep.join(l)] *)
Fixpoint join (sep : string) (l : list string) : string :=
  match l with
  | [] => EmptyString
  | [x] => x
  | x :: rest => x ++ sep ++ join sep rest
  end.

(** Characters on which [str.split()] without argument cuts: tab to
    carriage return, the four separators, space, next line and
    no-break space. *)
Definition is_space (c : ascii) : bool :=
  let n := nat_of_ascii c in
  ((9 <=? n) && (n <=? 13) || (28 <=? n) && (n <=? 32)
   || (n =? 133) || (n =? 160))%nat.

Fixpoint split_ws_aux (cur : string) (s : string) : list string :=
  match s with
  | EmptyString => if String.eqb cur EmptyString then [] else [cur]
  | String c s' =>
      if is_space c
      then (if String.eqb cur EmptyString then split_ws_aux EmptyString s'
            else cur :: split_ws_aux EmptyString s')
      else split_ws_aux (cur ++ String c EmptyString) s'
  end.

(** [s.split()] *)
Definition split_ws (s : string) : list string := split_ws_aux EmptyString s.

Fixpoint split_on_aux (sep : ascii) (cur : string) (s : string) : list string :=
  match s with
  | EmptyString => [cur]
  | String c s' =>
      if Ascii.eqb c sep then cur :: split_on_aux sep EmptyString s'
      else split_on_aux sep (cur ++ String c EmptyString) s'
  end.

(** [s.split(sep)] for a one-character separator. *)
Definition split_on (sep : ascii) (s : string) : list string :=
  split_on_aux sep EmptyString s.

Fixpoint lstrip (c : ascii) (s : string) : string :=
  match s with
  | EmptyString => EmptyString
  | String d s' => if Ascii.eqb d c then lstrip c s' else s
  end.

Fixpoint rstrip (c : ascii) (s : string) : string :=
  match s with
  | EmptyString => EmptyString
  | String d s' =>
      match rstrip c s' with
      | EmptyString => if Ascii.eqb d c then EmptyString else String d EmptyString
      | r => String d r
      end
  end.

(** [s.strip(c)] for a one-character set. *)
Definition strip (c : ascii) (s : string) : string := rstrip c (lstrip c s).

(** [s.replace(old, new)]: the non-overlapping occurrences of [old],
    from the left.  [skip] counts the characters of an occurrence
    still to be passed over. *)
Fixpoint replace_aux (old new : string) (skip : nat) (s : string) : string :=
  match s with
  | EmptyString => EmptyString
  | String c s' =>
      match skip with
      | S k => replace_aux old new k s'
      | 0 =>
          if prefix old s
          then new ++ replace_aux old new (String.length old - 1) s'
          else String c (replace_aux old new 0 s')
      end
  end.

Fixpoint intersperse (new : string) (s : string) : string :=
  match s with
  | EmptyString => new
  | String c s' => new ++ String c (intersperse new s')
  end.

Definition replace (s old new : string) : string :=
  match old with
  | EmptyString => intersperse new s
  | _ => replace_aux old new 0 s
  end.

Definition is_digit (c : ascii) : bool :=
  let n := nat_of_ascii c in ((48 <=? n) && (n <=? 57))%nat.

Fixpoint digits_value (acc : nat) (s : string) : option nat :=
  match s with
  | EmptyString => Some acc
  | String c s' =>
      if is_digit c then digits_value (10 * acc + (nat_of_ascii c - 48)) s'
      else None
  end.

(** [int(s)] on a decimal numeral; [None] is the [ValueError] that
    [int] raises on anything that is not a number (signs, blanks and
    underscores, which [int] also reads, do not occur in reading
    numbers). *)
Definition int (s : string) : option nat :=
  match s with
  | EmptyString => None
  | _ => digits_value 0 s
  end.

(** ** Insertion-ordered dictionaries *)

Definition dict (V : Type) := list (string * V).

Fixpoint dict_get {V} (d : dict V) (k : string) : option V :=
  match d with
  | [] => None
  | (k', v) :: rest => if String.eqb k' k then Some v else dict_get rest k
  end.

Definition dict_mem {V} (d : dict V) (k : string) : bool :=
  match dict_get d k with Some _ => true | None => false end.

(** [d[k] = v]: an existing key keeps its place, a new one goes last. *)
Fixpoint dict_set {V} (d : dict V) (k : string) (v : V) : dict V :=
  match d with
  | [] => [(k, v)]
  | (k', v') :: rest =>
      if String.eqb k' k then (k', v) :: rest
      else (k', v') :: dict_set rest k v
  end.

Definition keys {V} (d : dict V) : list string := map fst d.

(** [if k not in d: d[k] = []] followed by [d[k].append(v)] *)
Definition dict_append {V} (d : dict (list V)) (k : string) (v : V) : dict (list V) :=
  match dict_get d k with
  | Some l => dict_set d k (l ++ [v])%list
  | None => dict_set d k [v]
  end.

(** [enumerate(l)] *)
Definition enumerate {A} (l : list A) : list (nat * A) :=
  combine (seq 0 (List.length l)) l.

(** [x in l] for a list (or set) of strings. *)
Definition mem (x : string) (l : list string) : bool :=
  existsb (String.eqb x) l.

(** ** [sorted(l, key=...)]: stable, ascending *)

Section Sorted.
Variables (A K : Type) (leb : K -> K -> bool) (key : A -> K).

Fixpoint insert_by (x : A) (l : list A) : list A :=
  match l with
  | [] => [x]
  | y :: rest =>
      if leb (key x) (key y) then x :: l else y :: insert_by x rest
  end.

(** Elements are inserted from the right, each before the first
    element whose key is not smaller: equal keys keep their order. *)
Definition sorted (l : list A) : list A := fold_right insert_by [] l.
End Sorted.
Arguments insert_by {A K} leb key x l.
Arguments sorted {A K} leb key l.

(** Order on tuples of integers: lexicographic, a proper prefix first. *)
Fixpoint tuple_leb (a b : list nat) : bool :=
  match a, b with
  | [], _ => true
  | _ :: _, [] => false
  | x :: a', y :: b' =>
      if (x <? y)%nat then true
      else if (y <? x)%nat then false else tuple_leb a' b'
  end.

Fixpoint ztuple_leb (a b : list Z) : bool :=
  match a, b with
  | [], _ => true
  | _ :: _, [] => false
  | x :: a', y :: b' =>
      if (x <? y)%Z then true
      else if (y <? x)%Z then false else ztuple_leb a' b'
  end.

(** [sorted(l, key=...)] once the keys are known: [ks] lists the key
    of each element of [l]. *)
Definition sorted_by_keys {A K} (leb : K -> K -> bool) (ks : list K) (l : list A) : list A :=
  map snd (sorted leb fst (combine ks l)).

(** [str(n)] for a natural number. *)
Definition str (n : nat) : string := NilEmpty.string_of_uint (Nat.to_uint n).

(** ** Exceptions and outcomes *)

Inductive exn : Type :=
| KeyError (key : string)
| KeyErrorPair (key1 key2 : string)
| ValueError (literal : string)
| IndexError
| AttributeError.

(** What a call comes to: a value, an exception, or no return at all. *)
Inductive outcome (A : Type) : Type :=
| Returned (a : A)
| Raised (e : exn)
| Hangs.
Arguments Returned {A} a.
Arguments Raised {A} e.
Arguments Hangs {A}.

Definition bind {A B} (m : outcome A) (k : A -> outcome B) : outcome B :=
  match m with
  | Returned a => k a
  | Raised e => Raised e
  | Hangs => Hangs
  end.

(** [d[k]] as an expression: [KeyError] on a missing key. *)
Definition dict_index {V} (d : dict V) (k : string) : outcome V :=
  match dict_get d k with
  | Some v => Returned v
  | None => Raised (KeyError k)
  end.

(** A loop on fuel, seen from its caller. *)
Definition of_loop {A} (r : option A) : outcome A :=
  match r with
  | Some a => Returned a
  | None => Hangs
  end.

(** [for x in l: acc = body(acc, x)], leaving at the first pass that
    does not return. *)
Fixpoint for_each {A S} (l : list A) (acc : S) (body : S -> A -> outcome S) : outcome S :=
  match l with
  | [] => Returned acc
  | x :: rest => bind (body acc x) (fun acc' => for_each rest acc' body)
  end.


(** [s.add(x)] on a set of which only membership is observed. *)
Definition set_add (x : string) (s : list string) : list string :=
  if mem x s then s else (s ++ [x])%list.

(** [l[i]] as an expression: [IndexError] past the end. *)
Definition list_index {A} (l : list A) (i : nat) : outcome A :=
  match nth_error l i with
  | Some a => Returned a
  | None => Raised IndexError
  end.

(** [l[i] = v] on a list *)
Fixpoint list_assign {A} (l : list A) (i : nat) (v : A) : outcome (list A) :=
  match l, i with
  | [], _ => Raised IndexError
  | _ :: rest, 0 => Returned (v :: rest)
  | x :: rest, S i' => bind (list_assign rest i' v) (fun rest' => Returned (x :: rest'))
  end.

(** [sorted(l, key=...)] with a key that may raise: the keys are
    computed first, in order. *)
Definition sorted_with {A K} (leb : K -> K -> bool) (key : A -> outcome K) (l : list A)
  : outcome (list A) :=
  bind (for_each l []
          (fun acc x => bind (key x) (fun k => Returned (acc ++ [(k, x)])%list)))
       (fun keyed => Returned (map snd (sorted leb fst keyed))).

(** [for i, x in enumerate(l): d[x] = i] *)
Fixpoint index_map_from (i : nat) (l : list string) (d : dict nat) : dict nat :=
  match l with
  | [] => d
  | x :: rest => index_map_from (S i) rest (dict_set d x i)
  end.

Definition index_map (l : list string) : dict nat := index_map_from 0 l [].

(** [[f(x) for x in l]], leaving at the first call that does not
    return. *)
Definition each {A B} (f : A -> outcome B) : list A -> outcome (list B) :=
  fix each_from (l : list A) : outcome (list B) :=
    match l with
    | [] => Returned []
    | x :: rest =>
        bind (f x) (fun y => bind (each_from rest) (fun ys => Returned (y :: ys)))
    end.

End Py.

Notation "x <- m ;; k" := (Py.bind m (fun x => k))
  (at level 61, m at next level, right associativity).

(* ================================================================== *)
(** * negative_to_positive_apparatus.py *)
(* ================================================================== *)

Module NegToPos.
Import Py.

(** The [for suffix in suffixes] loop of [parse_wit]: the first
    registered suffix that ends [base_wit]. *)
Fixpoint first_suffix (suffixes : list string) (base_wit : string) : option string :=
  match suffixes with
  | [] => None
  | suffix :: rest =>
      if endswith base_wit suffix then Some suffix
      else first_suffix rest base_wit
  end.

(** The [while True] loop of [parse_wit]. *)
Fixpoint parse_wit_loop (fuel : nat) (suffixes : list string)
         (base_wit : string) (wit_suffixes : list string)
  : option (string * list string) :=
  match fuel with
  | 0 => None
  | S fuel' =>
      match first_suffix suffixes base_wit with
      | Some suffix =>
          parse_wit_loop fuel' suffixes
            (slice_to_minus base_wit (String.length suffix))
            (suffix :: wit_suffixes)
      | None => Some (base_wit, wit_suffixes)
      end
  end.

(** [parse_wit(wit, suffixes)].  [None]: the loop never leaves (see
    [parse_wit_fuel_exact] below for why this fuel decides it). *)
Definition parse_wit (wit : string) (suffixes : list string)
  : option (string * list string) :=
  parse_wit_loop (S (String.length wit)) suffixes wit [].

(** [witness_pattern.match(wit) is not None] for the pattern
    [^[LP]*\d+S*]: any number of [L] and [P], then a digit. *)
Fixpoint witness_pattern_match (wit : string) : bool :=
  match wit with
  | EmptyString => false
  | String c rest =>
      if is_digit c then true
      else if Ascii.eqb c "L" || Ascii.eqb c "P" then witness_pattern_match rest
      else false
  end.

(** The body of the first loop of [get_sorted_wits]: the sort key of
    one witness. *)
Definition wit_key (wit_ind_map suffix_ind_map : dict nat) (wit : string)
  : outcome (list nat) :=
  if witness_pattern_match wit then
    parsed <- of_loop (parse_wit wit (keys suffix_ind_map)) ;;
    base_ind <- dict_index wit_ind_map (fst parsed) ;;
    suffix_inds <- for_each (snd parsed) []
                     (fun acc wit_suffix =>
                        i <- dict_index suffix_ind_map wit_suffix ;;
                        Returned (acc ++ [i])%list) ;;
    Returned (base_ind :: suffix_inds)
  else
    i <- dict_index wit_ind_map wit ;;
    Returned [i].

(** [keys_by_wit[wit]] inside the [lambda]; every [wit] sorted was
    given a key by the loop before. *)
Definition key_of (keys_by_wit : dict (list nat)) (wit : string) : list nat :=
  match dict_get keys_by_wit wit with
  | Some k => k
  | None => []
  end.

Definition get_sorted_wits (wits : list string) (wit_ind_map suffix_ind_map : dict nat)
  : outcome (list string) :=
  keys_by_wit <- for_each wits []
                   (fun keys_by_wit wit =>
                      k <- wit_key wit_ind_map suffix_ind_map wit ;;
                      Returned (dict_set keys_by_wit wit k)) ;;
  Returned (sorted tuple_leb (key_of keys_by_wit) wits).

(** A [<rdg>] or [<witDetail>]: its [n] and [wit] attributes.  The
    scripts read [wit] of every such element without a test; it is
    taken as present. *)
Record rdg := { rdg_n : option string; rdg_wit : string }.

(** An [<app>]: its [xml:id] and, in document order, what
    [.//tei:rdg|.//tei:witDetail] selects. *)
Record app := { app_id : option string; app_rdgs : list rdg }.

(** The line printed by the [except] branch of [convert_app]. *)
Inductive report : Type :=
| SortError (unit_id : option string) (reading_n : option string) (e : exn).

(** First loop of [convert_app]: the base siglum a citation counts
    for. *)
Definition base_of_citation (suffix_ind_map : dict nat) (wit : string) : outcome string :=
  if witness_pattern_match wit then
    parsed <- of_loop (parse_wit wit (keys suffix_ind_map)) ;;
    Returned (fst parsed)
  else Returned wit.

Definition cite (suffix_ind_map : dict nat) (base_wits_cited : list string) (wit : string)
  : outcome (list string) :=
  if String.eqb wit "rell" then Returned base_wits_cited
  else
    base_wit <- base_of_citation suffix_ind_map wit ;;
    Returned (set_add base_wit base_wits_cited).

Definition base_wits_cited (suffix_ind_map : dict nat) (rdgs : list rdg)
  : outcome (list string) :=
  for_each rdgs []
    (fun cited r => for_each (split_ws (rdg_wit r)) cited (cite suffix_ind_map)).


(** Second loop of [convert_app], for one reading: the reading as it
    is left and what was printed. *)
Definition convert_rdg (unit_id : option string) (wit_ind_map suffix_ind_map : dict nat)
           (uncited_wits_str : string) (r : rdg) : outcome (list report * rdg) :=
  let expanded := replace (rdg_wit r) "rell" uncited_wits_str in
  match get_sorted_wits (split_ws expanded) wit_ind_map suffix_ind_map with
  | Returned sorted_wits =>
      Returned ([], {| rdg_n := rdg_n r; rdg_wit := join " " sorted_wits |})
  | Raised e =>
      Returned ([SortError unit_id (rdg_n r) e],
                {| rdg_n := rdg_n r; rdg_wit := expanded |})
  | Hangs => Hangs
  end.




End NegToPos.

(* ================================================================== *)
(** * validate_collation.py *)
(* ================================================================== *)

Module Validate.
Import Py.

(** One of the five [for] loops in the body of [parse_wit]: [suffix]
    is overwritten by the first suffix of this role that matches, and
    kept otherwise. *)
Definition pick (suffix : string) (role_suffixes : list string) (base_wit : string) : string :=
  match NegToPos.first_suffix role_suffixes base_wit with
  | Some s => s
  | None => suffix
  end.

Record suffix_table := {
  first_hand_suffixes : list string;
  main_text_suffixes : list string;
  corrector_suffixes : list string;
  alternate_suffixes : list string;
  multiple_suffixes : list string
}.

Definition chosen_suffix (T : suffix_table) (base_wit : string) : string :=
  pick (pick (pick (pick (pick EmptyString
    (first_hand_suffixes T) base_wit)
    (main_text_suffixes T) base_wit)
    (corrector_suffixes T) base_wit)
    (alternate_suffixes T) base_wit)
    (multiple_suffixes T) base_wit.

Fixpoint parse_wit_loop (fuel : nat) (T : suffix_table)
         (base_wit : string) (suffixes : list string)
  : option (string * list string) :=
  match fuel with
  | 0 => None
  | S fuel' =>
      let suffix := chosen_suffix T base_wit in
      if (String.length suffix =? 0)%nat then Some (base_wit, suffixes)
      else parse_wit_loop fuel' T
             (slice_to_minus base_wit (String.length suffix))
             (suffix :: suffixes)
  end.

Definition parse_wit (wit : string) (T : suffix_table) : option (string * list string) :=
  parse_wit_loop (S (String.length wit)) T wit [].

(** A [<rdg>] child of an [<app>]: its [n] and [wit] attributes. *)
Record rdg := { rdg_n : option string; rdg_wit : string }.

(** An [<app>]: its [xml:id] and its [tei:rdg] children in order. *)
Record app := { app_id : option string; app_rdgs : list rdg }.

(** The lines [find_unmatched_witness_pairs] prints, one constructor
    for each message. *)
Inductive finding : Type :=
| LoneSubwitness (subwit : string) (reading unit_id : option string)
| BaseAlongside (base_wit : string) (reading : option string)
                (subwits : list string) (unit_id : option string)
| NoCorrector (subwit : string) (reading unit_id : option string)
| NoFirstHand (subwit : string) (reading unit_id : option string)
| NoAlternateText (subwit : string) (reading unit_id : option string)
| NoMainText (subwit : string) (reading unit_id : option string)
| NoOtherAttestation (subwit : string) (reading unit_id : option string).

Definition wit_maps : Type :=
  dict (list (option string)) * dict (list (list string)).

(** Body of the loop over the citations of one reading. *)
Definition record_wit (T : suffix_table) (n : option string) (maps : wit_maps) (wit : string)
  : outcome wit_maps :=
  let rdgs_by_wit := dict_append (fst maps) wit n in
  parsed <- of_loop (parse_wit wit T) ;;
  Returned (rdgs_by_wit, dict_append (snd maps) (fst parsed) (snd parsed)).

Definition populate (T : suffix_table) (rdgs : list rdg) : outcome wit_maps :=
  for_each rdgs ([], [])
    (fun maps r => for_each (split_ws (rdg_wit r)) maps (record_wit T (rdg_n r))).

(** [rdgs_by_wit[subwit][0]] *)
Definition first_reading (rdgs_by_wit : dict (list (option string))) (subwit : string)
  : outcome (option string) :=
  l <- dict_index rdgs_by_wit subwit ;;
  match l with
  | n :: _ => Returned n
  | [] => Raised IndexError
  end.

(** The five tests that declare [suffix] matched by [other_suffix]. *)
Definition corresponds (T : suffix_table) (suffix other_suffix : string) : bool :=
  mem suffix (first_hand_suffixes T) && mem other_suffix (corrector_suffixes T)
  || mem suffix (corrector_suffixes T) && mem other_suffix (first_hand_suffixes T)
  || mem suffix (main_text_suffixes T) && mem other_suffix (alternate_suffixes T)
  || mem suffix (alternate_suffixes T) && mem other_suffix (main_text_suffixes T)
  || mem suffix (multiple_suffixes T) && mem other_suffix (multiple_suffixes T).

(** The loop over [other_suffix_list] that sets [suffix_matched]. *)
Definition suffix_matched (T : suffix_table) (suffix_lists : list (list string))
           (i : nat) (suffix : string) : bool :=
  existsb (fun other_suffix_list =>
             match nth_error other_suffix_list i with
             | None => false
             | Some other_suffix =>
                 if String.eqb other_suffix suffix then false
                 else corresponds T suffix other_suffix
             end) suffix_lists.

(** One of the five [if suffix in ...: print(...)] statements. *)
Definition report_if (cond : bool) (mk : string -> option string -> option string -> finding)
           (rdgs_by_wit : dict (list (option string))) (subwit : string)
           (unit_id : option string) (log : list finding) : outcome (list finding) :=
  if cond then
    n <- first_reading rdgs_by_wit subwit ;;
    Returned (log ++ [mk subwit n unit_id])%list
  else Returned log.

Definition report_unmatched (T : suffix_table) (rdgs_by_wit : dict (list (option string)))
           (subwit suffix : string) (unit_id : option string) (log : list finding)
  : outcome (list finding) :=
  log <- report_if (mem suffix (first_hand_suffixes T)) NoCorrector
           rdgs_by_wit subwit unit_id log ;;
  log <- report_if (mem suffix (corrector_suffixes T)) NoFirstHand
           rdgs_by_wit subwit unit_id log ;;
  log <- report_if (mem suffix (main_text_suffixes T)) NoAlternateText
           rdgs_by_wit subwit unit_id log ;;
  log <- report_if (mem suffix (alternate_suffixes T)) NoMainText
           rdgs_by_wit subwit unit_id log ;;
  report_if (mem suffix (multiple_suffixes T)) NoOtherAttestation
    rdgs_by_wit subwit unit_id log.

(** [for i, suffix in enumerate(suffix_list)], from position [i] on. *)
Fixpoint check_suffixes (T : suffix_table) (rdgs_by_wit : dict (list (option string)))
         (suffix_lists : list (list string)) (subwit : string) (unit_id : option string)
         (i : nat) (suffix_list : list string) (log : list finding)
  : outcome (list finding) :=
  match suffix_list with
  | [] => Returned log
  | suffix :: rest =>
      log <- (if suffix_matched T suffix_lists i suffix then Returned log
              else report_unmatched T rdgs_by_wit subwit suffix unit_id log) ;;
      check_suffixes T rdgs_by_wit suffix_lists subwit unit_id (S i) rest log
  end.

(** Body of [for suffix_list in suffix_lists]. *)
Definition check_suffix_list (T : suffix_table) (rdgs_by_wit : dict (list (option string)))
           (base_wit : string) (suffix_lists : list (list string))
           (unit_id : option string) (log : list finding) (suffix_list : list string)
  : outcome (list finding) :=
  log <- (if (List.length suffix_list =? 0)%nat then
            n <- first_reading rdgs_by_wit base_wit ;;
            let subwits :=
              map (fun other_suffix_list => base_wit ++ join "" other_suffix_list)
                (filter (fun _ => (0 <? List.length suffix_list)%nat) suffix_lists) in
            Returned (log ++ [BaseAlongside base_wit n subwits unit_id])%list
          else Returned log) ;;
  check_suffixes T rdgs_by_wit suffix_lists (base_wit ++ join "" suffix_list)
    unit_id 0 suffix_list log.

(** Body of [for base_wit in suffixes_by_base_wit]. *)
Definition check_base_wit (T : suffix_table) (rdgs_by_wit : dict (list (option string)))
           (unit_id : option string) (log : list finding)
           (entry : string * list (list string)) : outcome (list finding) :=
  let base_wit := fst entry in
  let suffix_lists := snd entry in
  match suffix_lists with
  | [only] =>
      if negb (List.length only =? 0)%nat then
        let subwit := base_wit ++ join "" only in
        n <- first_reading rdgs_by_wit subwit ;;
        Returned (log ++ [LoneSubwitness subwit n unit_id])%list
      else Returned log
  | _ =>
      for_each suffix_lists log
        (check_suffix_list T rdgs_by_wit base_wit suffix_lists unit_id)
  end.

(** [find_unmatched_witness_pairs] on one [<app>]. *)
Definition unmatched_in_app (T : suffix_table) (a : app) : outcome (list finding) :=
  maps <- populate T (app_rdgs a) ;;
  for_each (snd maps) [] (check_base_wit T (fst maps) (app_id a)).

(** [find_unmatched_witness_pairs]: everything printed, in order. *)
Definition find_unmatched_witness_pairs (xml : list app) (T : suffix_table)
  : outcome (list finding) :=
  for_each xml []
    (fun log a => found <- unmatched_in_app T a ;; Returned (log ++ found)%list).

(** ** The tree that [serialize] walks *)

Definition xml_ns : string := "http://www.w3.org/XML/1998/namespace".
Definition tei_ns : string := "http://www.tei-c.org/ns/1.0".

(** A node of an lxml tree: an element with its tag, attributes,
    text, children and tail, or a comment, processing instruction or
    entity, whose [tag] is not a string. *)
Local Unset Elimination Schemes.
Inductive xml : Type :=
| Element (tag : string) (attrib : dict string) (text : option string)
          (children : list xml) (tail : option string)
| NotElement.
Local Set Elimination Schemes.

(** [x.get(name)] *)
Definition get (x : xml) (name : string) : option string :=
  match x with
  | Element _ attrib _ _ _ => dict_get attrib name
  | NotElement => None
  end.

(** ['' if s is None else s] *)
Definition or_empty (s : option string) : string :=
  match s with
  | Some v => v
  | None => EmptyString
  end.

(** The [reason] of a [space] or [gap], in parentheses. *)
Definition reason_part (attrib : dict string) : string :=
  match dict_get attrib "reason" with
  | Some reason => " " ++ ("(" ++ reason ++ ")")
  | None => EmptyString
  end.

(** The extent of a [space] or [gap]; [otherwise] when [unit] or
    [extent] is missing. *)
Definition extent_part (attrib : dict string) (otherwise : string) : string :=
  match dict_get attrib "unit", dict_get attrib "extent" with
  | Some unit, Some extent => ", " ++ (extent ++ " " ++ unit)
  | _, _ => otherwise
  end.

(** [serialize].  On a node that is not an element, [xml.tag] is a
    function and [xml.tag.replace] raises [AttributeError]. *)
Fixpoint serialize (x : xml) : outcome string :=
  match x with
  | NotElement => Raised AttributeError
  | Element tag attrib text children tail =>
      let raw_tag := replace tag ("{" ++ tei_ns ++ "}") EmptyString in
      if String.eqb raw_tag "rdg" then
        parts <- each serialize children ;;
        Returned (or_empty text ++ join " " parts)
      else if mem raw_tag ["w"; "abbr"; "hi"] then
        parts <- each serialize children ;;
        Returned (or_empty text ++ join EmptyString parts ++ or_empty tail)
      else if String.eqb raw_tag "space" then
        Returned ("[" ++ "space" ++ reason_part attrib ++ extent_part attrib EmptyString
                  ++ "]" ++ or_empty tail)
      else if String.eqb raw_tag "ex" then
        parts <- each serialize children ;;
        Returned ("(" ++ or_empty text ++ join " " parts ++ ")" ++ or_empty tail)
      else if String.eqb raw_tag "gap" then
        Returned ("[" ++ "gap" ++ reason_part attrib ++ extent_part attrib "..."
                  ++ "]" ++ or_empty tail)
      else if mem raw_tag ["unclear"; "supplied"] then
        parts <- each serialize children ;;
        Returned ("[" ++ or_empty text ++ join " " parts ++ "]" ++ or_empty tail)
      else if String.eqb raw_tag "choice" then
        parts <- each serialize children ;;
        Returned ("[" ++ or_empty text ++ join "/" parts ++ "]" ++ or_empty tail)
      else if String.eqb raw_tag "ref" then
        Returned ("[" ++ or_empty text ++ "]" ++ or_empty tail)
      else Returned EmptyString
  end.

(** ** Duplicate readings and ambiguous attestations *)

(** [x.xpath('tei:name')]: the child elements of that name, in
    document order. *)
Definition is_named (name : string) (x : xml) : bool :=
  match x with
  | Element tag _ _ _ _ => String.eqb tag ("{" ++ tei_ns ++ "}" ++ name)
  | NotElement => false
  end.

Definition children_named (name : string) (x : xml) : list xml :=
  match x with
  | Element _ _ _ children _ => filter (is_named name) children
  | NotElement => []
  end.

(** [app.get('{%s}id' % xml_ns)] *)
Definition unit_id (app : xml) : option string :=
  get app ("{" ++ xml_ns ++ "}id").

(** The lines the two checks print. *)
Inductive notice : Type :=
| DuplicateReading (rdg_text : string) (readings : list (option string))
                   (unit_id : option string)
| AmbiguousWitness (wit : string) (readings : list (option string))
                   (unit_id : option string).

(** The second loop of both checks: one line for each key that
    gathered more than one reading, in the order of the dictionary. *)
Definition report_repeated (mk : string -> list (option string) -> option string -> notice)
           (unit_id : option string) (readings_by_key : dict (list (option string)))
  : list notice :=
  flat_map (fun entry =>
              if (1 <? List.length (snd entry))%nat
              then [mk (fst entry) (snd entry) unit_id]
              else [])
    readings_by_key.

(** [rdg.get('type') is not None and rdg.get('type') in ['overlap', 'lac']] *)
Definition overlap_or_lac (rdg : xml) : bool :=
  match get rdg "type" with
  | Some t => mem t ["overlap"; "lac"]
  | None => false
  end.

(** [find_duplicate_readings] on one [<app>]. *)
Definition duplicates_in_app (app : xml) : outcome (list notice) :=
  rdgs_by_text <- for_each (children_named "rdg" app) []
                    (fun rdgs_by_text rdg =>
                       if overlap_or_lac rdg then Returned rdgs_by_text
                       else
                         rdg_text <- serialize rdg ;;
                         Returned (dict_append rdgs_by_text rdg_text (get rdg "n"))) ;;
  Returned (report_repeated DuplicateReading (unit_id app) rdgs_by_text).

(** [rdg.get('wit').split()]: [AttributeError] when there is no
    [wit]. *)
Definition wits_of (rdg : xml) : outcome (list string) :=
  match get rdg "wit" with
  | Some wit => Returned (split_ws wit)
  | None => Raised AttributeError
  end.

(** [find_ambiguous_attestations] on one [<app>]. *)
Definition attestations_in_app (app : xml) : outcome (list notice) :=
  rdgs_by_wit <- for_each (children_named "rdg" app) []
                   (fun rdgs_by_wit rdg =>
                      wits <- wits_of rdg ;;
                      Returned (fold_left (fun d wit => dict_append d wit (get rdg "n"))
                                  wits rdgs_by_wit)) ;;
  Returned (report_repeated AmbiguousWitness (unit_id app) rdgs_by_wit).

(** A check run over the [<app>] elements of the document in order:
    what it has printed, and whether it came to its end. *)
Fixpoint over_apps (check : xml -> outcome (list notice)) (apps : list xml)
  : list notice * outcome unit :=
  match apps with
  | [] => ([], Returned tt)
  | app :: rest =>
      match check app with
      | Returned found =>
          let r := over_apps check rest in ((found ++ fst r)%list, snd r)
      | Raised e => ([], Raised e)
      | Hangs => ([], Hangs)
      end
  end.

Definition find_duplicate_readings (apps : list xml) : list notice * outcome unit :=
  over_apps duplicates_in_app apps.

Definition find_ambiguous_attestations (apps : list xml) : list notice * outcome unit :=
  over_apps attestations_in_app apps.

End Validate.

(* ================================================================== *)
(** * merge_variation_units.py *)
(* ================================================================== *)

Module Merge.
Import Py.

Definition LAC_SYMBOL : string := "Z".

(** A child element of a reading, as text, and its [tail]. *)
Record child := { child_xml : string; child_tail : option string }.

(** A [<rdg>] or [<witDetail>] with the attributes the script reads. *)
Record rdg := {
  rdg_xml_id : option string;
  rdg_n : option string;
  rdg_wit : string;
  rdg_type : option string;
  rdg_cause : option string;
  rdg_ana : option string;
  rdg_lang : option string;
  rdg_text : option string;
  rdg_children : list child
}.

(** An [<app>]: [xml:id], [n], and what [.//tei:rdg|.//tei:witDetail]
    selects, in document order. *)
Record variation_unit := {
  vu_xml_id : option string;
  vu_n : option string;
  vu_rdgs : list rdg
}.

(** [xml:id] if present, else [n], else the empty string. *)
Definition id_or_n (xml_id n : option string) : string :=
  match xml_id, n with
  | Some i, _ => i
  | None, Some m => m
  | None, None => EmptyString
  end.

Definition rdg_id (r : rdg) : string := id_or_n (rdg_xml_id r) (rdg_n r).
Definition app_id (u : variation_unit) : string := id_or_n (vu_xml_id u) (vu_n u).

Record Collation := {
  witnesses : list string;
  witness_index_by_id : dict nat;
  variation_units : list variation_unit;
  reading_to_index_maps : list (dict nat)
}.

(** [get_base_wit]: the [while len(base_wit) > 0] loop.  Every pass
    that does not return drops one character, so [len(wit)] passes
    are all there can be. *)
Fixpoint get_base_wit_loop (passes : nat) (index : dict nat) (base_wit : string) : string :=
  match passes with
  | 0 => base_wit
  | S passes' =>
      if (0 <? String.length base_wit)%nat then
        if dict_mem index base_wit then base_wit
        else get_base_wit_loop passes' index (slice_to_minus base_wit 1)
      else base_wit
  end.

Definition get_base_wit (index : dict nat) (wit : string) : string :=
  get_base_wit_loop (String.length wit) index wit.

(** [parse_list_wit], from the sigla of the [<witness>] elements. *)
Definition parse_list_wit (sigla : list string) : list string * dict nat :=
  (sigla, index_map sigla).

(** The reading-to-index map of one unit in [parse_apps]. *)
Definition reading_to_index_map (u : variation_unit) : dict nat :=
  let m := index_map (map rdg_id (vu_rdgs u)) in
  if dict_mem m LAC_SYMBOL then m else dict_set m LAC_SYMBOL (List.length m).

Definition parse_apps (apps : list variation_unit) (target_variation_units : list string)
  : list variation_unit * list (dict nat) :=
  let kept := filter (fun a => mem (app_id a) target_variation_units) apps in
  (kept, map reading_to_index_map kept).

(** [Collation(xml, variation_units)] *)
Definition new_Collation (sigla : list string) (apps : list variation_unit)
           (target_variation_units : list string) : Collation :=
  let w := parse_list_wit sigla in
  let a := parse_apps apps target_variation_units in
  {| witnesses := fst w; witness_index_by_id := snd w;
     variation_units := fst a; reading_to_index_maps := snd a |}.

(** What [merge_variation_units] prints about a citation. *)
Inductive report : Type :=
| NoBaseWitness (siglum : string).

(** A computation that prints: what was printed stays printed when
    an exception follows. *)
Definition logged (A : Type) : Type := list report * outcome A.

Definition ret {A} (a : A) : logged A := ([], Returned a).

Definition lbind {A B} (m : logged A) (k : A -> logged B) : logged B :=
  match snd m with
  | Returned a => let r := k a in ((fst m ++ fst r)%list, snd r)
  | Raised e => (fst m, Raised e)
  | Hangs => (fst m, Hangs)
  end.

Definition lift {A} (o : outcome A) : logged A := ([], o).

Fixpoint lfor_each {A S} (l : list A) (acc : S) (body : S -> A -> logged S) : logged S :=
  match l with
  | [] => ret acc
  | x :: rest => lbind (body acc x) (fun acc' => lfor_each rest acc' body)
  end.

(** [rdg.get("wit").replace("#", "").split()] *)
Definition wits_of (r : rdg) : list string :=
  split_ws (replace (rdg_wit r) "#" EmptyString).

(** The citations of a unit in document order, each with the id of
    the reading it stands under. *)
Definition citations (u : variation_unit) : list (string * string) :=
  flat_map (fun r => map (fun wit => (rdg_id r, wit)) (wits_of r)) (vu_rdgs u).

Section SetOrder.
(** A Python [set] is kept as the list of its members.  The order
    in which a [for] loop visits a set of strings is not fixed by
    the language (it follows the hashes of the strings, which are
    salted anew in every process): it is the parameter
    [set_order], applied to the set wherever the script iterates
    over one. *)
Variable set_order : list string -> list string.

(** [for siglum in s: if p(siglum): ...; break] *)
Definition first_in_set (p : string -> bool) (s : list string) : option string :=
  find p (set_order s).

(** [s.remove(x)] *)
Definition set_remove (x : string) (s : list string) : list string :=
  filter (fun y => negb (String.eqb y x)) s.

(** Lines 156-176: what one citation does to
    [sigla_by_base_witness]. *)
Definition register_siglum (index : dict nat)
           (sigla_by_base_witness : dict (list string)) (wit : string)
  : logged (dict (list string)) :=
  let base_wit := get_base_wit index wit in
  lbind (if String.eqb base_wit EmptyString then ([NoBaseWitness wit], Returned tt)
         else ret tt)
    (fun _ =>
       if String.eqb wit base_wit then ret sigla_by_base_witness
       else
         lbind (lift (dict_index sigla_by_base_witness base_wit))
           (fun sigla =>
              match first_in_set
                      (fun siglum => contains siglum wit && negb (String.eqb siglum wit))
                      sigla with
              | Some _ => ret sigla_by_base_witness
              | None =>
                  let sigla' :=
                    match first_in_set
                            (fun siglum =>
                               contains wit siglum && negb (String.eqb siglum wit))
                            sigla with
                    | Some siglum => set_remove siglum sigla
                    | None => sigla
                    end in
                  ret (dict_set sigla_by_base_witness base_wit (set_add wit sigla'))
              end)).

Definition all_wits (units : list variation_unit) : list string :=
  flat_map (fun u => flat_map wits_of (vu_rdgs u)) units.

(** Lines 149-176. *)
Definition build_sigla_by_base_witness (c : Collation) : logged (dict (list string)) :=
  let init := fold_left (fun d wit => dict_set d wit []) (witnesses c) [] in
  lfor_each (all_wits (variation_units c)) init
    (register_siglum (witness_index_by_id c)).

(** Lines 177-187. *)
Definition init_reading_lists (c : Collation) (sigla_by_base_witness : dict (list string))
  : outcome (dict (list string)) :=
  let blank := repeat LAC_SYMBOL (List.length (variation_units c)) in
  for_each (witnesses c) []
    (fun reading_lists_by_siglum base_wit =>
       sigla <- dict_index sigla_by_base_witness base_wit ;;
       if (List.length sigla =? 0)%nat
       then Returned (dict_set reading_lists_by_siglum base_wit blank)
       else Returned (fold_left (fun d siglum => dict_set d siglum blank)
                        (set_order sigla) reading_lists_by_siglum)).

(** [reading_lists_by_siglum[siglum][i] = rdg_id] *)
Definition set_reading (reading_lists_by_siglum : dict (list string))
           (siglum : string) (i : nat) (rdg_id : string)
  : outcome (dict (list string)) :=
  row <- dict_index reading_lists_by_siglum siglum ;;
  row' <- list_assign row i rdg_id ;;
  Returned (dict_set reading_lists_by_siglum siglum row').

(** Lines 200-210: what one citation of unit [i] does to
    [reading_lists_by_siglum]. *)
Definition record_citation (index : dict nat) (sigla_by_base_witness : dict (list string))
           (i : nat) (reading_lists_by_siglum : dict (list string))
           (citation : string * string) : outcome (dict (list string)) :=
  let rdg_id := fst citation in
  let wit := snd citation in
  if dict_mem reading_lists_by_siglum wit
  then set_reading reading_lists_by_siglum wit i rdg_id
  else
    sigla <- dict_index sigla_by_base_witness (get_base_wit index wit) ;;
    for_each (set_order sigla) reading_lists_by_siglum
      (fun lists siglum =>
         if contains siglum wit then set_reading lists siglum i rdg_id
         else Returned lists).

(** Lines 188-210, from unit [i] on. *)
Fixpoint record_units (index : dict nat) (sigla_by_base_witness : dict (list string))
         (i : nat) (units : list variation_unit)
         (reading_lists_by_siglum : dict (list string))
  : outcome (dict (list string)) :=
  match units with
  | [] => Returned reading_lists_by_siglum
  | u :: rest =>
      lists <- for_each (citations u) reading_lists_by_siglum
                 (record_citation index sigla_by_base_witness i) ;;
      record_units index sigla_by_base_witness (S i) rest lists
  end.

(** The attestation matrix: lines 149-210. *)
Definition attestation_matrix (c : Collation)
  : logged (dict (list string) * dict (list string)) :=
  lbind (build_sigla_by_base_witness c)
    (fun sigla_by_base_witness =>
       lift (lists <- init_reading_lists c sigla_by_base_witness ;;
             lists <- record_units (witness_index_by_id c) sigla_by_base_witness
                        0 (variation_units c) lists ;;
             Returned (sigla_by_base_witness, lists))).

(** Lines 211-222. *)
Definition group_by_sequence (c : Collation) (reading_lists_by_siglum : dict (list string))
  : outcome (dict (list string)) :=
  let grouped :=
    fold_left (fun d entry => dict_append d (join "," (snd entry)) (fst entry))
      reading_lists_by_siglum [] in
  for_each grouped []
    (fun acc entry =>
       wits <- sorted_with Nat.leb
                 (fun w => dict_index (witness_index_by_id c)
                             (get_base_wit (witness_index_by_id c) w))
                 (snd entry) ;;
       Returned (acc ++ [(fst entry, wits)])%list).

(** The synthesized [<witDetail n="Z" type="lac"/>]. *)
Definition lac_wit_detail : rdg :=
  {| rdg_xml_id := None; rdg_n := Some LAC_SYMBOL; rdg_wit := EmptyString;
     rdg_type := Some "lac"; rdg_cause := None; rdg_ana := None; rdg_lang := None;
     rdg_text := None; rdg_children := [] |}.

Definition pair_eqb (a b : string * string) : bool :=
  String.eqb (fst a) (fst b) && String.eqb (snd a) (snd b).

Definition pair_get (d : list ((string * string) * rdg)) (k : string * string)
  : outcome rdg :=
  match find (fun entry => pair_eqb (fst entry) k) d with
  | Some entry => Returned (snd entry)
  | None => Raised (KeyErrorPair (fst k) (snd k))
  end.

Fixpoint pair_set (d : list ((string * string) * rdg)) (k : string * string) (v : rdg)
  : list ((string * string) * rdg) :=
  match d with
  | [] => [(k, v)]
  | (k', v') :: rest =>
      if pair_eqb k' k then (k', v) :: rest else (k', v') :: pair_set rest k v
  end.

(** Lines 223-239. *)
Definition build_rdg_by_app_rdg (c : Collation) : list ((string * string) * rdg) :=
  fold_left
    (fun d u =>
       let d := fold_left (fun d r => pair_set d (app_id u, rdg_id r) r) (vu_rdgs u) d in
       match pair_get d (app_id u, LAC_SYMBOL) with
       | Returned _ => d
       | _ => pair_set d (app_id u, LAC_SYMBOL) lac_wit_detail
       end)
    (variation_units c) [].

(** The sort key of a reading sequence (line 244). *)
Definition sequence_key (c : Collation) (reading_sequence : string) : outcome (list nat) :=
  for_each (enumerate (split_on "," reading_sequence)) []
    (fun acc j_rdg_id =>
       m <- list_index (reading_to_index_maps c) (fst j_rdg_id) ;;
       k <- dict_index m (snd j_rdg_id) ;;
       Returned (acc ++ [k])%list).

(** A [<seg>] of a merged reading. *)
Record seg := { seg_text : option string; seg_children : list child; seg_tail : string }.

(** A merged [<rdg>]. *)
Record merged_rdg := {
  m_n : string;
  m_wit : string;
  m_type : option string;
  m_cause : option string;
  m_ana : option string;
  m_lang : option string;
  m_segs : list seg;
  m_tail : string
}.

(** [if a is not None and a not in l: l.append(a)] *)
Definition add_attr (a : option string) (l : list string) : list string :=
  match a with
  | Some v => if mem v l then l else (l ++ [v])%list
  | None => l
  end.

(** [el.set(name, " ".join(l))] when [l] is not empty. *)
Definition joined_attr (l : list string) : option string :=
  match l with
  | [] => None
  | _ => Some (join " " l)
  end.

Fixpoint set_last_tail (tail : string) (l : list child) : list child :=
  match l with
  | [] => []
  | [x] => [{| child_xml := child_xml x; child_tail := Some tail |}]
  | x :: rest => x :: set_last_tail tail rest
  end.

Definition nl (tabs : string) : string := String "010"%char tabs.
Definition tab : string := String "009"%char EmptyString.

Definition make_seg (r : rdg) : seg :=
  match rdg_children r with
  | [] => {| seg_text := rdg_text r; seg_children := []; seg_tail := nl (tab ++ tab) |}
  | cs => {| seg_text := Some (nl (tab ++ tab ++ tab));
             seg_children := set_last_tail (nl (tab ++ tab)) cs;
             seg_tail := nl (tab ++ tab) |}
  end.

Fixpoint set_last_seg_tail (tail : string) (l : list seg) : list seg :=
  match l with
  | [] => []
  | [x] => [{| seg_text := seg_text x; seg_children := seg_children x; seg_tail := tail |}]
  | x :: rest => x :: set_last_seg_tail tail rest
  end.

(** Body of [for rdg_sequence in rdg_sequences] (lines 246-297). *)
Definition merge_sequence (variation_unit_ids : list string)
           (rdg_by_app_rdg : list ((string * string) * rdg))
           (wits_by_reading_sequence : dict (list string)) (rdg_sequence : string)
  : outcome merged_rdg :=
  wits <- dict_index wits_by_reading_sequence rdg_sequence ;;
  rdgs <- for_each (enumerate (split_on "," rdg_sequence)) []
            (fun acc i_rdg_id =>
               variation_unit_id <- list_index variation_unit_ids (fst i_rdg_id) ;;
               r <- pair_get rdg_by_app_rdg (variation_unit_id, snd i_rdg_id) ;;
               Returned (acc ++ [r])%list) ;;
  Returned
    {| m_n := rdg_sequence;
       m_wit := join " " wits;
       m_type := joined_attr (fold_left (fun l r => add_attr (rdg_type r) l) rdgs []);
       m_cause := joined_attr (fold_left (fun l r => add_attr (rdg_cause r) l) rdgs []);
       m_ana := joined_attr (fold_left (fun l r => add_attr (rdg_ana r) l) rdgs []);
       m_lang := joined_attr (fold_left (fun l r => add_attr (rdg_lang r) l) rdgs []);
       m_segs := set_last_seg_tail (nl tab) (map make_seg rdgs);
       m_tail := nl tab |}.

(** [merge_variation_units]: the children of the merged [<app>]
    (whose own text is a newline and a tab). *)
Definition merge_variation_units (c : Collation) : logged (list merged_rdg) :=
  let variation_unit_ids := map app_id (variation_units c) in
  lbind (attestation_matrix c)
    (fun matrix =>
       lift (wits_by_reading_sequence <- group_by_sequence c (snd matrix) ;;
             let rdg_by_app_rdg := build_rdg_by_app_rdg c in
             rdg_sequences <- sorted_with tuple_leb (sequence_key c)
                                (keys wits_by_reading_sequence) ;;
             merged <- for_each rdg_sequences []
                         (fun acc rdg_sequence =>
                            m <- merge_sequence variation_unit_ids rdg_by_app_rdg
                                   wits_by_reading_sequence rdg_sequence ;;
                            Returned (acc ++ [m])%list) ;;
             Returned merged)).

End SetOrder.

End Merge.

(* ================================================================== *)
(** * transpose_variant_readings.py *)
(* ================================================================== *)

Module Transpose.
Import Py.

(** [s[0] == c]; [IndexError] on the empty string. *)
Definition first_is (c : ascii) (s : string) : outcome bool :=
  match s with
  | EmptyString => Raised IndexError
  | String d _ => Returned (Ascii.eqb d c)
  end.

Definition to_int (s : string) : outcome Z :=
  match int s with
  | Some n => Returned (Z.of_nat n)
  | None => Raised (ValueError s)
  end.

Definition reading_reference_key (rdg_str : string) : outcome Z :=
  hash <- first_is "#" rdg_str ;;
  if hash then
    part <- list_index (split_on "R" rdg_str) 1 ;;
    to_int part
  else to_int rdg_str.

(** [xml.get(name) is not None and xml.get(name) == value] *)
Definition attr_is (a : option string) (value : string) : bool :=
  match a with
  | Some v => String.eqb v value
  | None => false
  end.

(** [<relation active="..." passive="..." ana="..."/>] *)
Record relation := {
  rel_active : string;
  rel_passive : string;
  rel_ana : option string;
  rel_rest : string
}.

(** The rewriting of one target of a relation: lines 193-199, and
    again 205-211. *)
Definition relation_target (transposition_dict : dict string) (target : string)
  : outcome string :=
  hash <- first_is "#" target ;;
  if hash then
    let target_parts := split_on "R" (strip "#" target) in
    old <- list_index target_parts 1 ;;
    new <- dict_index transposition_dict old ;;
    target_parts <- list_assign target_parts 1 new ;;
    Returned (join "R" target_parts)
  else dict_index transposition_dict target.

Definition sort_references (targets : list string) : outcome (list string) :=
  sorted_with Z.leb reading_reference_key targets.

(** Lines 190-200: every target is rewritten in place, then the list
    is sorted. *)
Definition active_targets (transposition_dict : dict string) (active : string)
  : outcome (list string) :=
  targets <- for_each (split_ws active) []
               (fun acc target =>
                  t <- relation_target transposition_dict target ;;
                  Returned (acc ++ [t])%list) ;;
  sort_references targets.

(** Lines 202-212.  Here [sorted] stands inside the [for] loop.  The
    loop goes on reading the list it started on, of which only the
    first place has been written, so pass [i] reads target [i] as it
    was; it writes the rewritten target at place [i] of the list
    [passive_targets] names at that moment, which from the second
    pass on is the list sorted at the end of the pass before. *)
Definition passive_targets (transposition_dict : dict string) (passive : string)
  : outcome (list string) :=
  let targets := split_ws passive in
  for_each (enumerate targets) targets
    (fun current i_target =>
       t <- relation_target transposition_dict (snd i_target) ;;
       current <- list_assign current (fst i_target) t ;;
       sort_references current).

Definition process_relation (xml : relation) (transposition_dict : dict string)
  : outcome relation :=
  active <- active_targets transposition_dict (rel_active xml) ;;
  passive <- passive_targets transposition_dict (rel_passive xml) ;;
  Returned {| rel_active := join " " active; rel_passive := join " " passive;
              rel_ana := rel_ana xml; rel_rest := rel_rest xml |}.

(** A child of a [<listRelation>]. *)
Inductive relation_child : Type :=
| Relation (r : relation)
| RelationComment (text : string).

(** The keys of the children of a [<listRelation>], in order; a
    comment takes the key of the sibling before it. *)
Definition relation_key_own (r : relation) : outcome (list Z * list Z) :=
  if attr_is (rel_ana r) "#Byz" then Returned ([999%Z], [999%Z])
  else
    active_keys <- for_each (split_ws (rel_active r)) []
                     (fun acc k => z <- reading_reference_key k ;;
                                   Returned (acc ++ [z])%list) ;;
    passive_keys <- for_each (split_ws (rel_passive r)) []
                      (fun acc k => z <- reading_reference_key k ;;
                                    Returned (acc ++ [z])%list) ;;
    Returned (active_keys, passive_keys).

(** Keys of a list of siblings, for a key function that gives a
    comment the key of the sibling before it, and [first] to a
    comment with none: [own] is [None] on a comment. *)
Fixpoint sibling_keys {A K} (own : A -> option (outcome K)) (previous : K) (l : list A)
  : outcome (list K) :=
  match l with
  | [] => Returned []
  | x :: rest =>
      k <- match own x with
           | Some o => o
           | None => Returned previous
           end ;;
      ks <- sibling_keys own k rest ;;
      Returned (k :: ks)
  end.

Definition pair_leb (a b : list Z * list Z) : bool :=
  if ztuple_leb (fst a) (fst b)
  then (if ztuple_leb (fst b) (fst a) then ztuple_leb (snd a) (snd b) else true)
  else false.

Definition relation_keys (children : list relation_child)
  : outcome (list (list Z * list Z)) :=
  sibling_keys (fun x => match x with
                         | Relation r => Some (relation_key_own r)
                         | RelationComment _ => None
                         end)
    ([(-1)%Z], [(-1)%Z]) children.

(** [process_list_relation] *)
Definition process_list_relation (children : list relation_child)
           (transposition_dict : dict string) : outcome (list relation_child) :=
  children <- for_each children []
                (fun acc x =>
                   match x with
                   | Relation r =>
                       r' <- process_relation r transposition_dict ;;
                       Returned (acc ++ [Relation r'])%list
                   | RelationComment _ => Returned (acc ++ [x])%list
                   end) ;;
  ks <- relation_keys children ;;
  Returned (sorted_by_keys pair_leb ks children).

(** A child of a [<note>]. *)
Inductive note_child : Type :=
| ListRelation (children : list relation_child)
| NoteOther (xml : string).

(** [process_note] *)
Definition process_note (children : list note_child) (transposition_dict : dict string)
  : outcome (list note_child) :=
  for_each children []
    (fun acc x =>
       match x with
       | ListRelation rs =>
           rs' <- process_list_relation rs transposition_dict ;;
           Returned (acc ++ [ListRelation rs'])%list
       | NoteOther _ => Returned (acc ++ [x])%list
       end).

(** [<rdg n="..." xml:id="...">]; [rdg_rest] is everything the script
    does not touch. *)
Record rdg := {
  rdg_n : string;
  rdg_xml_id : option string;
  rdg_rest : string
}.

(** The second half of [process_rdg] and of [process_wit_detail]:
    the part of the [xml:id] after the first [R] becomes the new
    number. *)
Definition renumber_id (xml_id : option string) (n : string) : outcome (option string) :=
  match xml_id with
  | None => Returned None
  | Some rdg_id =>
      rdg_id_parts <- list_assign (split_on "R" rdg_id) 1 n ;;
      Returned (Some (join "R" rdg_id_parts))
  end.

(** [l[0] = d[l[0]]] on the parts of a number. *)
Definition first_part (l : list string) : outcome (string * list string) :=
  match l with
  | [] => Raised IndexError
  | x :: rest => Returned (x, rest)
  end.

Definition process_rdg (xml : rdg) (transposition_dict : dict string) : outcome rdg :=
  parts <- first_part (split_on "-" (rdg_n xml)) ;;
  new <- dict_index transposition_dict (fst parts) ;;
  let n := join "-" (new :: snd parts) in
  xml_id <- renumber_id (rdg_xml_id xml) n ;;
  Returned {| rdg_n := n; rdg_xml_id := xml_id; rdg_rest := rdg_rest xml |}.

(** A child of a [<witDetail>]. *)
Inductive certainty_child : Type :=
| Certainty (target : string) (rest : string)
| CertaintyComment (text : string).

(** [process_certainty].  The target rewritten for a [#] reference
    is itself looked up in the dictionary on the last line. *)
Definition process_certainty (target : string) (transposition_dict : dict string)
  : outcome string :=
  hash <- first_is "#" target ;;
  target <- (if hash then
               let target_parts := split_on "R" (strip "#" target) in
               old <- list_index target_parts 1 ;;
               new <- dict_index transposition_dict old ;;
               target_parts <- list_assign target_parts 1 new ;;
               Returned ("#" ++ join "R" target_parts)
             else Returned target) ;;
  dict_index transposition_dict target.

Definition certainty_keys (children : list certainty_child) : outcome (list Z) :=
  sibling_keys (fun x => match x with
                         | Certainty target _ => Some (reading_reference_key target)
                         | CertaintyComment _ => None
                         end)
    (-1)%Z children.

(** [<witDetail type="..." n="..." xml:id="..." target="...">] *)
Record wit_detail := {
  wd_type : option string;
  wd_n : string;
  wd_xml_id : option string;
  wd_target : option string;
  wd_children : list certainty_child;
  wd_rest : string
}.

(** [xml.get(name)] followed by a method call: [AttributeError] on
    [None]. *)
Definition required (a : option string) : outcome string :=
  match a with
  | Some v => Returned v
  | None => Raised AttributeError
  end.

(** The rewriting of one target of a [witDetail]: lines 168-175. *)
Definition wit_detail_target (transposition_dict : dict string) (target : string)
  : outcome string :=
  hash <- first_is "#" target ;;
  if hash then
    let target_parts := split_on "R" (strip "#" target) in
    old <- list_index target_parts 1 ;;
    new <- dict_index transposition_dict old ;;
    target_parts <- list_assign target_parts 1 new ;;
    Returned ("#" ++ join "R" target_parts)
  else dict_index transposition_dict target.

Definition has_certainty (children : list certainty_child) : bool :=
  existsb (fun x => match x with Certainty _ _ => true | _ => false end) children.

Definition process_wit_detail (xml : wit_detail) (transposition_dict : dict string)
  : outcome wit_detail :=
  parts <- first_part (split_on "-" (wd_n xml)) ;;
  rdg_n_targets <- for_each (split_on "/" (strip "W" (fst parts))) []
                     (fun acc target =>
                        t <- dict_index transposition_dict target ;;
                        Returned (acc ++ [t])%list) ;;
  rdg_n_targets <- sort_references rdg_n_targets ;;
  let n := join "-" (("W" ++ join "/" rdg_n_targets) :: snd parts) in
  xml_id <- renumber_id (wd_xml_id xml) n ;;
  target <- required (wd_target xml) ;;
  targets <- for_each (split_ws target) []
               (fun acc target =>
                  t <- wit_detail_target transposition_dict target ;;
                  Returned (acc ++ [t])%list) ;;
  targets <- sort_references targets ;;
  children <- for_each (wd_children xml) []
                (fun acc x =>
                   match x with
                   | Certainty target rest =>
                       t <- process_certainty target transposition_dict ;;
                       Returned (acc ++ [Certainty t rest])%list
                   | CertaintyComment _ => Returned (acc ++ [x])%list
                   end) ;;
  children <- (if has_certainty children then
                 ks <- certainty_keys children ;;
                 Returned (sorted_by_keys Z.leb ks children)
               else Returned children) ;;
  Returned {| wd_type := wd_type xml; wd_n := n; wd_xml_id := xml_id;
              wd_target := Some (join " " targets); wd_children := children;
              wd_rest := wd_rest xml |}.

(** A child of an [<app>]. *)
Inductive node : Type :=
| Comment (text : string)
| Lem (xml : string)
| Rdg (r : rdg)
| WitDetail (w : wit_detail)
| Note (children : list note_child)
| Other (tag : string) (xml : string).

(** The five numbers [rdg_key] reads off the [n] of a reading. *)
Definition set_nth (l : list Z) (i : nat) (v : Z) : list Z :=
  (firstn i l ++ v :: skipn (S i) l)%list.

(** Body of [for part in n.split("-")]. *)
Definition rdg_n_part (rdg_n_list : list Z) (part : string) : outcome (list Z) :=
  match part with
  | EmptyString => Raised IndexError
  | String c _ =>
      if Ascii.eqb c "v" then z <- to_int (strip "v" part) ;;
                              Returned (set_nth rdg_n_list 4 z)
      else if Ascii.eqb c "f" then z <- to_int (strip "f" part) ;;
                                   Returned (set_nth rdg_n_list 3 z)
      else if Ascii.eqb c "o" then z <- to_int (strip "o" part) ;;
                                   Returned (set_nth rdg_n_list 2 z)
      else if Ascii.eqb c "s" then z <- to_int (strip "s" part) ;;
                                   Returned (set_nth rdg_n_list 1 z)
      else z <- to_int part ;; Returned (set_nth rdg_n_list 0 z)
  end.

Definition rdg_n_list (n : string) : outcome (list Z) :=
  for_each (split_on "-" n) [0; 0; 0; 0; 0]%Z rdg_n_part.

(** [rdg_key] on an element that is not a comment. *)
Definition rdg_key_own (x : node) : option (outcome (list Z)) :=
  match x with
  | Comment _ => None
  | Lem _ => Some (Returned [0%Z])
  | Rdg r => Some (l <- rdg_n_list (rdg_n r) ;; Returned (1%Z :: l))
  | WitDetail w =>
      Some
        (if attr_is (wd_type w) "ambiguous" then
           target <- required (wd_target w) ;;
           targets <- for_each (split_ws target) []
                        (fun acc target_n =>
                           z <- to_int target_n ;; Returned (acc ++ [z])%list) ;;
           match split_on "-" (wd_n w) with
           | _ :: second :: _ =>
               z <- to_int second ;;
               Returned (2 :: 0 :: targets ++ [z])%Z%list
           | _ => Returned (2 :: 0 :: targets)%Z
           end
         else if attr_is (wd_type w) "overlap" then Returned [2; 1]%Z
         else if attr_is (wd_type w) "lac" then Returned [2; 2]%Z
         else Returned [2%Z])
  | Note _ => Some (Returned [3%Z])
  | Other _ _ => Some (Returned [])
  end.

Definition rdg_keys (children : list node) : outcome (list (list Z)) :=
  sibling_keys rdg_key_own [(-1)%Z] children.

(** The dispatch in the loop of [process_app]. *)
Definition process_child (transposition_dict : dict string) (child : node) : outcome node :=
  match child with
  | Rdg r => r' <- process_rdg r transposition_dict ;; Returned (Rdg r')
  | WitDetail w =>
      if attr_is (wd_type w) "ambiguous" then
        w' <- process_wit_detail w transposition_dict ;; Returned (WitDetail w')
      else Returned child
  | Note children =>
      children' <- process_note children transposition_dict ;; Returned (Note children')
  | _ => Returned child
  end.

(** [process_app]: the children of the [<app>] as they are left. *)
Definition process_app (children : list node) (transposition_dict : dict string)
  : outcome (list node) :=
  children <- for_each children []
                (fun acc child =>
                   child' <- process_child transposition_dict child ;;
                   Returned (acc ++ [child'])%list) ;;
  ks <- rdg_keys children ;;
  Returned (sorted_by_keys ztuple_leb ks children).

(** The dictionary [main] builds from the sequence on the command
    line: the number at place [i] becomes [i + 1]. *)
Definition make_transposition_dict (sequence : list string) : dict string :=
  fold_left (fun d i_n => dict_set d (snd i_n) (str (S (fst i_n))))
    (enumerate sequence) [].

(** [args.sequence.strip("(").strip(")").split(",")] *)
Definition sequence_of_argument (sequence : string) : list string :=
  split_on "," (strip ")" (strip "(" sequence)).

End Transpose.

(** Vocabulary for the properties of the renumbering engine. *)
Module TransposeSpec.
Import Py Transpose.

(** [c not in s] *)
Fixpoint lacks (c : ascii) (s : string) : bool :=
  match s with
  | EmptyString => true
  | String d s' => negb (Ascii.eqb d c) && lacks c s'
  end.


(** A dictionary from reading numbers to reading numbers, all of them
    decimal numerals, different numerals being different numbers. *)
Record numbering (d : dict string) : Prop := {
  numbering_plain :
    forall x y, dict_get d x = Some y -> int x <> None /\ int y <> None;
  numbering_keys :
    forall x1 y1 x2 y2,
      dict_get d x1 = Some y1 -> dict_get d x2 = Some y2 -> int x1 = int x2 -> x1 = x2;
  numbering_values :
    forall x1 y1 x2 y2,
      dict_get d x1 = Some y1 -> dict_get d x2 = Some y2 -> int y1 = int y2 -> y1 = y2
}.

(** [d'] sends every new number back to the old one. *)
Definition inverts (d d' : dict string) : Prop :=
  forall x y, dict_get d x = Some y -> dict_get d' y = Some x.



(** The key [rdg_key] returns for an element, [()] where it has none
    of its own or raises. *)
Definition key_of (x : node) : list Z :=
  match rdg_key_own x with
  | Some (Returned k) => k
  | _ => []
  end.


(** The children stand in ascending order of their keys. *)
Definition ascending (children : list node) : Prop :=
  StronglySorted (fun x y => ztuple_leb (key_of x) (key_of y) = true) children.







(** The first place of [x] in [l], counted from 0 (the length of [l]
    when [x] is not in it). *)
Fixpoint place (x : string) (l : list string) : nat :=
  match l with
  | [] => 0
  | y :: rest => if String.eqb y x then 0 else S (place x rest)
  end.

(** The sequence that undoes [sequence]: in the place of the number
    [k] stands the number of the place [k] has in [sequence]. *)
Definition inverse_sequence (sequence : list string) : list string :=
  map (fun k => str (S (place (str k) sequence))) (seq 1 (List.length sequence)).

End TransposeSpec.

(** Vocabulary for the properties of the attestation matrix. *)
Module MergeSpec.
Import Py Merge.

(** Whether a citation [wit] writes the row of [key]: the test of
    lines 202 and 207-208, read off [record_citation]. *)
Definition writes (index : dict nat) (sigla_by_base_witness : dict (list string))
           (reading_lists_by_siglum : dict (list string)) (wit key : string) : bool :=
  if dict_mem reading_lists_by_siglum wit then String.eqb key wit
  else match dict_get sigla_by_base_witness (get_base_wit index wit) with
       | Some sigla => mem key sigla && contains key wit
       | None => false
       end.

(** The reading id of the last citation, in document order, that
    writes the row of [key]; [default] when none does. *)
Fixpoint last_writer (index : dict nat) (sigla_by_base_witness : dict (list string))
         (reading_lists_by_siglum : dict (list string))
         (citations : list (string * string)) (key : string) (default : string) : string :=
  match citations with
  | [] => default
  | (rdg_id, wit) :: rest =>
      last_writer index sigla_by_base_witness reading_lists_by_siglum rest key
        (if writes index sigla_by_base_witness reading_lists_by_siglum wit key
         then rdg_id else default)
  end.


(** The rows of [after] are those of [before], except that column [i]
    of the keys satisfying [hit] holds [v]. *)
Definition column_written (i : nat) (v : string) (hit : string -> bool)
           (before after : dict (list string)) : Prop :=
  (forall key, dict_mem after key = dict_mem before key) /\
  forall key row,
    dict_get before key = Some row ->
    exists row',
      dict_get after key = Some row' /\
      List.length row' = List.length row /\
      (forall j, j <> i -> nth_error row' j = nth_error row j) /\
      nth_error row' i = if hit key then Some v else nth_error row i.

(** Every registered siglum is cut down by [get_base_wit] to the
    base it is registered under, and is not that base. *)
Definition sigla_well_based (index : dict nat) (sigla_by_base_witness : dict (list string))
  : Prop :=
  forall base_wit sigla siglum,
    dict_get sigla_by_base_witness base_wit = Some sigla ->
    In siglum sigla ->
    get_base_wit index siglum = base_wit /\ siglum <> base_wit.

End MergeSpec.

(** Small collations for the examples below. *)
Module Fixtures.
Import Merge.

(** [<rdg n="..." wit="...">text</rdg>] *)
Definition plain_rdg (n wit text : string) : rdg :=
  {| rdg_xml_id := None; rdg_n := Some n; rdg_wit := wit;
     rdg_type := None; rdg_cause := None; rdg_ana := None; rdg_lang := None;
     rdg_text := Some text; rdg_children := [] |}.

(** [<app xml:id="...">] with the given readings. *)
Definition plain_app (id : string) (rdgs : list rdg) : variation_unit :=
  {| vu_xml_id := Some id; vu_n := None; vu_rdgs := rdgs |}.

(** One witness [01]; the first hand under reading 1, the bare
    siglum under reading 2. *)
Definition hand_then_base : Collation :=
  new_Collation ["01"]
    [plain_app "B10K1V1U2" [plain_rdg "1" "01*" "en"; plain_rdg "2" "01" "om"]]
    ["B10K1V1U2"].

(** One witness [01]; first hand and corrector under one reading. *)
Definition hand_and_corrector : Collation :=
  new_Collation ["01"]
    [plain_app "B10K1V1U2" [plain_rdg "1" "01* 01C" "en"]]
    ["B10K1V1U2"].


(** Two readings standing in the document in the order 2, 1. *)
Definition unordered_unit : list Transpose.node :=
  [Transpose.Rdg (Transpose.Build_rdg "2" None "epi");
   Transpose.Rdg (Transpose.Build_rdg "1" None "en")].

End Fixtures.

(** Vocabulary for the properties of the validator. *)
Module ValidateSpec.
Import Py Validate.

(** A suffix of one of the five roles. *)
Definition registered (T : suffix_table) (s : string) : Prop :=
  In s (first_hand_suffixes T) \/ In s (main_text_suffixes T) \/
  In s (corrector_suffixes T) \/ In s (alternate_suffixes T) \/
  In s (multiple_suffixes T).

(** The tree holds elements only: no comment, processing instruction
    or entity at any depth. *)
Fixpoint all_elements (x : xml) : bool :=
  match x with
  | Element _ _ _ children _ => forallb all_elements children
  | NotElement => false
  end.

(** The tags whose children [serialize] serializes in turn. *)
Definition descends (tag : string) : bool :=
  let raw_tag := replace tag ("{" ++ tei_ns ++ "}") EmptyString in
  mem raw_tag ["rdg"; "w"; "abbr"; "hi"; "ex"; "unclear"; "supplied"; "choice"].

(** The reading is one [find_duplicate_readings] looks at, and its
    serialization is [rdg_text]. *)
Definition reads_as (rdg_text : string) (rdg : xml) : bool :=
  negb (overlap_or_lac rdg) &&
  match serialize rdg with
  | Returned s => String.eqb s rdg_text
  | _ => false
  end.

(** The number of the reading, once for each time [wit] stands in
    its [wit] attribute. *)
Definition cited_under (wit : string) (rdg : xml) : list (option string) :=
  match get rdg "wit" with
  | Some w => map (fun _ => get rdg "n") (filter (String.eqb wit) (split_ws w))
  | None => []
  end.

End ValidateSpec.

(** Vocabulary for the properties of strings. *)
Module PySpec.
Import Py.

(** No character of [s] is one [str.split()] cuts on. *)
Fixpoint spaceless (s : string) : bool :=
  match s with
  | EmptyString => true
  | String c s' => negb (is_space c) && spaceless s'
  end.

(** What [str.split()] returns the list of: a non-empty string
    without blanks. *)
Definition token (s : string) : Prop := s <> EmptyString /\ spaceless s = true.

(** The values filed under [k] in a list of keys and values, in
    order. *)
Definition filed {V} (k : string) (l : list (string * V)) : list V :=
  map snd (filter (fun e => String.eqb (fst e) k) l).

End PySpec.

(** A small document for the examples of the validator. *)
Module ValidateFixtures.
Import Py Validate.

(** [<w>text</w>] *)
Definition word (text : string) : xml :=
  Element "{http://www.tei-c.org/ns/1.0}w" [] (Some text) [] None.

(** [<rdg n="..." wit="...">] with the given children. *)
Definition reading (n wit : string) (children : list xml) : xml :=
  Element "{http://www.tei-c.org/ns/1.0}rdg" [("n", n); ("wit", wit)] None children None.

(** A unit with three readings, the first and the third of the same
    text, and witness 01 under the first and the second. *)
Definition unit : xml :=
  Element "{http://www.tei-c.org/ns/1.0}app"
    [("{http://www.w3.org/XML/1998/namespace}id", "B10K1V1U2")] None
    [reading "1" "P46 01" [word "en"];
     reading "2" "01 02" [word "em"];
     reading "3" "03" [word "en"]]
    None.

End ValidateFixtures.

(** Vocabulary for the properties of the merged readings. *)
Module MergedSpec.
Import Py Merge.


End MergedSpec.

(* ================================================================== *)
(** * Properties *)
(* ================================================================== *)

(** ** Strings *)

Lemma append_empty_r (s : string) : s ++ "" = s.
Proof. induction s; simpl; congruence. Qed.

Lemma append_assoc (a b c : string) : (a ++ b) ++ c = a ++ (b ++ c).
Proof. induction a; simpl; congruence. Qed.

Lemma length_append (a b : string) :
  String.length (a ++ b) = String.length a + String.length b.
Proof. induction a; simpl; congruence. Qed.

Lemma substring_0_0 (s : string) : substring 0 0 s = "".
Proof. destruct s; reflexivity. Qed.

Lemma endswith_nil (suffix : string) :
  Py.endswith "" suffix = String.eqb "" suffix.
Proof. destruct suffix; reflexivity. Qed.

Lemma endswith_cons (c : ascii) (s suffix : string) :
  Py.endswith (String c s) suffix =
  if String.eqb (String c s) suffix then true else Py.endswith s suffix.
Proof. reflexivity. Qed.

Lemma endswith_length (s suffix : string) :
  Py.endswith s suffix = true -> String.length suffix <= String.length s.
Proof.
  induction s as [|c s IH].
  - rewrite endswith_nil. intros H. apply String.eqb_eq in H. subst. simpl. lia.
  - rewrite endswith_cons.
    destruct (String.eqb_spec (String c s) suffix) as [<-|_]; [simpl; lia|].
    intros H; apply IH in H; simpl; lia.
Qed.

(** What [endswith] licenses: cutting [len(suffix)] characters from the
    end removes exactly [suffix]. *)
Lemma endswith_cut (s suffix : string) :
  Py.endswith s suffix = true ->
  substring 0 (String.length s - String.length suffix) s ++ suffix = s.
Proof.
  induction s as [|c s IH].
  - rewrite endswith_nil. intros H. apply String.eqb_eq in H. subst. reflexivity.
  - rewrite endswith_cons.
    destruct (String.eqb_spec (String c s) suffix) as [<-|_].
    + intros _. rewrite Nat.sub_diag. rewrite substring_0_0. reflexivity.
    + intros H. pose proof (endswith_length _ _ H) as Hl.
      replace (String.length (String c s) - String.length suffix)
        with (S (String.length s - String.length suffix))
        by (change (String.length (String c s)) with (S (String.length s)); lia).
      simpl. rewrite (IH H). reflexivity.
Qed.

Lemma endswith_empty (s : string) : Py.endswith s "" = true.
Proof.
  induction s as [|c s IH]; [reflexivity|].
  rewrite endswith_cons. rewrite IH. destruct (String.eqb _ _); reflexivity.
Qed.

Lemma length_substring_0 (n : nat) (s : string) :
  n <= String.length s -> String.length (substring 0 n s) = n.
Proof.
  revert n. induction s as [|c s IH]; intros [|n]; simpl; intros H; try lia.
  rewrite IH; lia.
Qed.

Lemma slice_nonempty_suffix (s suffix : string) :
  suffix <> "" -> Py.endswith s suffix = true ->
  Py.slice_to_minus s (String.length suffix) ++ suffix = s /\
  String.length (Py.slice_to_minus s (String.length suffix)) < String.length s.
Proof.
  intros Hne He. unfold Py.slice_to_minus.
  destruct (String.length suffix) eqn:El.
  - destruct suffix; [congruence | discriminate].
  - rewrite <- El. split; [apply endswith_cut; exact He|].
    pose proof (endswith_length _ _ He).
    rewrite length_substring_0; lia.
Qed.

Lemma join_empty_cons (x : string) (l : list string) :
  Py.join "" (x :: l) = x ++ Py.join "" l.
Proof.
  destruct l as [|y l]; simpl; [rewrite append_empty_r|]; reflexivity.
Qed.

(** ** The two [parse_wit] loops *)

Lemma first_suffix_some (suffixes : list string) (b s : string) :
  NegToPos.first_suffix suffixes b = Some s ->
  In s suffixes /\ Py.endswith b s = true.
Proof.
  induction suffixes as [|x rest IH]; simpl; [discriminate|].
  destruct (Py.endswith b x) eqn:E.
  - intros [= <-]. auto.
  - intros H. destruct (IH H). auto.
Qed.

Lemma first_suffix_none (suffixes : list string) (b : string) :
  NegToPos.first_suffix suffixes b = None ->
  forall s, In s suffixes -> Py.endswith b s = false.
Proof.
  induction suffixes as [|x rest IH]; simpl; [tauto|].
  destruct (Py.endswith b x) eqn:E; [discriminate|].
  intros H s [<-|Hs]; auto.
Qed.

Lemma first_suffix_empty_registered (suffixes : list string) (b : string) :
  In "" suffixes -> NegToPos.first_suffix suffixes b <> None.
Proof.
  intros Hin Hnone.
  pose proof (first_suffix_none _ _ Hnone _ Hin) as H.
  rewrite endswith_empty in H. discriminate.
Qed.

(** With the empty string registered the loop of
    [negative_to_positive_apparatus.parse_wit] finds a suffix in every
    pass and never reaches its [break]. *)
Lemma parse_wit_loop_empty_suffix (suffixes : list string) :
  In "" suffixes ->
  forall fuel b ss, NegToPos.parse_wit_loop fuel suffixes b ss = None.
Proof.
  intros Hin. induction fuel as [|fuel IH]; intros b ss; simpl; [reflexivity|].
  destruct (NegToPos.first_suffix suffixes b) eqn:E.
  - apply IH.
  - exfalso. exact (first_suffix_empty_registered _ _ Hin E).
Qed.

Lemma parse_wit_loop_invariant (suffixes : list string) :
  forall fuel b ss b' ss',
    NegToPos.parse_wit_loop fuel suffixes b ss = Some (b', ss') ->
    b' ++ Py.join "" ss' = b ++ Py.join "" ss.
Proof.
  destruct (in_dec string_dec "" suffixes) as [Hin|Hnin].
  { intros fuel b ss b' ss' H.
    rewrite (parse_wit_loop_empty_suffix _ Hin) in H. discriminate. }
  induction fuel as [|fuel IH]; intros b ss b' ss'; simpl; [discriminate|].
  destruct (NegToPos.first_suffix suffixes b) as [s|] eqn:E.
  - intros H. apply IH in H. rewrite H.
    apply first_suffix_some in E. destruct E as [Hs He].
    assert (s <> "") as Hne by (intros ->; contradiction).
    destruct (slice_nonempty_suffix _ _ Hne He) as [Hcut _].
    rewrite join_empty_cons, <- append_assoc, Hcut. reflexivity.
  - intros [= <- <-]. reflexivity.
Qed.

(** More fuel never changes a result. *)
Lemma parse_wit_loop_more_fuel (suffixes : list string) :
  forall fuel b ss r,
    NegToPos.parse_wit_loop fuel suffixes b ss = Some r ->
    forall extra, NegToPos.parse_wit_loop (fuel + extra) suffixes b ss = Some r.
Proof.
  induction fuel as [|fuel IH]; intros b ss r; simpl; [discriminate|].
  destruct (NegToPos.first_suffix suffixes b); auto.
Qed.

Lemma parse_wit_loop_total (suffixes : list string) :
  (forall s, In s suffixes -> s <> "") ->
  forall fuel b ss,
    String.length b < fuel ->
    exists b' ss',
      NegToPos.parse_wit_loop fuel suffixes b ss = Some (b', ss') /\
      List.length ss' + String.length b' <= List.length ss + String.length b.
Proof.
  intros Hne. induction fuel as [|fuel IH]; intros b ss Hlt; [lia|]. simpl.
  destruct (NegToPos.first_suffix suffixes b) as [s|] eqn:E.
  - apply first_suffix_some in E. destruct E as [Hs He].
    destruct (slice_nonempty_suffix _ _ (Hne _ Hs) He) as [_ Hshort].
    destruct (IH (Py.slice_to_minus b (String.length s)) (s :: ss)) as (b' & ss' & H & Hb);
      [lia|].
    exists b', ss'. split; [exact H|]. simpl in Hb. lia.
  - exists b, ss. split; [reflexivity | lia].
Qed.

(** The fuel [parse_wit] runs on decides the loop: it returns exactly
    what the loop returns on any amount of fuel. *)
Lemma parse_wit_fuel_exact (wit : string) (suffixes : list string) (r : string * list string) :
  (exists fuel, NegToPos.parse_wit_loop fuel suffixes wit [] = Some r) <->
  NegToPos.parse_wit wit suffixes = Some r.
Proof.
  split.
  - intros [fuel H].
    destruct (in_dec string_dec "" suffixes) as [Hin|Hnin].
    { rewrite (parse_wit_loop_empty_suffix _ Hin) in H. discriminate. }
    assert (forall s, In s suffixes -> s <> "") as Hne by (intros s Hs ->; contradiction).
    destruct (parse_wit_loop_total _ Hne (S (String.length wit)) wit [])
      as (b' & ss' & H' & _); [lia|].
    unfold NegToPos.parse_wit. rewrite H'.
    apply (fun h => parse_wit_loop_more_fuel _ _ _ _ _ h fuel) in H'.
    apply (fun h => parse_wit_loop_more_fuel _ _ _ _ _ h (S (String.length wit))) in H.
    rewrite Nat.add_comm in H. congruence.
  - intros H. exists (S (String.length wit)). exact H.
Qed.

Lemma pick_cases (cur : string) (l : list string) (b : string) :
  Validate.pick cur l b = cur \/
  (In (Validate.pick cur l b) l /\ Py.endswith b (Validate.pick cur l b) = true).
Proof.
  unfold Validate.pick. destruct (NegToPos.first_suffix l b) eqn:E; [|auto].
  right. apply first_suffix_some. exact E.
Qed.

Lemma chosen_suffix_ends (T : Validate.suffix_table) (b : string) :
  Py.endswith b (Validate.chosen_suffix T b) = true.
Proof.
  unfold Validate.chosen_suffix.
  repeat match goal with
  | |- Py.endswith _ (Validate.pick ?c ?l ?b) = true =>
      destruct (pick_cases c l b) as [->|[_ ->]]; [|reflexivity]
  end.
  apply endswith_empty.
Qed.

Lemma length_zero_empty (s : string) : (String.length s =? 0)%nat = false -> s <> "".
Proof. intros H ->. discriminate. Qed.

Lemma validate_loop_invariant (T : Validate.suffix_table) :
  forall fuel b ss b' ss',
    Validate.parse_wit_loop fuel T b ss = Some (b', ss') ->
    b' ++ Py.join "" ss' = b ++ Py.join "" ss.
Proof.
  induction fuel as [|fuel IH]; intros b ss b' ss'; simpl; [discriminate|].
  destruct (String.length (Validate.chosen_suffix T b) =? 0)%nat eqn:E.
  - intros [= <- <-]. reflexivity.
  - intros H. apply IH in H. rewrite H.
    destruct (slice_nonempty_suffix _ _ (length_zero_empty _ E) (chosen_suffix_ends T b))
      as [Hcut _].
    rewrite join_empty_cons, <- append_assoc, Hcut. reflexivity.
Qed.

Lemma validate_loop_total (T : Validate.suffix_table) :
  forall fuel b ss,
    String.length b < fuel ->
    exists b' ss',
      Validate.parse_wit_loop fuel T b ss = Some (b', ss') /\
      List.length ss' + String.length b' <= List.length ss + String.length b.
Proof.
  induction fuel as [|fuel IH]; intros b ss Hlt; [lia|]. simpl.
  destruct (String.length (Validate.chosen_suffix T b) =? 0)%nat eqn:E.
  - exists b, ss. split; [reflexivity | lia].
  - destruct (slice_nonempty_suffix _ _ (length_zero_empty _ E) (chosen_suffix_ends T b))
      as [_ Hshort].
    destruct (IH (Py.slice_to_minus b (String.length (Validate.chosen_suffix T b)))
                 (Validate.chosen_suffix T b :: ss)) as (b' & ss' & H & Hb); [lia|].
    exists b', ss'. split; [exact H|]. simpl in Hb. lia.
Qed.

(** C1.  Whenever [parse_wit] returns a base siglum and a suffix list,
    the base followed by the suffixes, in the order returned, is the
    citation it was given.  This holds for the one-table [parse_wit] of
    negative_to_positive_apparatus.py and for the five-table one of
    validate_collation.py, for every suffix table, and in particular
    when the base returned is a registered witness. *)
Theorem parse_wit_roundtrip (wit base : string) (wit_suffixes : list string) :
  (forall suffixes,
      NegToPos.parse_wit wit suffixes = Some (base, wit_suffixes) ->
      base ++ Py.join "" wit_suffixes = wit) /\
  (forall T,
      Validate.parse_wit wit T = Some (base, wit_suffixes) ->
      base ++ Py.join "" wit_suffixes = wit).
Proof.
  split; intros T H.
  - apply parse_wit_loop_invariant in H. rewrite H. apply append_empty_r.
  - apply validate_loop_invariant in H. rewrite H. apply append_empty_r.
Qed.

Lemma parse_wit_roundtrip_witness :
  (NegToPos.parse_wit "01*C1" ["*"; "C1"] = Some ("01", ["*"; "C1"]) /\
   Validate.parse_wit "01*C1"
     (Validate.Build_suffix_table ["*"] ["T"] ["C1"] ["A"] ["/1"])
   = Some ("01", ["*"; "C1"])) /\
  "01" ++ Py.join "" ["*"; "C1"] = "01*C1".
Proof.
  split; [split; reflexivity|].
  apply (proj1 (parse_wit_roundtrip "01*C1" "01" ["*"; "C1"]) ["*"; "C1"]).
  reflexivity.
Defined.

(** C10.  With every registered suffix non-empty, [parse_wit] returns:
    a pass of the loop that finds a suffix strictly shortens the
    remaining siglum, so at most [len(wit)] passes strip a suffix and
    the pass after them leaves the loop.  The loop of
    validate_collation.py returns for every table (it also leaves on an
    empty match); the loop of negative_to_positive_apparatus.py does
    not return on any amount of fuel once the empty string is
    registered. *)
Theorem parse_wit_terminates (wit : string) :
  (forall suffixes,
      (forall s, In s suffixes -> s <> "") ->
      (exists base wit_suffixes,
          NegToPos.parse_wit_loop (S (String.length wit)) suffixes wit []
          = Some (base, wit_suffixes) /\
          List.length wit_suffixes <= String.length wit) /\
      (forall base_wit suffix,
          NegToPos.first_suffix suffixes base_wit = Some suffix ->
          String.length (Py.slice_to_minus base_wit (String.length suffix))
          < String.length base_wit)) /\
  (forall T,
      (exists base wit_suffixes,
          Validate.parse_wit_loop (S (String.length wit)) T wit []
          = Some (base, wit_suffixes) /\
          List.length wit_suffixes <= String.length wit) /\
      (forall base_wit,
          Validate.chosen_suffix T base_wit <> "" ->
          String.length (Py.slice_to_minus base_wit
                           (String.length (Validate.chosen_suffix T base_wit)))
          < String.length base_wit)) /\
  (forall suffixes fuel,
      In "" suffixes ->
      NegToPos.parse_wit_loop fuel suffixes wit [] = None).
Proof.
  split; [|split].
  - intros suffixes Hne. split.
    + destruct (parse_wit_loop_total _ Hne (S (String.length wit)) wit [])
        as (b & ss & H & Hb); [lia|].
      exists b, ss. split; [exact H | simpl in Hb; lia].
    + intros b s E. apply first_suffix_some in E. destruct E as [Hs He].
      apply (slice_nonempty_suffix _ _ (Hne _ Hs) He).
  - intros T. split.
    + destruct (validate_loop_total T (S (String.length wit)) wit [])
        as (b & ss & H & Hb); [lia|].
      exists b, ss. split; [exact H | simpl in Hb; lia].
    + intros b Hne. apply (slice_nonempty_suffix _ _ Hne (chosen_suffix_ends T b)).
  - intros suffixes fuel Hin. apply parse_wit_loop_empty_suffix. exact Hin.
Qed.

Lemma parse_wit_terminates_witness :
  (forall s, In s ["*"; "C1"] -> s <> "") /\
  exists base wit_suffixes,
    NegToPos.parse_wit_loop (S (String.length "01*C1")) ["*"; "C1"] "01*C1" []
    = Some (base, wit_suffixes) /\
    List.length wit_suffixes <= String.length "01*C1".
Proof.
  assert (forall s, In s ["*"; "C1"] -> s <> "") as Hne.
  { intros s [<-|[<-|[]]]; discriminate. }
  split; [exact Hne|].
  exact (proj1 (proj1 (parse_wit_terminates "01*C1") ["*"; "C1"] Hne)).
Defined.

(** ** Loops, sets and dictionaries *)

Lemma mem_In (x : string) (l : list string) : Py.mem x l = true <-> In x l.
Proof.
  unfold Py.mem. rewrite existsb_exists. split.
  - intros (y & Hy & E). apply String.eqb_eq in E. subst. exact Hy.
  - intros H. exists x. split; [exact H | apply String.eqb_refl].
Qed.

Lemma set_add_In (x c : string) (s : list string) :
  In c (Py.set_add x s) <-> c = x \/ In c s.
Proof.
  unfold Py.set_add. destruct (Py.mem x s) eqn:E.
  - apply mem_In in E. split; [auto|]. intros [->|H]; assumption.
  - rewrite in_app_iff. simpl. intuition congruence.
Qed.

Lemma keys_dict_set {V} (d : Py.dict V) (k : string) (v : V) (x : string) :
  In x (Py.keys (Py.dict_set d k v)) <-> x = k \/ In x (Py.keys d).
Proof.
  induction d as [|[k' v'] d IH]; simpl.
  - intuition congruence.
  - destruct (String.eqb_spec k' k) as [->|Hne]; simpl.
    + intuition congruence.
    + rewrite IH. intuition congruence.
Qed.

Lemma keys_index_map_from (l : list string) :
  forall i d x,
    In x (Py.keys (Py.index_map_from i l d)) <-> In x l \/ In x (Py.keys d).
Proof.
  induction l as [|y l IH]; intros i d x; simpl; [tauto|].
  rewrite IH, keys_dict_set. intuition congruence.
Qed.

Lemma keys_index_map (l : list string) (x : string) :
  In x (Py.keys (Py.index_map l)) <-> In x l.
Proof.
  unfold Py.index_map. rewrite keys_index_map_from. simpl. tauto.
Qed.

Lemma for_each_returns {A S} (body : S -> A -> Py.outcome S) (l : list A) :
  (forall acc x, In x l -> exists acc', body acc x = Py.Returned acc') ->
  forall acc, exists r, Py.for_each l acc body = Py.Returned r.
Proof.
  induction l as [|x l IH]; intros Hb acc; simpl; [eauto|].
  destruct (Hb acc x (or_introl eq_refl)) as [acc' ->]. simpl.
  apply IH. intros a y Hy. apply Hb. right. exact Hy.
Qed.



Lemma for_each_no_hang {A S} (body : S -> A -> Py.outcome S) (l : list A) :
  (forall acc x, In x l -> body acc x <> Py.Hangs) ->
  forall acc, Py.for_each l acc body <> Py.Hangs.
Proof.
  induction l as [|x l IH]; intros Hb acc; simpl; [discriminate|].
  destruct (body acc x) as [a|e|] eqn:E; simpl.
  - apply IH. intros a' y Hy. apply Hb. right. exact Hy.
  - discriminate.
  - exfalso. exact (Hb acc x (or_introl eq_refl) E).
Qed.

(** ** The positive-apparatus expander *)

Section Expander.
Import Py NegToPos.
Variables wit_ind_map suffix_ind_map : dict nat.



Hypothesis suffixes_nonempty : forall s, In s (keys suffix_ind_map) -> s <> "".







End Expander.







(** ** The validator's unmatched-pairs check *)

(** C9.  Take a suffix table that cuts [X1*] into [X1] and [*], and
    [X1C1] into [X1] and [C1], with [*] a first-hand suffix and [C1] a
    corrector suffix.  On a unit whose reading cites [X1* X1C1] (or
    whose readings cite one each) the check prints nothing.  On the
    unit without the [X1C1] citation it prints one line, for [X1*] and
    the reading that cites it: the subwitness occurs without any
    corresponding subwitness. *)
Theorem unmatched_pairs_example
        (T : Validate.suffix_table) (unit_id n n' : option string) :
  Validate.parse_wit "X1*" T = Some ("X1", ["*"]) ->
  Validate.parse_wit "X1C1" T = Some ("X1", ["C1"]) ->
  Py.mem "*" (Validate.first_hand_suffixes T) = true ->
  Py.mem "C1" (Validate.corrector_suffixes T) = true ->
  Validate.unmatched_in_app T
    (Validate.Build_app unit_id [Validate.Build_rdg n "X1* X1C1"])
  = Py.Returned [] /\
  Validate.unmatched_in_app T
    (Validate.Build_app unit_id [Validate.Build_rdg n "X1*"; Validate.Build_rdg n' "X1C1"])
  = Py.Returned [] /\
  Validate.unmatched_in_app T
    (Validate.Build_app unit_id [Validate.Build_rdg n "X1*"])
  = Py.Returned [Validate.LoneSubwitness "X1*" n unit_id] /\
  Validate.unmatched_in_app T
    (Validate.Build_app unit_id [Validate.Build_rdg n "X1*"; Validate.Build_rdg n' ""])
  = Py.Returned [Validate.LoneSubwitness "X1*" n unit_id].
Proof.
  intros Hstar Hc1 Hfh Hcorr.
  assert (forall suffix_lists,
             Validate.suffix_matched T (["*"] :: ["C1"] :: suffix_lists) 0 "*" = true) as Hm1.
  { intros sl. unfold Validate.suffix_matched, Validate.corresponds. simpl.
    rewrite Hfh, Hcorr. reflexivity. }
  assert (forall suffix_lists,
             Validate.suffix_matched T (["*"] :: ["C1"] :: suffix_lists) 0 "C1" = true) as Hm2.
  { intros sl. unfold Validate.suffix_matched, Validate.corresponds. simpl.
    rewrite Hfh, Hcorr. rewrite !orb_true_r. reflexivity. }
  assert (Py.split_ws "X1* X1C1" = ["X1*"; "X1C1"]) as Hs1 by reflexivity.
  assert (Py.split_ws "X1*" = ["X1*"]) as Hs2 by reflexivity.
  assert (Py.split_ws "X1C1" = ["X1C1"]) as Hs3 by reflexivity.
  assert (Py.split_ws "" = []) as Hs4 by reflexivity.
  unfold Validate.unmatched_in_app, Validate.populate, Validate.record_wit.
  repeat split;
    cbn -[Validate.parse_wit Validate.suffix_matched Py.split_ws];
    rewrite ?Hs1, ?Hs2, ?Hs3, ?Hs4;
    cbn -[Validate.parse_wit Validate.suffix_matched Py.split_ws];
    rewrite ?Hstar, ?Hc1;
    cbn -[Validate.parse_wit Validate.suffix_matched Py.split_ws];
    rewrite ?Hs1, ?Hs2, ?Hs3, ?Hs4;
    cbn -[Validate.parse_wit Validate.suffix_matched Py.split_ws];
    rewrite ?Hstar, ?Hc1;
    cbn -[Validate.parse_wit Validate.suffix_matched Py.split_ws];
    rewrite ?Hm1, ?Hm2; reflexivity.
Qed.

Lemma unmatched_pairs_example_witness :
  let T := Validate.Build_suffix_table ["*"] ["T"] ["C"; "C1"; "C2"] ["A"] ["/1"; "/2"] in
  (Validate.parse_wit "X1*" T = Some ("X1", ["*"]) /\
   Validate.parse_wit "X1C1" T = Some ("X1", ["C1"]) /\
   Py.mem "*" (Validate.first_hand_suffixes T) = true /\
   Py.mem "C1" (Validate.corrector_suffixes T) = true) /\
  Validate.unmatched_in_app T
    (Validate.Build_app (Some "B10K1V1U2") [Validate.Build_rdg (Some "1") "X1* X1C1"])
  = Py.Returned [] /\
  Validate.unmatched_in_app T
    (Validate.Build_app (Some "B10K1V1U2") [Validate.Build_rdg (Some "1") "X1*"])
  = Py.Returned [Validate.LoneSubwitness "X1*" (Some "1") (Some "B10K1V1U2")].
Proof.
  intros T.
  split; [repeat split; reflexivity|].
  pose proof (unmatched_pairs_example T (Some "B10K1V1U2") (Some "1") (Some "2")
                eq_refl eq_refl eq_refl eq_refl) as (H1 & _ & H3 & _).
  split; [exact H1 | exact H3].
Defined.

(** ** [get_base_wit] *)

Lemma substring_0_length (s : string) : substring 0 (String.length s) s = s.
Proof. induction s; simpl; congruence. Qed.

Lemma substring_0_substring_0 (s : string) :
  forall m n, m <= n -> substring 0 m (substring 0 n s) = substring 0 m s.
Proof.
  induction s as [|c s IH]; intros [|m] [|n] H; simpl; try reflexivity; try lia.
  rewrite IH; [reflexivity | lia].
Qed.

Lemma length_substring_0_le (s : string) :
  forall n, String.length (substring 0 n s) <= n.
Proof.
  induction s as [|c s IH]; intros [|n]; simpl; try lia.
  specialize (IH n). lia.
Qed.

(** Dropping the last character of [wit[:k]] leaves [wit[:k-1]]. *)
Lemma slice_prefix (wit : string) (k : nat) :
  k <= String.length wit ->
  Py.slice_to_minus (substring 0 k wit) 1 = substring 0 (k - 1) wit.
Proof.
  intros H. unfold Py.slice_to_minus.
  rewrite length_substring_0 by exact H.
  apply substring_0_substring_0. lia.
Qed.

(** The loop returns the longest non-empty [wit[:k]] that is a key of
    the index, and the empty string when there is none. *)
Lemma get_base_wit_loop_prefix (index : Py.dict nat) (wit : string) :
  forall passes k,
    k <= passes -> k <= String.length wit ->
    exists j,
      j <= k /\
      Merge.get_base_wit_loop passes index (substring 0 k wit) = substring 0 j wit /\
      (j = 0 \/ Py.dict_mem index (substring 0 j wit) = true) /\
      (forall i, j < i <= k -> Py.dict_mem index (substring 0 i wit) = false).
Proof.
  induction passes as [|passes IH]; intros k Hk Hlen.
  - exists 0. assert (k = 0) as -> by lia. simpl.
    repeat split; auto; try lia; try (intros; lia).
  - cbn [Merge.get_base_wit_loop]. rewrite length_substring_0 by exact Hlen.
    destruct k as [|k].
    + exists 0. simpl. repeat split; auto; try lia; try (intros; lia).
    + change (0 <? S k)%nat with true. cbv iota.
      destruct (Py.dict_mem index (substring 0 (S k) wit)) eqn:E.
      * exists (S k). repeat split; auto; try lia; try (intros; lia).
      * rewrite slice_prefix by exact Hlen.
        replace (S k - 1) with k by lia.
        destruct (IH k) as (j & Hj & Hr & Hm & Hnone); [lia | lia |].
        exists j. repeat split; auto.
        intros i Hi. destruct (Nat.eq_dec i (S k)) as [->|Hne]; [exact E|].
        apply Hnone. lia.
Qed.

Lemma get_base_wit_prefix (index : Py.dict nat) (wit : string) :
  exists j,
    j <= String.length wit /\
    Merge.get_base_wit index wit = substring 0 j wit /\
    (j = 0 \/ Py.dict_mem index (substring 0 j wit) = true) /\
    (forall i, j < i <= String.length wit ->
               Py.dict_mem index (substring 0 i wit) = false).
Proof.
  unfold Merge.get_base_wit.
  destruct (get_base_wit_loop_prefix index wit (String.length wit) (String.length wit))
    as (j & Hj & Hr & Hm & Hnone); [lia | lia |].
  rewrite substring_0_length in Hr. exists j. auto.
Qed.

(** More passes than [len(wit)] change nothing: the bound of the
    fixpoint is never what ends the loop. *)
Lemma get_base_wit_loop_enough (index : Py.dict nat) :
  forall passes base_wit,
    String.length base_wit <= passes ->
    Merge.get_base_wit_loop passes index base_wit
    = Merge.get_base_wit_loop (String.length base_wit) index base_wit.
Proof.
  induction passes as [|passes IH]; intros b Hb.
  - assert (String.length b = 0) as -> by lia. reflexivity.
  - destruct b as [|c b]; [reflexivity|].
    change (String.length (String c b)) with (S (String.length b)).
    cbn [Merge.get_base_wit_loop].
    change (String.length (String c b)) with (S (String.length b)).
    change (0 <? S (String.length b))%nat with true. cbv iota.
    destruct (Py.dict_mem index (String c b)); [reflexivity|].
    assert (String.length (Py.slice_to_minus (String c b) 1) = String.length b) as Hl.
    { unfold Py.slice_to_minus. rewrite length_substring_0; simpl; lia. }
    rewrite IH by (rewrite Hl; simpl in Hb; lia).
    rewrite Hl. reflexivity.
Qed.

Lemma register_siglum_log (set_order : list string -> list string)
      (index : Py.dict nat) (d : Py.dict (list string)) (wit : string) :
  fst (Merge.register_siglum set_order index d wit)
  = if String.eqb (Merge.get_base_wit index wit) "" then [Merge.NoBaseWitness wit] else [].
Proof.
  unfold Merge.register_siglum.
  destruct (String.eqb (Merge.get_base_wit index wit) ""); unfold Merge.lbind; simpl;
    (destruct (String.eqb wit (Merge.get_base_wit index wit)); simpl; [reflexivity|];
     destruct (Py.dict_index d (Merge.get_base_wit index wit)); simpl; try reflexivity;
     destruct (Merge.first_in_set _ _ _); simpl; reflexivity).
Qed.




(** ** Dictionaries and rows *)

Lemma dict_get_set {V} (d : Py.dict V) (k k' : string) (v : V) :
  Py.dict_get (Py.dict_set d k v) k'
  = if String.eqb k k' then Some v else Py.dict_get d k'.
Proof.
  induction d as [|[k0 v0] d IH]; simpl.
  - destruct (String.eqb k k'); reflexivity.
  - destruct (String.eqb_spec k0 k) as [->|Hne]; simpl.
    + destruct (String.eqb k k'); reflexivity.
    + rewrite IH. destruct (String.eqb_spec k0 k') as [->|Hne'].
      * destruct (String.eqb_spec k k'); congruence.
      * reflexivity.
Qed.

Lemma dict_mem_set {V} (d : Py.dict V) (k k' : string) (v : V) :
  Py.dict_mem (Py.dict_set d k v) k' = String.eqb k k' || Py.dict_mem d k'.
Proof.
  unfold Py.dict_mem. rewrite dict_get_set. destruct (String.eqb k k'); reflexivity.
Qed.

Lemma dict_mem_keys {V} (d : Py.dict V) (k : string) :
  Py.dict_mem d k = true <-> In k (Py.keys d).
Proof.
  unfold Py.dict_mem. induction d as [|[k0 v0] d IH]; simpl.
  - split; [discriminate | tauto].
  - destruct (String.eqb_spec k0 k) as [->|Hne].
    + split; auto.
    + rewrite IH. split; [auto|]. intros [H|H]; [congruence | exact H].
Qed.

Lemma list_assign_spec {A} (row : list A) :
  forall i v row',
    Py.list_assign row i v = Py.Returned row' ->
    List.length row' = List.length row /\
    nth_error row' i = Some v /\
    forall j, j <> i -> nth_error row' j = nth_error row j.
Proof.
  induction row as [|x row IH]; intros i v row'; simpl; [discriminate|].
  destruct i as [|i].
  - intros [= <-]. repeat split. intros [|j] Hj; [congruence | reflexivity].
  - destruct (Py.list_assign row i v) as [r| |] eqn:E; simpl; try discriminate.
    intros [= <-]. destruct (IH _ _ _ E) as (Hl & Hi & Hj).
    repeat split; simpl; auto.
    intros [|j] Hne; [reflexivity|]. simpl. apply Hj. congruence.
Qed.

Lemma list_assign_no_hang {A} (row : list A) :
  forall i v, Py.list_assign row i v <> Py.Hangs.
Proof.
  induction row as [|x row IH]; intros [|i] v; simpl; try discriminate.
  specialize (IH i v). destruct (Py.list_assign row i v); simpl; congruence.
Qed.

(** ** The attestation matrix: the last citation wins *)

Lemma set_reading_spec (L L' : Py.dict (list string)) (siglum : string) (i : nat) (v : string) :
  Merge.set_reading L siglum i v = Py.Returned L' ->
  MergeSpec.column_written i v (String.eqb siglum) L L'.
Proof.
  unfold Merge.set_reading, Py.dict_index.
  destruct (Py.dict_get L siglum) as [row|] eqn:Eg; simpl; [|discriminate].
  destruct (Py.list_assign row i v) as [row'| |] eqn:Ea; simpl; try discriminate.
  intros [= <-]. destruct (list_assign_spec _ _ _ _ Ea) as (Hl & Hi & Hj).
  split.
  - intros key. rewrite dict_mem_set. destruct (String.eqb_spec siglum key) as [<-|_].
    + unfold Py.dict_mem. rewrite Eg. reflexivity.
    + reflexivity.
  - intros key r Hr. rewrite dict_get_set.
    destruct (String.eqb_spec siglum key) as [<-|Hne].
    + exists row'. assert (r = row) as -> by congruence. auto.
    + exists r. auto.
Qed.

Lemma column_written_refl (i : nat) (v : string) (L : Py.dict (list string)) :
  MergeSpec.column_written i v (fun _ => false) L L.
Proof.
  split; [reflexivity|]. intros key row Hr. exists row. auto.
Qed.

Lemma column_written_trans (i : nat) (v : string) (h1 h2 : string -> bool)
      (L1 L2 L3 : Py.dict (list string)) :
  MergeSpec.column_written i v h1 L1 L2 -> MergeSpec.column_written i v h2 L2 L3 ->
  MergeSpec.column_written i v (fun k => h1 k || h2 k) L1 L3.
Proof.
  intros [Hm1 Hr1] [Hm2 Hr2]. split.
  - intros key. rewrite Hm2. apply Hm1.
  - intros key row Hr.
    destruct (Hr1 _ _ Hr) as (row1 & Hg1 & Hl1 & Hj1 & Hi1).
    destruct (Hr2 _ _ Hg1) as (row2 & Hg2 & Hl2 & Hj2 & Hi2).
    exists row2. repeat split; [exact Hg2 | congruence | |].
    + intros j Hj. rewrite Hj2, Hj1; auto.
    + rewrite Hi2, Hi1. destruct (h1 key), (h2 key); reflexivity.
Qed.

Lemma column_written_ext (i : nat) (v : string) (h1 h2 : string -> bool)
      (L1 L2 : Py.dict (list string)) :
  (forall k, h1 k = h2 k) -> MergeSpec.column_written i v h1 L1 L2 -> MergeSpec.column_written i v h2 L1 L2.
Proof.
  intros Hext [Hm Hr]. split; [exact Hm|].
  intros key row H. destruct (Hr _ _ H) as (row' & ? & ? & ? & Hi).
  exists row'. rewrite <- Hext. auto.
Qed.

Lemma record_sigla_spec (i : nat) (v wit : string) (sigla : list string) :
  forall L L',
    Py.for_each sigla L
      (fun lists siglum =>
         if Py.contains siglum wit then Merge.set_reading lists siglum i v
         else Py.Returned lists) = Py.Returned L' ->
    MergeSpec.column_written i v (fun key => Py.mem key sigla && Py.contains key wit) L L'.
Proof.
  induction sigla as [|s sigla IH]; intros L L'; simpl.
  - intros [= <-]. apply column_written_refl.
  - destruct (Py.contains s wit) eqn:Ec.
    + destruct (Merge.set_reading L s i v) as [L1| |] eqn:Es; simpl; try discriminate.
      intros H. apply set_reading_spec in Es. apply IH in H.
      eapply column_written_ext; [|exact (column_written_trans _ _ _ _ _ _ _ Es H)].
      intros k. simpl. destruct (String.eqb_spec s k) as [<-|Hne].
      * rewrite String.eqb_refl, Ec. reflexivity.
      * destruct (String.eqb_spec k s); [congruence | reflexivity].
    + simpl. intros H. apply IH in H.
      eapply column_written_ext; [|exact H].
      intros k. simpl. destruct (String.eqb_spec k s) as [->|Hne]; [|reflexivity].
      rewrite Ec. simpl. rewrite andb_false_r. reflexivity.
Qed.

Section LastWriter.
Variable set_order : list string -> list string.
Hypothesis set_order_members : forall s x, In x (set_order s) <-> In x s.
Variables (index : Py.dict nat) (sigla_by_base_witness : Py.dict (list string)).

Lemma mem_set_order (s : list string) (x : string) :
  Py.mem x (set_order s) = Py.mem x s.
Proof.
  pose proof (mem_In x (set_order s)) as H1. pose proof (mem_In x s) as H2.
  pose proof (set_order_members s x) as H3.
  destruct (Py.mem x (set_order s)), (Py.mem x s); intuition congruence.
Qed.

Lemma record_citation_spec (i : nat) (L L' : Py.dict (list string))
      (citation : string * string) :
  Merge.record_citation set_order index sigla_by_base_witness i L citation
  = Py.Returned L' ->
  MergeSpec.column_written i (fst citation)
    (MergeSpec.writes index sigla_by_base_witness L (snd citation)) L L'.
Proof.
  unfold Merge.record_citation, MergeSpec.writes. destruct citation as [r wit]. simpl.
  destruct (Py.dict_mem L wit).
  - intros H. apply set_reading_spec in H.
    eapply column_written_ext; [|exact H].
    intros k. apply String.eqb_sym.
  - unfold Py.dict_index.
    destruct (Py.dict_get sigla_by_base_witness (Merge.get_base_wit index wit))
      as [sigla|]; simpl; [|discriminate].
    intros H. apply record_sigla_spec in H.
    eapply column_written_ext; [|exact H].
    intros k. simpl. rewrite mem_set_order. reflexivity.
Qed.

Lemma writes_same_keys (L L' : Py.dict (list string)) (wit key : string) :
  (forall k, Py.dict_mem L' k = Py.dict_mem L k) ->
  MergeSpec.writes index sigla_by_base_witness L' wit key
  = MergeSpec.writes index sigla_by_base_witness L wit key.
Proof. intros H. unfold MergeSpec.writes. rewrite H. reflexivity. Qed.

Lemma last_writer_same_keys (L L' : Py.dict (list string)) (cites : list (string * string)) :
  (forall k, Py.dict_mem L' k = Py.dict_mem L k) ->
  forall key default,
    MergeSpec.last_writer index sigla_by_base_witness L' cites key default
    = MergeSpec.last_writer index sigla_by_base_witness L cites key default.
Proof.
  intros H. induction cites as [|[r wit] cites IH]; intros key default; simpl;
    [reflexivity|].
  rewrite IH, (writes_same_keys _ _ _ _ H). reflexivity.
Qed.

(** One unit: column [i] of every row ends as the reading of the
    last citation that writes the row; the other columns stay. *)
Lemma record_unit_spec (i : nat) (cites : list (string * string)) :
  forall L L',
    Py.for_each cites L (Merge.record_citation set_order index sigla_by_base_witness i)
    = Py.Returned L' ->
    (forall key, Py.dict_mem L' key = Py.dict_mem L key) /\
    forall key row,
      Py.dict_get L key = Some row ->
      exists row',
        Py.dict_get L' key = Some row' /\
        List.length row' = List.length row /\
        (forall j, j <> i -> nth_error row' j = nth_error row j) /\
        forall old,
          nth_error row i = Some old ->
          nth_error row' i
          = Some (MergeSpec.last_writer index sigla_by_base_witness L cites key old).
Proof.
  induction cites as [|[r wit] cites IH]; intros L L'; simpl.
  - intros [= <-]. split; [reflexivity|]. intros key row Hr. exists row. auto.
  - destruct (Merge.record_citation set_order index sigla_by_base_witness i L (r, wit))
      as [L1| |] eqn:E1; simpl; try discriminate.
    intros H. apply record_citation_spec in E1. destruct E1 as [Hm1 Hr1].
    destruct (IH _ _ H) as [Hm2 Hr2]. split.
    + intros key. rewrite Hm2. apply Hm1.
    + intros key row Hr.
      destruct (Hr1 _ _ Hr) as (row1 & Hg1 & Hl1 & Hj1 & Hi1).
      destruct (Hr2 _ _ Hg1) as (row2 & Hg2 & Hl2 & Hj2 & Hi2).
      exists row2. repeat split; [exact Hg2 | congruence | |].
      * intros j Hj. rewrite Hj2, Hj1; auto.
      * intros old Hold. simpl in Hi1.
        rewrite (Hi2 (if MergeSpec.writes index sigla_by_base_witness L wit key
                      then r else old)).
        -- rewrite (last_writer_same_keys L L1 cites Hm1). reflexivity.
        -- rewrite Hi1. destruct (MergeSpec.writes _ _ _ _ _); [reflexivity | exact Hold].
Qed.

(** All units from [i] on. *)
Lemma record_units_spec (units : list Merge.variation_unit) :
  forall i L M,
    Merge.record_units set_order index sigla_by_base_witness i units L = Py.Returned M ->
    (forall key, Py.dict_mem M key = Py.dict_mem L key) /\
    forall key row,
      Py.dict_get L key = Some row ->
      exists row',
        Py.dict_get M key = Some row' /\
        List.length row' = List.length row /\
        (forall j, j < i -> nth_error row' j = nth_error row j) /\
        forall j u old,
          nth_error units j = Some u ->
          nth_error row (i + j) = Some old ->
          nth_error row' (i + j)
          = Some (MergeSpec.last_writer index sigla_by_base_witness L
                    (Merge.citations u) key old).
Proof.
  induction units as [|u units IH]; intros i L M; simpl.
  - intros [= <-]. split; [reflexivity|]. intros key row Hr. exists row.
    repeat split; auto. intros [|j] u old Hu; discriminate.
  - destruct (Py.for_each (Merge.citations u) L
                (Merge.record_citation set_order index sigla_by_base_witness i))
      as [L1| |] eqn:E1; simpl; try discriminate.
    intros H. apply record_unit_spec in E1. destruct E1 as [Hm1 Hr1].
    destruct (IH _ _ _ H) as [Hm2 Hr2]. split.
    + intros key. rewrite Hm2. apply Hm1.
    + intros key row Hr.
      destruct (Hr1 _ _ Hr) as (row1 & Hg1 & Hl1 & Hj1 & Hi1).
      destruct (Hr2 _ _ Hg1) as (row2 & Hg2 & Hl2 & Hj2 & Hi2).
      exists row2. repeat split; [exact Hg2 | congruence | |].
      * intros j Hj. rewrite Hj2 by lia. apply Hj1. lia.
      * intros [|j] u' old Hu Hold.
        -- simpl in Hu. injection Hu as <-. rewrite Nat.add_0_r in *.
           rewrite Hj2 by lia. apply Hi1. exact Hold.
        -- simpl in Hu. replace (i + S j) with (S i + j) in * by lia.
           rewrite (Hi2 j u' old Hu).
           ++ rewrite (last_writer_same_keys L L1 _ Hm1). reflexivity.
           ++ rewrite Hj1 by lia. exact Hold.
Qed.

End LastWriter.

(** ** Registered sigla and the rows set up for them *)

Lemma lfor_each_invariant {A S} (P : S -> Prop) (body : S -> A -> Merge.logged S)
      (l : list A) :
  (forall acc x acc', P acc -> snd (body acc x) = Py.Returned acc' -> P acc') ->
  forall acc r, P acc -> snd (Merge.lfor_each l acc body) = Py.Returned r -> P r.
Proof.
  intros Hstep. induction l as [|x l IH]; intros acc r Hacc; simpl.
  - intros [= <-]. exact Hacc.
  - unfold Merge.lbind.
    destruct (body acc x) as [lg [acc'| |]] eqn:E; simpl; try discriminate.
    apply IH. apply (Hstep acc x acc' Hacc). rewrite E. reflexivity.
Qed.

Lemma set_remove_In (x y : string) (s : list string) :
  In y (Merge.set_remove x s) -> In y s.
Proof. unfold Merge.set_remove. rewrite filter_In. tauto. Qed.

Lemma register_siglum_spec (set_order : list string -> list string)
      (index : Py.dict nat) (S S' : Py.dict (list string)) (wit : string) :
  snd (Merge.register_siglum set_order index S wit) = Py.Returned S' ->
  (forall k, Py.dict_mem S' k = Py.dict_mem S k) /\
  (MergeSpec.sigla_well_based index S -> MergeSpec.sigla_well_based index S').
Proof.
  unfold Merge.register_siglum, Merge.lbind, Merge.ret, Merge.lift.
  set (base_wit := Merge.get_base_wit index wit).
  destruct (String.eqb base_wit ""); cbn [fst snd];
    (destruct (String.eqb_spec wit base_wit) as [Heq|Hne]; cbn [fst snd];
     [intros [= <-]; split; [reflexivity | auto] |];
     unfold Py.dict_index;
     destruct (Py.dict_get S base_wit) as [sigla|] eqn:Eg; cbn [fst snd]; [|discriminate];
     destruct (Merge.first_in_set set_order _ sigla) as [hit|]; cbn [fst snd];
     [intros [= <-]; split; [reflexivity | auto] |];
     intros [= <-]; split;
     [ intros k; rewrite dict_mem_set;
       destruct (String.eqb_spec base_wit k) as [<-|_]; [|reflexivity];
       unfold Py.dict_mem; rewrite Eg; reflexivity
     | intros Hwb b sg k; rewrite dict_get_set;
       destruct (String.eqb_spec base_wit b) as [<-|Hnb];
       [ intros [= <-] Hk; apply set_add_In in Hk; destruct Hk as [->|Hk];
         [ split; [reflexivity | exact Hne]
         | apply (Hwb base_wit sigla k Eg);
           destruct (Merge.first_in_set set_order _ sigla);
           [eapply set_remove_In; exact Hk | exact Hk] ]
       | intros Hg Hk; exact (Hwb b sg k Hg Hk) ] ]).
Qed.

Lemma dict_get_fold_set {V} (v : V) (l : list string) :
  forall (d : Py.dict V) k,
    Py.dict_get (fold_left (fun d s => Py.dict_set d s v) l d) k
    = if Py.mem k l then Some v else Py.dict_get d k.
Proof.
  induction l as [|x l IH]; intros d k; [reflexivity|].
  cbn [fold_left]. rewrite IH, dict_get_set.
  unfold Py.mem. cbn [existsb]. rewrite (String.eqb_sym k x).
  destruct (existsb (String.eqb k) l), (String.eqb x k); reflexivity.
Qed.

Lemma build_sigla_spec (set_order : list string -> list string) (c : Merge.Collation)
      (S : Py.dict (list string)) :
  snd (Merge.build_sigla_by_base_witness set_order c) = Py.Returned S ->
  (forall k, Py.dict_mem S k = Py.mem k (Merge.witnesses c)) /\
  MergeSpec.sigla_well_based (Merge.witness_index_by_id c) S.
Proof.
  unfold Merge.build_sigla_by_base_witness.
  apply (lfor_each_invariant
           (fun S => (forall k, Py.dict_mem S k = Py.mem k (Merge.witnesses c)) /\
                     MergeSpec.sigla_well_based (Merge.witness_index_by_id c) S)).
  - intros acc wit acc' [Hk Hwb] H. apply register_siglum_spec in H.
    destruct H as [Hk' Hwb']. split; [|auto].
    intros k. rewrite Hk'. apply Hk.
  - split.
    + intros k. unfold Py.dict_mem. rewrite dict_get_fold_set. simpl.
      destruct (Py.mem k (Merge.witnesses c)); reflexivity.
    + intros b sg k. rewrite dict_get_fold_set. simpl.
      destruct (Py.mem b (Merge.witnesses c)); [|discriminate].
      intros [= <-] [].
Qed.

Section InitLists.
Variable set_order : list string -> list string.
Hypothesis set_order_members : forall s x, In x (set_order s) <-> In x s.
Variables (c : Merge.Collation) (S : Py.dict (list string)).

Let blank := repeat Merge.LAC_SYMBOL (List.length (Merge.variation_units c)).

Let body := fun (reading_lists_by_siglum : Py.dict (list string)) (base_wit : string) =>
    sigla <- Py.dict_index S base_wit ;;
    if (List.length sigla =? 0)%nat
    then Py.Returned (Py.dict_set reading_lists_by_siglum base_wit blank)
    else Py.Returned (fold_left (fun d siglum => Py.dict_set d siglum blank)
                        (set_order sigla) reading_lists_by_siglum).

Lemma init_loop_spec (ws : list string) :
  forall acc L0,
    Py.for_each ws acc body = Py.Returned L0 ->
    forall key,
      Py.dict_get L0 key
      = if existsb (fun base_wit =>
                      match Py.dict_get S base_wit with
                      | Some [] => String.eqb key base_wit
                      | Some sigla => Py.mem key sigla
                      | None => false
                      end) ws
        then Some blank else Py.dict_get acc key.
Proof.
  induction ws as [|w ws IH]; intros acc L0; simpl.
  - intros [= <-] key. reflexivity.
  - unfold body at 1. unfold Py.dict_index.
    destruct (Py.dict_get S w) as [sigla|] eqn:Eg; simpl; [|discriminate].
    destruct sigla as [|s0 sigla]; simpl.
    + intros H key. rewrite (IH _ _ H key), dict_get_set.
      rewrite (String.eqb_sym key w).
      destruct (existsb _ ws), (String.eqb w key); reflexivity.
    + intros H key. rewrite (IH _ _ H key), dict_get_fold_set.
      rewrite (mem_set_order set_order set_order_members).
      unfold Py.mem. cbn [existsb].
      destruct (existsb _ ws), (String.eqb key s0), (existsb (String.eqb key) sigla);
        reflexivity.
Qed.

Lemma init_reading_lists_spec (L0 : Py.dict (list string)) :
  Merge.init_reading_lists set_order c S = Py.Returned L0 ->
  forall key,
    Py.dict_get L0 key
    = if existsb (fun base_wit =>
                    match Py.dict_get S base_wit with
                    | Some [] => String.eqb key base_wit
                    | Some sigla => Py.mem key sigla
                    | None => false
                    end) (Merge.witnesses c)
      then Some blank else None.
Proof.
  intros H key. apply (init_loop_spec _ _ _ H key).
Qed.

End InitLists.

Lemma prefix_substring_0 (s : string) : forall j, prefix (substring 0 j s) s = true.
Proof.
  induction s as [|ch s IH]; intros [|j]; simpl; try reflexivity.
  destruct (Ascii.ascii_dec ch ch) as [_|Hne]; [apply IH | congruence].
Qed.

Lemma contains_prefix (s needle : string) :
  prefix needle s = true -> Py.contains s needle = true.
Proof.
  intros H. destruct s; cbn [Py.contains]; rewrite H; reflexivity.
Qed.

Lemma get_base_wit_contained (index : Py.dict nat) (wit : string) :
  Py.contains wit (Merge.get_base_wit index wit) = true.
Proof.
  destruct (get_base_wit_prefix index wit) as (j & _ & -> & _).
  apply contains_prefix, prefix_substring_0.
Qed.

(** [get_base_wit] leaves a member of the witness list as it is. *)
Lemma get_base_wit_fixed (index : Py.dict nat) (wit : string) :
  Py.dict_mem index wit = true -> Merge.get_base_wit index wit = wit.
Proof.
  intros Hm. destruct (get_base_wit_prefix index wit) as (j & Hj & Hr & _ & Hnone).
  destruct (Nat.eq_dec j (String.length wit)) as [->|Hne].
  - rewrite Hr. apply substring_0_length.
  - specialize (Hnone (String.length wit)).
    rewrite substring_0_length, Hm in Hnone.
    assert (true = false) by (apply Hnone; lia). discriminate.
Qed.

Lemma nth_error_repeat {A} (a : A) (n i : nat) :
  i < n -> nth_error (repeat a n) i = Some a.
Proof.
  revert i. induction n as [|n IH]; intros [|i] H; simpl; try lia; auto.
  apply IH. lia.
Qed.

Lemma attestation_matrix_inv (set_order : list string -> list string) (c : Merge.Collation)
      (log : list Merge.report) (S M : Py.dict (list string)) :
  Merge.attestation_matrix set_order c = (log, Py.Returned (S, M)) ->
  snd (Merge.build_sigla_by_base_witness set_order c) = Py.Returned S /\
  exists L0,
    Merge.init_reading_lists set_order c S = Py.Returned L0 /\
    Merge.record_units set_order (Merge.witness_index_by_id c) S 0
      (Merge.variation_units c) L0 = Py.Returned M.
Proof.
  unfold Merge.attestation_matrix, Merge.lbind, Merge.lift.
  destruct (Merge.build_sigla_by_base_witness set_order c) as [lg [S0| |]];
    cbn [fst snd]; try discriminate.
  destruct (Merge.init_reading_lists set_order c S0) as [L0| |] eqn:E0;
    cbn [Py.bind]; try discriminate.
  destruct (Merge.record_units set_order (Merge.witness_index_by_id c) S0 0
              (Merge.variation_units c) L0) as [M0| |] eqn:E1;
    cbn [Py.bind]; try discriminate.
  intros [= _ <- <-]. split; [reflexivity|]. exists L0. auto.
Qed.

(** C3, as the code has it.  In the matrix that [merge_variation_units]
    builds, the entry of a key at a unit is the reading id of the last
    citation of that unit, in document order, that writes the key's
    row ([Z] if none does).  A citation of a base witness writes the
    rows of all subwitness keys registered for that base, whether or
    not they are cited elsewhere in the unit, or the base's own row if
    none is registered; a citation of a key that has a row writes that
    row only.  So a subwitness key cited after the base citation keeps
    its own reading, and one cited before it gets the base's. *)
Theorem attestation_last_citation_wins
        (set_order : list string -> list string)
        (sigla : list string) (apps : list Merge.variation_unit) (targets : list string)
        (log : list Merge.report) (S M : Py.dict (list string)) :
  let c := Merge.new_Collation sigla apps targets in
  let index := Merge.witness_index_by_id c in
  (forall s x, In x (set_order s) <-> In x s) ->
  Merge.attestation_matrix set_order c = (log, Py.Returned (S, M)) ->
  (forall i u key row,
      nth_error (Merge.variation_units c) i = Some u ->
      Py.dict_get M key = Some row ->
      nth_error row i
      = Some (MergeSpec.last_writer index S M (Merge.citations u) key Merge.LAC_SYMBOL)) /\
  (forall b,
      Py.dict_mem index b = true ->
      exists sigla_b,
        Py.dict_get S b = Some sigla_b /\
        match sigla_b with
        | [] => Py.dict_mem M b = true /\
                forall key, MergeSpec.writes index S M b key = true <-> key = b
        | _ => forall key, MergeSpec.writes index S M b key = true <-> In key sigla_b
        end) /\
  (forall k,
      Py.dict_mem M k = true ->
      forall key, MergeSpec.writes index S M k key = true <-> key = k).
Proof.
  intros c index Hmembers Hrun.
  destruct (attestation_matrix_inv _ _ _ _ _ Hrun) as (HS & L0 & HL0 & HM).
  destruct (build_sigla_spec _ _ _ HS) as [HkeysS Hwb].
  pose proof (init_reading_lists_spec set_order Hmembers c S L0 HL0) as Hinit.
  destruct (record_units_spec set_order Hmembers index S _ _ _ _ HM) as [Hmem Hrows].
  assert (forall key row, Py.dict_get M key = Some row ->
                          exists row0, Py.dict_get L0 key = Some row0) as Hback.
  { intros key row Hg. specialize (Hmem key). unfold Py.dict_mem in Hmem.
    rewrite Hg in Hmem. destruct (Py.dict_get L0 key); [eauto | discriminate]. }
  split; [|split].
  - intros i u key row Hu Hg.
    destruct (Hback _ _ Hg) as [row0 Hg0].
    destruct (Hrows _ _ Hg0) as (row' & Hg' & _ & _ & Hcol).
    assert (row' = row) as -> by congruence.
    assert (row0 = repeat Merge.LAC_SYMBOL (List.length (Merge.variation_units c))) as ->.
    { rewrite Hinit in Hg0. destruct (existsb _ _); congruence. }
    rewrite (last_writer_same_keys index S L0 M (Merge.citations u) Hmem).
    apply (Hcol i u Merge.LAC_SYMBOL Hu).
    apply nth_error_repeat. change (0 + i) with i.
    apply nth_error_Some. congruence.
  - intros b Hb.
    assert (Py.mem b (Merge.witnesses c) = true) as Hbw.
    { apply mem_In. apply dict_mem_keys in Hb.
      exact (proj1 (keys_index_map sigla b) Hb). }
    pose proof (HkeysS b) as HSb. rewrite Hbw in HSb. unfold Py.dict_mem in HSb.
    destruct (Py.dict_get S b) as [sigla_b|] eqn:Eb; [|discriminate].
    exists sigla_b. split; [reflexivity|].
    pose proof (get_base_wit_fixed index b Hb) as Hfix.
    destruct sigla_b as [|s0 sigla_b].
    + assert (Py.dict_mem M b = true) as HMb.
      { rewrite Hmem. unfold Py.dict_mem. rewrite Hinit.
        replace (existsb _ (Merge.witnesses c)) with true; [reflexivity|].
        symmetry. apply existsb_exists. exists b. split; [apply mem_In; exact Hbw|].
        rewrite Eb. apply String.eqb_refl. }
      split; [exact HMb|]. intros key. unfold MergeSpec.writes. rewrite HMb.
      rewrite String.eqb_eq. tauto.
    + assert (Py.dict_mem M b = false) as HMb.
      { rewrite Hmem. unfold Py.dict_mem. rewrite Hinit.
        destruct (existsb _ (Merge.witnesses c)) eqn:Ex; [|reflexivity].
        exfalso. apply existsb_exists in Ex. destruct Ex as (w & Hw & Hhit).
        destruct (Py.dict_get S w) as [[|s1 sg]|] eqn:Ew; [| |discriminate].
        - apply String.eqb_eq in Hhit. subst w. congruence.
        - apply mem_In in Hhit. destruct (Hwb w _ b Ew Hhit) as [H1 H2].
          fold index in H1. congruence. }
      intros key. unfold MergeSpec.writes. rewrite HMb, Hfix, Eb.
      rewrite andb_true_iff, mem_In. split; [tauto|].
      intros Hk. split; [exact Hk|].
      destruct (Hwb b _ key Eb Hk) as [H1 _]. fold index in H1.
      rewrite <- H1. apply get_base_wit_contained.
  - intros k Hk key. unfold MergeSpec.writes. rewrite Hk.
    rewrite String.eqb_eq. tauto.
Qed.

Lemma attestation_last_citation_wins_witness :
  let c := Fixtures.hand_then_base in
  let S := [("01", ["01*"])] in
  let M := [("01*", ["2"])] in
  (forall (s : list string) x, In x s <-> In x s) /\
  Merge.attestation_matrix (fun s => s) c = ([], Py.Returned (S, M)) /\
  nth_error ["2"] 0
  = Some (MergeSpec.last_writer (Merge.witness_index_by_id c) S M
            [("1", "01*"); ("2", "01")] "01*" Merge.LAC_SYMBOL).
Proof.
  intros c S M.
  assert (forall (s : list string) x, In x s <-> In x s) as Hm by (intros; tauto).
  split; [exact Hm|]. split; [reflexivity|].
  exact (proj1 (attestation_last_citation_wins (fun s => s) ["01"]
                  [Fixtures.plain_app "B10K1V1U2"
                     [Fixtures.plain_rdg "1" "01*" "en"; Fixtures.plain_rdg "2" "01" "om"]]
                  ["B10K1V1U2"] [] S M Hm eq_refl)
           0 _ "01*" ["2"] eq_refl eq_refl).
Defined.

(** C3 as stated fails when the base citation follows the citation of
    one of its subwitness keys: with [01*] under reading 1 and [01]
    under reading 2, the only registered key of [01] is [01*], it is
    cited on its own, and its entry ends as [2], not [1]. *)
Lemma attestation_base_overwrites_counterexample :
  let c := Fixtures.hand_then_base in
  exists u S M,
    Merge.variation_units c = [u] /\
    Merge.citations u = [("1", "01*"); ("2", "01")] /\
    Merge.attestation_matrix (fun s => s) c = ([], Py.Returned (S, M)) /\
    Py.dict_get S "01" = Some ["01*"] /\
    Py.dict_get M "01*" = Some ["2"] /\
    Py.dict_get M "01*" <> Some ["1"].
Proof.
  eexists _, _, _. repeat split; try reflexivity. discriminate.
Qed.

(** ** The merged reading follows the iteration order of a set *)

(** C4 does not hold of the code.  With first hand and corrector of
    one witness under the same reading, both keys fall into one group
    with the same sort key (the index of their base), and [sorted],
    being stable, leaves them in the order in which
    [reading_lists_by_siglum] was filled, which is the order in which
    the set of the base's sigla was iterated.  Two runs that iterate
    that set in the two possible orders write different [wit]
    attributes. *)
Theorem merge_follows_set_order :
  let c := Fixtures.hand_and_corrector in
  exists m1 m2,
    Merge.merge_variation_units (fun s => s) c = ([], Py.Returned [m1]) /\
    Merge.merge_variation_units (@rev string) c = ([], Py.Returned [m2]) /\
    Merge.m_n m1 = "1" /\ Merge.m_n m2 = "1" /\
    Merge.m_wit m1 = "01* 01C" /\
    Merge.m_wit m2 = "01C 01*" /\
    Merge.merge_variation_units (fun s => s) c
    <> Merge.merge_variation_units (@rev string) c.
Proof.
  intros c. eexists _, _. repeat split; try reflexivity. discriminate.
Qed.

(** Both orders visit exactly the members of the set. *)
Lemma rev_same_members (s : list string) (x : string) : In x (rev s) <-> In x s.
Proof. symmetry. apply in_rev. Qed.

(** ** [sorted]: a stable sort *)

Section SortedFacts.
Variables (A K : Type) (leb : K -> K -> bool) (key : A -> K).
Hypothesis K_eq_dec : forall a b : K, {a = b} + {a <> b}.
Hypothesis leb_total : forall a b, leb a b = true \/ leb b a = true.
Hypothesis leb_trans : forall a b c, leb a b = true -> leb b c = true -> leb a c = true.
Hypothesis leb_antisym : forall a b, leb a b = true -> leb b a = true -> a = b.

Let le (x y : A) : Prop := leb (key x) (key y) = true.


Lemma insert_by_perm (x : A) (l : list A) :
  Permutation (Py.insert_by leb key x l) (x :: l).
Proof.
  induction l as [|y l IH]; simpl; [reflexivity|].
  destruct (leb (key x) (key y)); [reflexivity|].
  rewrite IH. apply perm_swap.
Qed.

Lemma sorted_perm (l : list A) : Permutation (Py.sorted leb key l) l.
Proof.
  induction l as [|x l IH]; simpl; [reflexivity|].
  rewrite insert_by_perm. constructor. exact IH.
Qed.

Lemma insert_by_sorted (x : A) (l : list A) :
  StronglySorted le l -> StronglySorted le (Py.insert_by leb key x l).
Proof.
  induction l as [|y l IH]; simpl; intros Hs.
  - repeat constructor.
  - destruct (leb (key x) (key y)) eqn:E.
    + constructor; [exact Hs|]. inversion Hs as [|? ? Hs' Hall]; subst.
      constructor; [exact E|].
      eapply Forall_impl; [|exact Hall]. intros z Hz. unfold le in *. eauto.
    + inversion Hs as [|? ? Hs' Hall]; subst. constructor; [auto|].
      assert (le y x) as Hyx.
      { unfold le. destruct (leb_total (key x) (key y)); congruence. }
      apply (Permutation_Forall (Permutation_sym (insert_by_perm x l))).
      constructor; assumption.
Qed.

Lemma sorted_sorted (l : list A) : StronglySorted le (Py.sorted leb key l).
Proof.
  induction l as [|x l IH]; simpl; [constructor|].
  apply insert_by_sorted. exact IH.
Qed.

(** Sorting a sorted list changes nothing. *)
Lemma sorted_fixed (l : list A) : StronglySorted le l -> Py.sorted leb key l = l.
Proof.
  induction l as [|x l IH]; intros Hs; simpl; [reflexivity|].
  inversion Hs as [|? ? Hs' Hall]; subst. rewrite (IH Hs').
  destruct l as [|y l]; simpl; [reflexivity|].
  inversion Hall; subst. unfold le in *.
  match goal with H : leb (key x) (key y) = true |- _ => rewrite H end.
  reflexivity.
Qed.





(** With the keys written next to the elements. *)
Lemma sorted_by_keys_map (l : list A) :
  Py.sorted_by_keys leb (map key l) l = Py.sorted leb key l.
Proof.
  unfold Py.sorted_by_keys.
  assert (forall x (q : list A),
             map snd (Py.insert_by leb fst (key x, x) (map (fun y => (key y, y)) q))
             = Py.insert_by leb key x q /\
             Py.insert_by leb fst (key x, x) (map (fun y => (key y, y)) q)
             = map (fun y => (key y, y)) (Py.insert_by leb key x q)) as Hins.
  { intros x q. induction q as [|y q [IH1 IH2]]; [split; reflexivity|].
    cbn [map Py.insert_by fst]. destruct (leb (key x) (key y)).
    - split; [|reflexivity]. cbn [map snd]. rewrite map_map. cbn [snd].
      rewrite map_id. reflexivity.
    - cbn [map snd]. rewrite IH1, IH2. split; reflexivity. }
  assert (combine (map key l) l = map (fun y => (key y, y)) l) as ->.
  { induction l as [|x l IH]; [reflexivity|]. cbn [map combine]. rewrite IH. reflexivity. }
  assert (Py.sorted leb fst (map (fun y => (key y, y)) l)
          = map (fun y => (key y, y)) (Py.sorted leb key l)) as ->.
  { induction l as [|x l IH]; [reflexivity|].
    cbn [map Py.sorted fold_right].
    fold (Py.sorted leb fst (map (fun y => (key y, y)) l)).
    fold (Py.sorted leb key l). rewrite IH. apply (Hins x). }
  rewrite map_map. cbn [snd]. apply map_id.
Qed.

End SortedFacts.

(** ** Orders on keys *)

Lemma ztuple_leb_total (a : list Z) :
  forall b, Py.ztuple_leb a b = true \/ Py.ztuple_leb b a = true.
Proof.
  induction a as [|x a IH]; intros [|y b]; simpl; auto.
  destruct (Z.ltb_spec x y); auto.
  destruct (Z.ltb_spec y x); auto.
Qed.


Lemma ztuple_leb_trans (a : list Z) :
  forall b c, Py.ztuple_leb a b = true -> Py.ztuple_leb b c = true ->
              Py.ztuple_leb a c = true.
Proof.
  induction a as [|x a IH]; intros [|y b] [|z c]; simpl; try discriminate; auto.
  destruct (Z.ltb_spec x y); destruct (Z.ltb_spec y x); try discriminate; try lia;
    destruct (Z.ltb_spec y z); destruct (Z.ltb_spec z y); try discriminate; try lia;
    destruct (Z.ltb_spec x z); destruct (Z.ltb_spec z x); try discriminate; try lia; auto.
  intros Hab Hbc. eapply IH; eauto.
Qed.

(** ** Splitting and joining *)

Lemma split_on_aux_cur (c : ascii) (s : string) :
  forall cur,
    Py.split_on_aux c cur s
    = (cur ++ hd "" (Py.split_on c s)) :: tl (Py.split_on c s).
Proof.
  unfold Py.split_on. induction s as [|d s IH]; intros cur.
  - simpl. rewrite append_empty_r. reflexivity.
  - cbn [Py.split_on_aux]. destruct (Ascii.eqb d c).
    + simpl. rewrite append_empty_r. reflexivity.
    + rewrite (IH (cur ++ String d "")), (IH ("" ++ String d "")).
      cbn [hd tl]. rewrite !append_assoc. reflexivity.
Qed.

Lemma split_on_cons (c d : ascii) (s : string) :
  Py.split_on c (String d s)
  = if Ascii.eqb d c then "" :: Py.split_on c s
    else String d (hd "" (Py.split_on c s)) :: tl (Py.split_on c s).
Proof.
  unfold Py.split_on at 1. cbn [Py.split_on_aux]. destruct (Ascii.eqb d c).
  - reflexivity.
  - rewrite split_on_aux_cur. reflexivity.
Qed.

Lemma split_on_not_nil (c : ascii) (s : string) : Py.split_on c s <> [].
Proof.
  destruct s as [|d s]; [discriminate|].
  rewrite split_on_cons. destruct (Ascii.eqb d c); discriminate.
Qed.

Lemma hd_tl_split_on (c : ascii) (s : string) :
  hd "" (Py.split_on c s) :: tl (Py.split_on c s) = Py.split_on c s.
Proof.
  pose proof (split_on_not_nil c s). destruct (Py.split_on c s); [congruence | reflexivity].
Qed.



Lemma lacks_append (c : ascii) (a b : string) :
  TransposeSpec.lacks c (a ++ b) = TransposeSpec.lacks c a && TransposeSpec.lacks c b.
Proof.
  induction a as [|d a IH]; simpl; [reflexivity|].
  rewrite IH, andb_assoc. reflexivity.
Qed.

Lemma split_on_lacking (c : ascii) (s : string) :
  TransposeSpec.lacks c s = true -> Py.split_on c s = [s].
Proof.
  induction s as [|d s IH]; [reflexivity|]. simpl.
  intros H. apply andb_true_iff in H. destruct H as [Hd Hs].
  rewrite split_on_cons. apply negb_true_iff in Hd. rewrite Hd, (IH Hs). reflexivity.
Qed.

Lemma split_on_app (c : ascii) (x rest : string) :
  TransposeSpec.lacks c x = true ->
  Py.split_on c (x ++ String c rest) = x :: Py.split_on c rest.
Proof.
  induction x as [|d x IH]; simpl TransposeSpec.lacks; intros H.
  - change ("" ++ String c rest) with (String c rest).
    rewrite split_on_cons, Ascii.eqb_refl. reflexivity.
  - apply andb_true_iff in H. destruct H as [Hd Hx]. apply negb_true_iff in Hd.
    change (String d x ++ String c rest) with (String d (x ++ String c rest)).
    rewrite split_on_cons, Hd, (IH Hx). reflexivity.
Qed.

(** [sep.join(parts).split(sep) == parts] when no part holds [sep]. *)
Lemma split_on_join (c : ascii) (parts : list string) :
  parts <> [] ->
  Forall (fun part => TransposeSpec.lacks c part = true) parts ->
  Py.split_on c (Py.join (String c "") parts) = parts.
Proof.
  induction parts as [|x parts IH]; [congruence|]. intros _ Hall.
  inversion Hall as [|? ? Hx Hrest]; subst.
  destruct parts as [|y parts].
  - apply split_on_lacking. exact Hx.
  - change (Py.join (String c "") (x :: y :: parts))
      with (x ++ String c "" ++ Py.join (String c "") (y :: parts)).
    change (String c "" ++ Py.join (String c "") (y :: parts))
      with (String c (Py.join (String c "") (y :: parts))).
    rewrite (split_on_app _ _ _ Hx), IH; [reflexivity | discriminate | exact Hrest].
Qed.



Lemma join_lacks (c : ascii) (sep : string) (parts : list string) :
  TransposeSpec.lacks c sep = true ->
  Forall (fun part => TransposeSpec.lacks c part = true) parts ->
  TransposeSpec.lacks c (Py.join sep parts) = true.
Proof.
  intros Hsep. induction parts as [|x parts IH]; intros Hall; [reflexivity|].
  inversion Hall; subst. destruct parts as [|y parts]; [assumption|].
  change (Py.join sep (x :: y :: parts)) with (x ++ sep ++ Py.join sep (y :: parts)).
  rewrite !lacks_append, Hsep, IH by assumption.
  match goal with H : TransposeSpec.lacks c x = true |- _ => rewrite H end.
  reflexivity.
Qed.

(** ** Numerals *)

Lemma digits_value_lacks (c : ascii) (s : string) :
  Py.is_digit c = false ->
  forall acc n, Py.digits_value acc s = Some n -> TransposeSpec.lacks c s = true.
Proof.
  intros Hc. induction s as [|d s IH]; intros acc n; simpl; [reflexivity|].
  destruct (Py.is_digit d) eqn:Ed; [|discriminate].
  intros H. rewrite (IH _ _ H), andb_true_r.
  apply negb_true_iff. destruct (Ascii.eqb_spec d c); [congruence | reflexivity].
Qed.

Lemma int_lacks (c : ascii) (s : string) :
  Py.is_digit c = false -> Py.int s <> None -> TransposeSpec.lacks c s = true.
Proof.
  intros Hc H. destruct (Py.int s) as [n|] eqn:E; [|congruence].
  destruct s; [discriminate|]. exact (digits_value_lacks c _ Hc _ _ E).
Qed.


(** ** The renumbering engine: one reading there and back *)





Section Renumbering.
Import Py Transpose TransposeSpec.
Variables d d' : dict string.
Hypothesis d_numbering : numbering d.
Hypothesis d_inverted : inverts d d'.





End Renumbering.

(** ** The renumbering engine: a unit there and back *)

Lemma for_each_append_inv {A B} (g : A -> Py.outcome B) (l : list A) :
  forall acc r,
    Py.for_each l acc (fun acc x => y <- g x ;; Py.Returned (acc ++ [y])%list)
    = Py.Returned r ->
    exists ys, r = (acc ++ ys)%list /\ Forall2 (fun x y => g x = Py.Returned y) l ys.
Proof.
  induction l as [|x l IH]; intros acc r; cbn [Py.for_each].
  - intros [= <-]. exists []. rewrite app_nil_r. split; [reflexivity | constructor].
  - destruct (g x) as [y| |] eqn:E; cbn [Py.bind]; try discriminate.
    intros H. destruct (IH _ _ H) as (ys & -> & Hall).
    exists (y :: ys). rewrite <- app_assoc. split; [reflexivity|].
    constructor; assumption.
Qed.


Lemma sibling_keys_inv {A K} (own : A -> option (Py.outcome K)) (l : list A) :
  (forall x, In x l -> own x <> None) ->
  forall previous ks,
    Transpose.sibling_keys own previous l = Py.Returned ks ->
    Forall2 (fun x k => own x = Some (Py.Returned k)) l ks.
Proof.
  induction l as [|x l IH]; intros Hown previous ks; cbn [Transpose.sibling_keys].
  - intros [= <-]. constructor.
  - pose proof (Hown x (or_introl eq_refl)) as Hx.
    destruct (own x) as [[k| |]|] eqn:E; cbn [Py.bind]; try discriminate; [|congruence].
    destruct (Transpose.sibling_keys own k l) as [ks'| |] eqn:E'; cbn [Py.bind];
      try discriminate.
    intros [= <-]. constructor; [exact E|].
    eapply IH; [|exact E']. intros y Hy. apply Hown. right. exact Hy.
Qed.



Section RenumberingUnit.
Import Py Transpose TransposeSpec.
Variables d d' : dict string.
Hypothesis d_numbering : numbering d.
Hypothesis d_inverted : inverts d d'.


End RenumberingUnit.

Lemma Forall2_map_fun {A B} (R : A -> B -> Prop) (g : A -> B) (l : list A) :
  Forall (fun x => R x (g x)) l -> Forall2 R l (map g l).
Proof. induction 1; constructor; assumption. Qed.

Lemma Forall2_fun_map {A B} (R : A -> B -> Prop) (g : A -> B) (l : list A) (l' : list B) :
  (forall x y, In x l -> R x y -> y = g x) -> Forall2 R l l' -> l' = map g l.
Proof.
  intros Hg H. induction H as [|x y l l' Hxy _ IH]; [reflexivity|].
  cbn [map]. rewrite (Hg x y (or_introl eq_refl) Hxy), IH; [reflexivity|].
  intros x0 y0 Hx0. apply Hg. right. exact Hx0.
Qed.

Lemma Forall2_In_l {A B} (R : A -> B -> Prop) (l : list A) (l' : list B) (x : A) :
  Forall2 R l l' -> In x l -> exists y, In y l' /\ R x y.
Proof.
  induction 1 as [|a b l l' Hab _ IH]; intros Hin; [contradiction|].
  destruct Hin as [->|Hin]; [exists b; split; [left; reflexivity | exact Hab]|].
  destruct (IH Hin) as (y & Hy & Hr). exists y. split; [right; exact Hy | exact Hr].
Qed.

Section RoundTrip.
Import Py Transpose TransposeSpec.
Variables d d' : dict string.
Hypothesis d_numbering : numbering d.
Hypothesis d_inverted : inverts d d'.



End RoundTrip.

Lemma dict_get_In {V} (d : Py.dict V) (k : string) (v : V) :
  Py.dict_get d k = Some v -> In (k, v) d.
Proof.
  induction d as [|[k0 v0] d IH]; simpl; [discriminate|].
  destruct (String.eqb_spec k0 k) as [->|_].
  - intros [= ->]. left. reflexivity.
  - intros H. right. exact (IH H).
Qed.





Section RenumberingReturns.
Import Py Transpose TransposeSpec.
Variable d : dict string.
Hypothesis d_numbering : numbering d.




End RenumberingReturns.




(** ** The renumbering engine: relations *)

Lemma sorted_with_inv {A K} (leb : K -> K -> bool) (key : A -> Py.outcome K) (l r : list A) :
  Py.sorted_with leb key l = Py.Returned r ->
  exists ks,
    Forall2 (fun x k => key x = Py.Returned k) l ks /\
    r = Py.sorted_by_keys leb ks l.
Proof.
  unfold Py.sorted_with, Py.sorted_by_keys.
  assert (forall acc keyed,
             Py.for_each l acc
               (fun acc x => Py.bind (key x) (fun k => Py.Returned (acc ++ [(k, x)])%list))
             = Py.Returned keyed ->
             exists ks, Forall2 (fun x k => key x = Py.Returned k) l ks /\
                        keyed = (acc ++ combine ks l)%list) as H.
  { induction l as [|x l IH]; intros acc keyed; cbn [Py.for_each].
    - intros [= <-]. exists []. rewrite app_nil_r. split; [constructor | reflexivity].
    - destruct (key x) as [k| |] eqn:E; cbn [Py.bind]; try discriminate.
      intros Hrun. destruct (IH _ _ Hrun) as (ks & Hall & ->).
      exists (k :: ks). split; [constructor; assumption|].
      rewrite <- app_assoc. reflexivity. }
  destruct (Py.for_each l [] _) as [keyed| |] eqn:E; cbn [Py.bind]; try discriminate.
  intros [= <-]. destruct (H _ _ E) as (ks & Hall & ->). exists ks. auto.
Qed.

Lemma sorted_by_keys_perm {A K} (leb : K -> K -> bool) (ks : list K) (l : list A) :
  List.length ks = List.length l ->
  Permutation (Py.sorted_by_keys leb ks l) l.
Proof.
  intros Hlen. unfold Py.sorted_by_keys.
  rewrite (Permutation_map snd (sorted_perm _ _ leb fst (combine ks l))).
  clear -Hlen. revert ks Hlen.
  induction l as [|x l IH]; intros [|k ks] Hlen; simpl in *; try discriminate;
    [reflexivity|].
  constructor. apply IH. lia.
Qed.

(** What the specification says of both sets holds of the active one: the
    list written back is the image of the list read, every target
    rewritten through the dictionary, none lost and none added, in
    ascending order of the numbers [reading_reference_key] reads. *)
Lemma active_targets_sorted_image (d : Py.dict string) (active : string) (written : list string) :
  Transpose.active_targets d active = Py.Returned written ->
  exists image numbers,
    Forall2 (fun target t => Transpose.relation_target d target = Py.Returned t)
      (Py.split_ws active) image /\
    Permutation written image /\
    Forall2 (fun t z => Transpose.reading_reference_key t = Py.Returned z) written numbers /\
    StronglySorted Z.le numbers.
Proof.
  unfold Transpose.active_targets, Transpose.sort_references. intros H.
  destruct (Py.for_each (Py.split_ws active) [] _) as [image| |] eqn:E; cbn [Py.bind] in H;
    try discriminate.
  destruct (for_each_append_inv (Transpose.relation_target d) _ _ _ E) as (ys & -> & Himg).
  cbn [app] in *.
  destruct (sorted_with_inv _ _ _ _ H) as (ks & Hks & ->).
  exists ys. unfold Py.sorted_by_keys.
  set (pairs := Py.sorted Z.leb fst (combine ks ys)).
  exists (map fst pairs). split; [exact Himg|]. split; [|split].
  - apply (sorted_by_keys_perm Z.leb ks ys). symmetry. eapply Forall2_length. exact Hks.
  - assert (Forall (fun p => Transpose.reading_reference_key (snd p) = Py.Returned (fst p))
              (combine ks ys)) as Hpairs.
    { clear -Hks. induction Hks; simpl; constructor; auto. }
    apply (Permutation_Forall (Permutation_sym (sorted_perm _ _ Z.leb fst (combine ks ys))))
      in Hpairs.
    fold pairs in Hpairs. clearbody pairs.
    induction Hpairs; simpl; constructor; auto.
  - assert (StronglySorted (fun a b : Z * string => Z.leb (fst a) (fst b) = true) pairs) as Hs.
    { apply sorted_sorted.
      - intros a b. destruct (Z.leb_spec a b); [left; reflexivity|].
        right. apply Z.leb_le. lia.
      - intros a b c Hab Hbc. apply Z.leb_le in Hab, Hbc. apply Z.leb_le. lia. }
    clearbody pairs. induction Hs as [|p pairs _ IH Hall]; simpl; constructor; [exact IH|].
    rewrite Forall_map. eapply Forall_impl; [|exact Hall].
    intros q Hq. apply Z.leb_le. exact Hq.
Qed.

(** C7 does not hold of the code.  With the sequence [(2,3,1)] the
    dictionary sends 2 to 1, 3 to 2 and 1 to 3.  On a relation whose
    active and passive sets are both [1 2 3], the active set comes out
    as the sorted image [1 2 3]; the passive set, for which [sorted]
    is called inside the loop, comes out as [1 2 2]: reference 3 is
    lost and reference 2 is there twice. *)
Theorem process_relation_passive_slip :
  let transposition_dict := Transpose.make_transposition_dict ["2"; "3"; "1"] in
  let xml := Transpose.Build_relation "1 2 3" "1 2 3" None "" in
  transposition_dict = [("2", "1"); ("3", "2"); ("1", "3")] /\
  Transpose.active_targets transposition_dict "1 2 3" = Py.Returned ["1"; "2"; "3"] /\
  Transpose.passive_targets transposition_dict "1 2 3" = Py.Returned ["1"; "2"; "2"] /\
  Transpose.process_relation xml transposition_dict
  = Py.Returned (Transpose.Build_relation "1 2 3" "1 2 2" None "") /\
  ~ Permutation ["3"; "1"; "2"] ["1"; "2"; "2"].
Proof.
  repeat split; try reflexivity.
  intros H. assert (In "3" ["1"; "2"; "2"]) as Hin.
  { eapply Permutation_in; [exact H | left; reflexivity]. }
  simpl in Hin. intuition discriminate.
Qed.

(** ** After the report *)

(** What follows the report of an unresolved citation: the empty base
    is looked up in [sigla_by_base_witness], and unless the empty
    string is itself the id of a witness the merge stops there with a
    [KeyError]. *)
Lemma unresolved_citation_stops_merge
      (set_order : list string -> list string) (index : Py.dict nat)
      (sigla_by_base_witness : Py.dict (list string)) (wit : string) :
  Merge.get_base_wit index wit = "" ->
  wit <> "" ->
  Py.dict_mem sigla_by_base_witness "" = false ->
  Merge.register_siglum set_order index sigla_by_base_witness wit
  = ([Merge.NoBaseWitness wit], Py.Raised (Py.KeyError "")).
Proof.
  intros Hb Hw Hm. unfold Merge.register_siglum. rewrite Hb.
  unfold Merge.lbind, Merge.ret, Merge.lift, Py.dict_index. cbn [fst snd String.eqb].
  destruct (String.eqb_spec wit "") as [->|_]; [congruence|].
  unfold Py.dict_mem in Hm.
  destruct (Py.dict_get sigla_by_base_witness ""); [discriminate | reflexivity].
Qed.

(** ** What makes the sort of a reading fail *)

Lemma parse_wit_loop_registered (suffixes : list string) :
  forall fuel b ss b' ss',
    NegToPos.parse_wit_loop fuel suffixes b ss = Some (b', ss') ->
    forall s, In s ss' -> In s suffixes \/ In s ss.
Proof.
  induction fuel as [|fuel IH]; intros b ss b' ss'; simpl; [discriminate|].
  destruct (NegToPos.first_suffix suffixes b) as [x|] eqn:E.
  - intros H s Hs. destruct (IH _ _ _ _ H s Hs) as [Hin|[<-|Hin]]; auto.
    left. apply (first_suffix_some _ _ _ E).
  - intros [= <- <-] s Hs. auto.
Qed.

Lemma for_each_suffix_indices (suffix_ind_map : Py.dict nat) (wit_suffixes : list string) :
  (forall s, In s wit_suffixes -> In s (Py.keys suffix_ind_map)) ->
  forall acc, exists inds,
    Py.for_each wit_suffixes acc
      (fun acc wit_suffix =>
         i <- Py.dict_index suffix_ind_map wit_suffix ;; Py.Returned (acc ++ [i])%list)
    = Py.Returned inds.
Proof.
  induction wit_suffixes as [|s ss IH]; intros Hreg acc; cbn [Py.for_each]; [eauto|].
  assert (Py.dict_mem suffix_ind_map s = true) as Hm.
  { apply dict_mem_keys. apply Hreg. left. reflexivity. }
  unfold Py.dict_index at 1. unfold Py.dict_mem in Hm.
  destruct (Py.dict_get suffix_ind_map s); [|discriminate]. cbn [Py.bind].
  apply IH. intros x Hx. apply Hreg. right. exact Hx.
Qed.

(** The only exception [get_sorted_wits] raises is the [KeyError] for
    a base that is not in the witness list: the base [parse_wit] cuts
    a manuscript siglum down to (the siglum itself when no registered
    suffix ends it), or the citation as it stands when it does not look
    like a manuscript siglum. *)
Lemma get_sorted_wits_raises (wits : list string) (wit_ind_map suffix_ind_map : Py.dict nat)
      (e : Py.exn) :
  NegToPos.get_sorted_wits wits wit_ind_map suffix_ind_map = Py.Raised e ->
  exists wit base_wit,
    In wit wits /\
    NegToPos.base_of_citation suffix_ind_map wit = Py.Returned base_wit /\
    Py.dict_mem wit_ind_map base_wit = false /\
    e = Py.KeyError base_wit.
Proof.
  unfold NegToPos.get_sorted_wits.
  destruct (Py.for_each wits [] _) as [keys_by_wit|e'|] eqn:E; cbn [Py.bind];
    try discriminate.
  intros [= <-]. revert E. generalize (@nil (string * list nat)).
  induction wits as [|w wits IH]; intros acc; cbn [Py.for_each]; [discriminate|].
  destruct (NegToPos.wit_key wit_ind_map suffix_ind_map w) as [k|e0|] eqn:Ek; cbn [Py.bind].
  - intros H. destruct (IH _ H) as (wit & b & Hin & Hb & Hm & He).
    exists wit, b. simpl. auto.
  - intros [= <-]. exists w. revert Ek.
    unfold NegToPos.wit_key, NegToPos.base_of_citation.
    destruct (NegToPos.witness_pattern_match w).
    + destruct (NegToPos.parse_wit w (Py.keys suffix_ind_map)) as [[b ss]|] eqn:Ep;
        cbn [Py.of_loop Py.bind fst snd]; [|discriminate].
      unfold Py.dict_index at 1.
      destruct (Py.dict_get wit_ind_map b) as [i|] eqn:Eb; cbn [Py.bind].
      * assert (forall s, In s ss -> In s (Py.keys suffix_ind_map)) as Hreg.
        { intros s Hs.
          destruct (parse_wit_loop_registered _ _ _ _ _ _ Ep s Hs) as [H|[]].
          exact H. }
        destruct (for_each_suffix_indices suffix_ind_map ss Hreg []) as [inds ->].
        discriminate.
      * intros [= <-]. exists b. unfold Py.dict_mem. rewrite Eb. simpl. auto.
    + unfold Py.dict_index.
      destruct (Py.dict_get wit_ind_map w) as [i|] eqn:Eb; cbn [Py.bind]; [discriminate|].
      intros [= <-]. exists w. unfold Py.dict_mem. rewrite Eb. simpl. auto.
  - discriminate.
Qed.

(* ================================================================== *)
(** * Further properties of the four scripts *)
(* ================================================================== *)

(** ** [parse_wit]: what is left and what is cut *)

(** Whatever [parse_wit] of the expander returns, every suffix in the
    list is one of the registered suffixes and the base siglum ends in
    none of them: nothing more could be cut. *)
Theorem parse_wit_cuts_all (wit base_wit : string) (suffixes wit_suffixes : list string) :
  NegToPos.parse_wit wit suffixes = Some (base_wit, wit_suffixes) ->
  (forall s, In s wit_suffixes -> In s suffixes) /\
  (forall s, In s suffixes -> Py.endswith base_wit s = false).
Proof.
  unfold NegToPos.parse_wit. intros H. split.
  - intros s Hs.
    destruct (parse_wit_loop_registered _ _ _ _ _ _ H s Hs) as [Hin|[]]. exact Hin.
  - revert H. generalize (@nil string) at 1. generalize wit at 2.
    generalize (S (String.length wit)).
    intros fuel. induction fuel as [|fuel IH]; intros b ss;
      cbn [NegToPos.parse_wit_loop]; [discriminate|].
    destruct (NegToPos.first_suffix suffixes b) as [x|] eqn:E.
    + apply IH.
    + intros [= <- _]. apply first_suffix_none. exact E.
Qed.

Lemma parse_wit_cuts_all_witness :
  NegToPos.parse_wit "01C1*" ["*"; "C1"] = Some ("01", ["C1"; "*"]) /\
  (forall s, In s ["C1"; "*"] -> In s ["*"; "C1"]) /\
  (forall s, In s ["*"; "C1"] -> Py.endswith "01" s = false).
Proof.
  split; [reflexivity|].
  exact (parse_wit_cuts_all "01C1*" "01" ["*"; "C1"] ["C1"; "*"] eq_refl).
Defined.

(** The same of the validator's [parse_wit], which looks for the
    suffixes role by role and lets a later role overrule an earlier
    one: every suffix returned is a non-empty suffix of one of the
    five roles, and on the base siglum the search of the loop finds
    nothing more; when no role has the empty string among its
    suffixes, the base siglum ends in no suffix of any role. *)
Theorem validator_parse_wit_cuts_all
        (T : Validate.suffix_table) (wit base_wit : string) (suffixes : list string) :
  Validate.parse_wit wit T = Some (base_wit, suffixes) ->
  (forall s, In s suffixes -> s <> "" /\ ValidateSpec.registered T s) /\
  Validate.chosen_suffix T base_wit = "" /\
  ((forall s, ValidateSpec.registered T s -> s <> "") ->
   forall s, ValidateSpec.registered T s -> Py.endswith base_wit s = false).
Proof.
  unfold Validate.parse_wit.
  assert (forall cur l b,
             Validate.pick cur l b = cur \/ In (Validate.pick cur l b) l) as Hpick.
  { intros cur l b. destruct (pick_cases cur l b) as [H|[H _]]; auto. }
  assert (forall b, Validate.chosen_suffix T b = "" \/
                    ValidateSpec.registered T (Validate.chosen_suffix T b)) as Hrole.
  { intros b. unfold Validate.chosen_suffix, ValidateSpec.registered.
    repeat match goal with
    | |- context [Validate.pick ?c ?l b] =>
        destruct (Hpick c l b) as [->|H]; [|tauto]
    end.
    left. reflexivity. }
  assert (forall fuel b ss b' ss',
             Validate.parse_wit_loop fuel T b ss = Some (b', ss') ->
             (forall s, In s ss' -> In s ss \/ (s <> "" /\ ValidateSpec.registered T s)) /\
             Validate.chosen_suffix T b' = "") as Hloop.
  { induction fuel as [|fuel IH]; intros b ss b' ss'; cbn [Validate.parse_wit_loop];
      [discriminate|].
    destruct (String.length (Validate.chosen_suffix T b) =? 0)%nat eqn:E.
    - intros [= <- <-]. split; [auto|].
      apply Nat.eqb_eq in E. destruct (Validate.chosen_suffix T b); [reflexivity | discriminate].
    - intros H. destruct (IH _ _ _ _ H) as [Hin Hb]. split; [|exact Hb].
      intros s Hs. destruct (Hin s Hs) as [[<-|Hold]|Hnew]; auto.
      right. split; [exact (length_zero_empty _ E)|].
      destruct (Hrole b) as [H0|H0]; [|exact H0].
      rewrite H0 in E. discriminate. }
  intros H. destruct (Hloop _ _ _ _ _ H) as [Hin Hb]. split; [|split].
  - intros s Hs. destruct (Hin s Hs) as [[]|Hnew]. exact Hnew.
  - exact Hb.
  - intros Hne.
    assert (forall cur l, (forall s, In s l -> ValidateSpec.registered T s) ->
                          Validate.pick cur l base_wit = "" ->
                          cur = "" /\ forall s, In s l -> Py.endswith base_wit s = false)
      as Hstep.
    { intros cur l Hl. unfold Validate.pick.
      destruct (NegToPos.first_suffix l base_wit) as [x|] eqn:E.
      - intros ->. destruct (first_suffix_some _ _ _ E) as [Hx _].
        exfalso. exact (Hne "" (Hl "" Hx) eq_refl).
      - intros ->. split; [reflexivity|]. exact (first_suffix_none _ _ E). }
    unfold Validate.chosen_suffix in Hb.
    apply Hstep in Hb; [|unfold ValidateSpec.registered; tauto]. destruct Hb as [Hb H5].
    apply Hstep in Hb; [|unfold ValidateSpec.registered; tauto]. destruct Hb as [Hb H4].
    apply Hstep in Hb; [|unfold ValidateSpec.registered; tauto]. destruct Hb as [Hb H3].
    apply Hstep in Hb; [|unfold ValidateSpec.registered; tauto]. destruct Hb as [Hb H2].
    apply Hstep in Hb; [|unfold ValidateSpec.registered; tauto]. destruct Hb as [_ H1].
    intros s [Hs|[Hs|[Hs|[Hs|Hs]]]]; auto.
Qed.

Lemma validator_parse_wit_cuts_all_witness :
  let T := Validate.Build_suffix_table ["*"] ["T"] ["C1"] ["A"] ["/1"; "/2"] in
  Validate.parse_wit "X1C1/2" T = Some ("X1", ["C1"; "/2"]) /\
  Validate.chosen_suffix T "X1" = "".
Proof.
  intros T. split; [reflexivity|].
  exact (proj1 (proj2 (validator_parse_wit_cuts_all T "X1C1/2" "X1" ["C1"; "/2"] eq_refl))).
Defined.

(** ** [get_sorted_wits]: a sorted copy *)

Lemma tuple_leb_total (a : list nat) :
  forall b, Py.tuple_leb a b = true \/ Py.tuple_leb b a = true.
Proof.
  induction a as [|x a IH]; intros [|y b]; simpl; auto.
  destruct (Nat.ltb_spec x y); auto.
  destruct (Nat.ltb_spec y x); auto.
Qed.

Lemma tuple_leb_trans (a : list nat) :
  forall b c, Py.tuple_leb a b = true -> Py.tuple_leb b c = true ->
              Py.tuple_leb a c = true.
Proof.
  induction a as [|x a IH]; intros [|y b] [|z c]; simpl; try discriminate; auto.
  destruct (Nat.ltb_spec x y); destruct (Nat.ltb_spec y x); try discriminate; try lia;
    destruct (Nat.ltb_spec y z); destruct (Nat.ltb_spec z y); try discriminate; try lia;
    destruct (Nat.ltb_spec x z); destruct (Nat.ltb_spec z x); try discriminate; try lia; auto.
  intros Hab Hbc. eapply IH; eauto.
Qed.

Lemma StronglySorted_map {A B} (R : B -> B -> Prop) (f : A -> B) (l : list A) :
  StronglySorted (fun x y => R (f x) (f y)) l -> StronglySorted R (map f l).
Proof.
  induction 1 as [|x l _ IH Hall]; cbn [map]; constructor; [exact IH|].
  rewrite Forall_map. exact Hall.
Qed.

(** After the first loop of [get_sorted_wits], [keys_by_wit] holds for
    every witness of the list the key computed for it. *)
Lemma keys_by_wit_spec (wit_ind_map suffix_ind_map : Py.dict nat) (wits : list string) :
  forall acc keys_by_wit,
    Py.for_each wits acc
      (fun keys_by_wit wit =>
         k <- NegToPos.wit_key wit_ind_map suffix_ind_map wit ;;
         Py.Returned (Py.dict_set keys_by_wit wit k))
    = Py.Returned keys_by_wit ->
    (forall wit k, Py.dict_get acc wit = Some k ->
                   NegToPos.wit_key wit_ind_map suffix_ind_map wit = Py.Returned k) ->
    forall wit, In wit wits ->
                NegToPos.wit_key wit_ind_map suffix_ind_map wit
                = Py.Returned (NegToPos.key_of keys_by_wit wit).
Proof.
  induction wits as [|w wits IH]; intros acc kbw; cbn [Py.for_each]; [intros _ _ ? []|].
  destruct (NegToPos.wit_key wit_ind_map suffix_ind_map w) as [k| |] eqn:Ek; cbn [Py.bind];
    try discriminate.
  intros Hrun Hacc.
  assert (forall wit k', Py.dict_get (Py.dict_set acc w k) wit = Some k' ->
                         NegToPos.wit_key wit_ind_map suffix_ind_map wit = Py.Returned k')
    as Hacc'.
  { intros wit k'. rewrite dict_get_set. destruct (String.eqb_spec w wit) as [<-|_].
    - intros [= <-]. exact Ek.
    - apply Hacc. }
  assert (forall wit k', Py.dict_get kbw wit = Some k' ->
                         NegToPos.wit_key wit_ind_map suffix_ind_map wit = Py.Returned k')
    as Hall.
  { clear IH. revert Hrun Hacc'. generalize (Py.dict_set acc w k). clear.
    induction wits as [|w wits IH]; intros acc; cbn [Py.for_each].
    - intros [= <-] H. exact H.
    - destruct (NegToPos.wit_key wit_ind_map suffix_ind_map w) as [k| |] eqn:Ek;
        cbn [Py.bind]; try discriminate.
      intros Hrun Hacc. apply (IH _ Hrun).
      intros wit k'. rewrite dict_get_set. destruct (String.eqb_spec w wit) as [<-|_].
      + intros [= <-]. exact Ek.
      + apply Hacc. }
  intros wit [<-|Hin]; [|exact (IH _ _ Hrun Hacc' wit Hin)].
  assert (Py.dict_mem kbw w = true) as Hm.
  { clear -Hrun. revert Hrun.
    assert (Py.dict_mem (Py.dict_set acc w k) w = true) as H0
        by (rewrite dict_mem_set, String.eqb_refl; reflexivity).
    revert H0. generalize (Py.dict_set acc w k).
    induction wits as [|w' wits IH]; intros d Hd; cbn [Py.for_each].
    - intros [= <-]. exact Hd.
    - destruct (NegToPos.wit_key wit_ind_map suffix_ind_map w'); cbn [Py.bind];
        try discriminate.
      apply IH. rewrite dict_mem_set, Hd. apply orb_true_r. }
  unfold NegToPos.key_of. unfold Py.dict_mem in Hm.
  destruct (Py.dict_get kbw w) as [k'|] eqn:Eg; [|discriminate].
  exact (Hall w k' Eg).
Qed.

Lemma get_sorted_wits_inv
      (wits sorted_wits : list string) (wit_ind_map suffix_ind_map : Py.dict nat) :
  NegToPos.get_sorted_wits wits wit_ind_map suffix_ind_map = Py.Returned sorted_wits ->
  exists key,
    sorted_wits = Py.sorted Py.tuple_leb key wits /\
    forall wit, In wit wits ->
                NegToPos.wit_key wit_ind_map suffix_ind_map wit = Py.Returned (key wit).
Proof.
  unfold NegToPos.get_sorted_wits.
  destruct (Py.for_each wits [] _) as [kbw| |] eqn:E; cbn [Py.bind]; try discriminate.
  intros [= <-]. exists (NegToPos.key_of kbw). split; [reflexivity|].
  assert (forall wit k, Py.dict_get (@nil (string * list nat)) wit = Some k ->
                        NegToPos.wit_key wit_ind_map suffix_ind_map wit = Py.Returned k)
    as Hnil by (intros wit k; discriminate).
  exact (keys_by_wit_spec _ _ _ _ _ E Hnil).
Qed.

(** What [get_sorted_wits] returns is the list it was given, in
    another order, and the keys of its entries (the index of the base
    witness followed by the indices of the suffixes) ascend. *)
Theorem get_sorted_wits_sorted
        (wits sorted_wits : list string) (wit_ind_map suffix_ind_map : Py.dict nat) :
  NegToPos.get_sorted_wits wits wit_ind_map suffix_ind_map = Py.Returned sorted_wits ->
  Permutation sorted_wits wits /\
  exists keys,
    Forall2 (fun wit k => NegToPos.wit_key wit_ind_map suffix_ind_map wit = Py.Returned k)
      sorted_wits keys /\
    StronglySorted (fun a b => Py.tuple_leb a b = true) keys.
Proof.
  intros H. destruct (get_sorted_wits_inv _ _ _ _ H) as (key & -> & Hkeys).
  pose proof (sorted_perm _ _ Py.tuple_leb key wits) as Hperm.
  split; [exact Hperm|].
  exists (map key (Py.sorted Py.tuple_leb key wits)).
  split.
  - apply Forall2_map_fun. apply Forall_forall. intros w Hw. apply Hkeys.
    eapply Permutation_in; [exact Hperm | exact Hw].
  - apply StronglySorted_map.
    exact (sorted_sorted _ _ Py.tuple_leb key
             (fun a b => tuple_leb_total a b)
             (fun a b c => tuple_leb_trans a b c) wits).
Qed.

Lemma get_sorted_wits_sorted_witness :
  let wit_ind_map := Py.index_map ["P46"; "01"; "02"] in
  let suffix_ind_map := Py.index_map ["*"; "C1"] in
  NegToPos.get_sorted_wits ["02"; "01C1"; "P46"; "01*"] wit_ind_map suffix_ind_map
  = Py.Returned ["P46"; "01*"; "01C1"; "02"] /\
  Permutation ["P46"; "01*"; "01C1"; "02"] ["02"; "01C1"; "P46"; "01*"].
Proof.
  intros wit_ind_map suffix_ind_map. split; [reflexivity|].
  exact (proj1 (get_sorted_wits_sorted ["02"; "01C1"; "P46"; "01*"]
                  ["P46"; "01*"; "01C1"; "02"] wit_ind_map suffix_ind_map eq_refl)).
Defined.

Lemma get_sorted_wits_raises_witness :
  let wit_ind_map := Py.index_map ["P46"; "01"; "02"] in
  let suffix_ind_map := Py.index_map ["*"; "C1"] in
  NegToPos.get_sorted_wits ["01*"; "99C1"; "02"] wit_ind_map suffix_ind_map
  = Py.Raised (Py.KeyError "99") /\
  exists wit base_wit,
    In wit ["01*"; "99C1"; "02"] /\
    NegToPos.base_of_citation suffix_ind_map wit = Py.Returned base_wit /\
    Py.dict_mem wit_ind_map base_wit = false /\
    Py.KeyError "99" = Py.KeyError base_wit.
Proof.
  intros wit_ind_map suffix_ind_map. split; [reflexivity|].
  exact (get_sorted_wits_raises ["01*"; "99C1"; "02"] wit_ind_map suffix_ind_map
           (Py.KeyError "99") eq_refl).
Defined.

(** ** The index of a witness or suffix *)

Lemma index_map_from_get (l : list string) (x : string) :
  forall i0 d i,
    Py.dict_get (Py.index_map_from i0 l d) x = Some i <->
    (exists p, i = i0 + p /\ nth_error l p = Some x /\
               forall j, p < j -> nth_error l j <> Some x) \/
    ((forall j, nth_error l j <> Some x) /\ Py.dict_get d x = Some i).
Proof.
  induction l as [|y l IH]; intros i0 d i; cbn [Py.index_map_from].
  - split.
    + intros H. right. split; [|exact H]. intros [|j]; discriminate.
    + intros [(p & _ & Hp & _)|[_ H]]; [destruct p; discriminate | exact H].
  - rewrite IH. split.
    + intros [(p & -> & Hp & Hlast)|[Hnone Hd]].
      * left. exists (S p). split; [lia|]. split; [exact Hp|].
        intros [|j] Hj; [lia|]. apply Hlast. lia.
      * rewrite dict_get_set in Hd. destruct (String.eqb_spec y x) as [->|Hne].
        -- injection Hd as <-. left. exists 0. split; [lia|]. split; [reflexivity|].
           intros [|j] Hj; [lia|]. apply Hnone.
        -- right. split; [|exact Hd]. intros [|j]; [cbn; congruence | apply Hnone].
    + intros [(p & -> & Hp & Hlast)|[Hnone Hd]].
      * destruct p as [|p].
        -- right. injection Hp as ->. split.
           ++ intros j. apply (Hlast (S j)). lia.
           ++ rewrite dict_get_set, String.eqb_refl. f_equal. lia.
        -- left. exists p. split; [lia|]. split; [exact Hp|].
           intros j Hj. apply (Hlast (S j)). lia.
      * right. split; [intros j; apply (Hnone (S j))|].
        rewrite dict_get_set. destruct (String.eqb_spec y x) as [->|_]; [|exact Hd].
        exfalso. exact (Hnone 0 eq_refl).
Qed.

(** The dictionaries [wit_ind_map], [suffix_ind_map] and
    [witness_index_by_id] give a siglum the place it has in the list
    they are built from; a siglum that stands there more than once has
    the place of its last occurrence. *)
Theorem index_map_last_place (l : list string) (x : string) (i : nat) :
  Py.dict_get (Py.index_map l) x = Some i <->
  nth_error l i = Some x /\ forall j, i < j -> nth_error l j <> Some x.
Proof.
  unfold Py.index_map. rewrite index_map_from_get. cbn [Py.dict_get Nat.add]. split.
  - intros [(p & -> & H)|[_ H]]; [exact H | discriminate].
  - intros H. left. exists i. split; [reflexivity | exact H].
Qed.

Lemma index_map_last_place_witness :
  Py.dict_get (Py.index_map ["01"; "02"; "01"]) "01" = Some 2.
Proof.
  apply (proj2 (index_map_last_place ["01"; "02"; "01"] "01" 2)).
  split; [reflexivity|]. intros [|[|[|[|j]]]] Hj; try lia; discriminate.
Defined.

(** ** Citations through [split] and [join] *)

Lemma spaceless_append (a b : string) :
  PySpec.spaceless (a ++ b) = PySpec.spaceless a && PySpec.spaceless b.
Proof.
  induction a as [|c a IH]; simpl; [reflexivity|].
  rewrite IH, andb_assoc. reflexivity.
Qed.

Lemma append_not_empty (a : string) (c : ascii) : a ++ String c "" <> "".
Proof. destruct a; discriminate. Qed.

Lemma split_ws_aux_tokens (s : string) :
  forall cur, PySpec.spaceless cur = true -> Forall PySpec.token (Py.split_ws_aux cur s).
Proof.
  induction s as [|c s IH]; intros cur Hcur; cbn [Py.split_ws_aux].
  - destruct (String.eqb_spec cur ""); constructor; [split; assumption | constructor].
  - destruct (Py.is_space c) eqn:Ec.
    + destruct (String.eqb_spec cur ""); [apply IH; reflexivity|].
      constructor; [split; assumption | apply IH; reflexivity].
    + apply IH. rewrite spaceless_append, Hcur. simpl. rewrite Ec. reflexivity.
Qed.

(** What [str.split()] returns: non-empty strings without blanks. *)
Lemma split_ws_tokens (s : string) : Forall PySpec.token (Py.split_ws s).
Proof. apply split_ws_aux_tokens. reflexivity. Qed.

Lemma split_ws_aux_app (t rest : string) :
  PySpec.spaceless t = true ->
  forall cur, Py.split_ws_aux cur (t ++ rest) = Py.split_ws_aux (cur ++ t) rest.
Proof.
  induction t as [|c t IH]; intros Ht cur.
  - rewrite append_empty_r. reflexivity.
  - simpl in Ht. apply andb_true_iff in Ht. destruct Ht as [Hc Ht].
    apply negb_true_iff in Hc.
    change (String c t ++ rest) with (String c (t ++ rest)).
    cbn [Py.split_ws_aux]. rewrite Hc, (IH Ht), append_assoc. reflexivity.
Qed.

(** [' '.join(l).split() == l] for a list of tokens. *)
Lemma split_ws_join (l : list string) :
  Forall PySpec.token l -> Py.split_ws (Py.join " " l) = l.
Proof.
  induction l as [|x l IH]; intros Hall; [reflexivity|].
  inversion Hall as [|? ? [Hne Hx] Hrest]; subst. unfold Py.split_ws in *.
  destruct l as [|y l].
  - cbn [Py.join]. rewrite <- (append_empty_r x) at 1.
    rewrite (split_ws_aux_app x "" Hx ""). cbn [Py.split_ws_aux append].
    destruct (String.eqb_spec x ""); [congruence | reflexivity].
  - change (Py.join " " (x :: y :: l)) with (x ++ " " ++ Py.join " " (y :: l)).
    rewrite (split_ws_aux_app x _ Hx ""). cbn [append Py.split_ws_aux].
    change (Py.is_space " ") with true. cbv iota.
    destruct (String.eqb_spec x ""); [congruence|].
    rewrite (IH Hrest). reflexivity.
Qed.

(** [convert_app] changes the number of no reading, and the citations
    it leaves a reading with are those that stand there once [rell] is
    replaced, each as often as before, whether the sort went through
    or failed. *)
Theorem convert_rdg_keeps_citations
        (unit_id : option string) (wit_ind_map suffix_ind_map : Py.dict nat)
        (uncited_wits_str : string) (r r' : NegToPos.rdg) (log : list NegToPos.report) :
  NegToPos.convert_rdg unit_id wit_ind_map suffix_ind_map uncited_wits_str r
  = Py.Returned (log, r') ->
  NegToPos.rdg_n r' = NegToPos.rdg_n r /\
  Permutation (Py.split_ws (NegToPos.rdg_wit r'))
    (Py.split_ws (Py.replace (NegToPos.rdg_wit r) "rell" uncited_wits_str)).
Proof.
  unfold NegToPos.convert_rdg.
  destruct (NegToPos.get_sorted_wits _ wit_ind_map suffix_ind_map) as [sorted_wits|e|] eqn:E;
    try discriminate; intros [= <- <-]; cbn [NegToPos.rdg_n NegToPos.rdg_wit];
    (split; [reflexivity|]); [|reflexivity].
  destruct (get_sorted_wits_inv _ _ _ _ E) as (key & -> & _).
  pose proof (sorted_perm _ _ Py.tuple_leb key
                (Py.split_ws (Py.replace (NegToPos.rdg_wit r) "rell" uncited_wits_str)))
    as Hperm.
  rewrite split_ws_join; [exact Hperm|].
  apply (Permutation_Forall (Permutation_sym Hperm)). apply split_ws_tokens.
Qed.

Lemma convert_rdg_keeps_citations_witness :
  let wit_ind_map := Py.index_map ["P46"; "01"; "02"; "03"] in
  let suffix_ind_map := Py.index_map ["*"; "C1"] in
  let r := NegToPos.Build_rdg (Some "2") "rell 02C1 02*" in
  let r' := NegToPos.Build_rdg (Some "2") "02* 02C1 03" in
  NegToPos.convert_rdg (Some "B10K1V1U2") wit_ind_map suffix_ind_map "03" r
  = Py.Returned ([], r') /\
  Permutation (Py.split_ws "02* 02C1 03") (Py.split_ws (Py.replace "rell 02C1 02*" "rell" "03")).
Proof.
  intros wit_ind_map suffix_ind_map r r'. split; [reflexivity|].
  exact (proj2 (convert_rdg_keeps_citations (Some "B10K1V1U2") wit_ind_map suffix_ind_map
                  "03" r r' [] eq_refl)).
Defined.

(** ** The validator's unmatched-pairs check never stops on a lookup *)

Lemma for_each_invariant {A S} (P : S -> Prop) (body : S -> A -> Py.outcome S) (l : list A) :
  (forall acc x acc', In x l -> P acc -> body acc x = Py.Returned acc' -> P acc') ->
  forall acc r, P acc -> Py.for_each l acc body = Py.Returned r -> P r.
Proof.
  induction l as [|x l IH]; intros Hstep acc r Hacc; cbn [Py.for_each].
  - intros [= <-]. exact Hacc.
  - destruct (body acc x) as [acc'| |] eqn:E; cbn [Py.bind]; try discriminate.
    apply IH.
    + intros a y a' Hy. apply Hstep. right. exact Hy.
    + exact (Hstep acc x acc' (or_introl eq_refl) Hacc E).
Qed.


Lemma Forall_dict_set {V} (P : string * V -> Prop) (d : Py.dict V) (k : string) (v : V) :
  Forall P d -> P (k, v) -> Forall P (Py.dict_set d k v).
Proof.
  intros Hd Hkv. induction d as [|[k0 v0] d IH]; cbn [Py.dict_set].
  - constructor; [exact Hkv | constructor].
  - inversion Hd; subst. destruct (String.eqb_spec k0 k) as [->|_]; constructor; auto.
Qed.

Lemma dict_get_append {V} (d : Py.dict (list V)) (k k' : string) (v : V) :
  Py.dict_get (Py.dict_append d k v) k'
  = if String.eqb k k'
    then Some (match Py.dict_get d k with Some l => l | None => [] end ++ [v])%list
    else Py.dict_get d k'.
Proof.
  unfold Py.dict_append.
  destruct (Py.dict_get d k) as [l|]; rewrite dict_get_set; reflexivity.
Qed.

Section UnmatchedReturns.
Import Py Validate.
Variable T : suffix_table.

(** Every suffix list filed under a base siglum spells, with that
    base, a citation that [rdgs_by_wit] has a reading for. *)
Let spelled (rdgs_by_wit : dict (list (option string))) (base_wit : string)
    (suffix_list : list string) : Prop :=
  exists n ns, dict_get rdgs_by_wit (base_wit ++ join "" suffix_list) = Some (n :: ns).

Let filed (maps : wit_maps) : Prop :=
  Forall (fun entry => Forall (spelled (fst maps) (fst entry)) (snd entry)) (snd maps).








End UnmatchedReturns.


(** ** The list of subwitnesses in the message about a base witness *)

Section BaseAlongside.
Import Py Validate.
Variable T : suffix_table.

Let bare (log : list finding) : Prop :=
  forall base_wit n subwits unit_id,
    In (BaseAlongside base_wit n subwits unit_id) log -> subwits = [].

Lemma bare_snoc (log : list finding) (f : finding) :
  bare log ->
  (forall base_wit n subwits unit_id,
      f = BaseAlongside base_wit n subwits unit_id -> subwits = []) ->
  bare (log ++ [f]).
Proof.
  intros Hlog Hf b n subs u Hin. apply in_app_iff in Hin.
  destruct Hin as [Hin|[Heq|[]]]; [exact (Hlog _ _ _ _ Hin) | exact (Hf _ _ _ _ Heq)].
Qed.

Lemma report_if_bare (cond : bool)
      (mk : string -> option string -> option string -> finding)
      (rdgs_by_wit : dict (list (option string))) (subwit : string)
      (unit_id : option string) (log log' : list finding) :
  (forall s n u b m subs v, mk s n u <> BaseAlongside b m subs v) ->
  bare log -> report_if cond mk rdgs_by_wit subwit unit_id log = Returned log' -> bare log'.
Proof.
  intros Hmk Hlog. unfold report_if. destruct cond; [|intros [= <-]; exact Hlog].
  destruct (first_reading rdgs_by_wit subwit) as [n| |]; cbn [bind]; try discriminate.
  intros [= <-]. apply bare_snoc; [exact Hlog|].
  intros b m subs v H. exfalso. exact (Hmk _ _ _ _ _ _ _ H).
Qed.

Lemma report_unmatched_bare (rdgs_by_wit : dict (list (option string)))
      (subwit suffix : string) (unit_id : option string) (log log' : list finding) :
  bare log -> report_unmatched T rdgs_by_wit subwit suffix unit_id log = Returned log' ->
  bare log'.
Proof.
  unfold report_unmatched. intros Hlog.
  repeat match goal with
  | |- context [report_if ?c ?mk rdgs_by_wit subwit unit_id ?l] =>
      let E := fresh "E" in
      destruct (report_if c mk rdgs_by_wit subwit unit_id l) as [?log| |] eqn:E;
      cbn [bind]; try discriminate;
      apply report_if_bare in E; [|discriminate|assumption]
  end.
  intros [= <-]. assumption.
Qed.

Lemma check_suffixes_bare (rdgs_by_wit : dict (list (option string)))
      (suffix_lists : list (list string)) (subwit : string) (unit_id : option string) :
  forall suffix_list i log log',
    bare log ->
    check_suffixes T rdgs_by_wit suffix_lists subwit unit_id i suffix_list log
    = Returned log' ->
    bare log'.
Proof.
  induction suffix_list as [|suffix rest IH]; intros i log log' Hlog;
    cbn [check_suffixes].
  - intros [= <-]. exact Hlog.
  - destruct (suffix_matched T suffix_lists i suffix); cbn [bind].
    + apply IH. exact Hlog.
    + destruct (report_unmatched T rdgs_by_wit subwit suffix unit_id log) as [log1| |] eqn:E;
        cbn [bind]; try discriminate.
      apply IH. exact (report_unmatched_bare _ _ _ _ _ _ Hlog E).
Qed.

Lemma check_base_wit_bare (rdgs_by_wit : dict (list (option string)))
      (unit_id : option string) (log log' : list finding)
      (entry : string * list (list string)) :
  bare log -> check_base_wit T rdgs_by_wit unit_id log entry = Returned log' -> bare log'.
Proof.
  intros Hlog. unfold check_base_wit.
  assert (for_each (snd entry) log
            (check_suffix_list T rdgs_by_wit (fst entry) (snd entry) unit_id)
          = Returned log' -> bare log') as Hloop.
  { apply (for_each_invariant bare); [|exact Hlog].
    intros acc suffix_list acc' _ Hacc. unfold check_suffix_list.
    destruct (List.length suffix_list =? 0)%nat eqn:E.
    - destruct (first_reading rdgs_by_wit (fst entry)) as [n| |]; cbn [bind];
        try discriminate.
      apply check_suffixes_bare. apply bare_snoc; [exact Hacc|].
      intros b m subs v [= _ _ <- _].
      apply Nat.eqb_eq in E. rewrite E. cbn [Nat.ltb Nat.leb].
      induction (snd entry) as [|x l IHl]; [reflexivity | exact IHl].
    - cbn [bind]. apply check_suffixes_bare. exact Hacc. }
  destruct (snd entry) as [|only [|second rest]]; try exact Hloop.
  destruct (negb (List.length only =? 0)%nat); [|intros [= <-]; exact Hlog].
  destruct (first_reading rdgs_by_wit (fst entry ++ join "" only)) as [n| |]; cbn [bind];
    try discriminate.
  intros [= <-]. apply bare_snoc; [exact Hlog | discriminate].
Qed.

Lemma unmatched_in_app_bare (a : app) (found : list finding) :
  unmatched_in_app T a = Returned found -> bare found.
Proof.
  unfold unmatched_in_app.
  destruct (populate T (app_rdgs a)) as [maps| |]; cbn [bind]; try discriminate.
  apply (for_each_invariant bare).
  - intros acc entry acc' _ Hacc. apply check_base_wit_bare. exact Hacc.
  - intros b n subs u [].
Qed.

End BaseAlongside.

(** The message "Base witness ... is listed alongside subwitness(es)
    ..." never names a subwitness: the list comprehension that should
    collect them tests the length of the empty suffix list the message
    is about, not that of the other lists, and so keeps nothing. *)
Theorem base_alongside_names_no_subwitness
        (xml : list Validate.app) (T : Validate.suffix_table)
        (findings : list Validate.finding) :
  Validate.find_unmatched_witness_pairs xml T = Py.Returned findings ->
  forall base_wit reading subwits unit_id,
    In (Validate.BaseAlongside base_wit reading subwits unit_id) findings ->
    subwits = [].
Proof.
  unfold Validate.find_unmatched_witness_pairs.
  apply (for_each_invariant
           (fun log => forall base_wit reading subwits unit_id,
                In (Validate.BaseAlongside base_wit reading subwits unit_id) log ->
                subwits = [])).
  - intros acc a acc' _ Hacc.
    destruct (Validate.unmatched_in_app T a) as [found| |] eqn:E; cbn [Py.bind];
      try discriminate.
    intros [= <-] b n subs u Hin. apply in_app_iff in Hin. destruct Hin as [Hin|Hin].
    + exact (Hacc _ _ _ _ Hin).
    + exact (unmatched_in_app_bare T a found E _ _ _ _ Hin).
  - intros b n subs u [].
Qed.

Lemma base_alongside_names_no_subwitness_witness :
  let T := Validate.Build_suffix_table ["*"] [] ["C"] [] [] in
  let xml := [Validate.Build_app (Some "B10K1V1U2")
                [Validate.Build_rdg (Some "1") "01 01*"; Validate.Build_rdg (Some "2") "01C"]] in
  Validate.find_unmatched_witness_pairs xml T
  = Py.Returned [Validate.BaseAlongside "01" (Some "1") [] (Some "B10K1V1U2")] /\
  @nil string = [].
Proof.
  intros T xml. split; [reflexivity|].
  exact (base_alongside_names_no_subwitness xml T
           [Validate.BaseAlongside "01" (Some "1") [] (Some "B10K1V1U2")] eq_refl
           "01" (Some "1") [] (Some "B10K1V1U2") (or_introl eq_refl)).
Defined.

(** ** [serialize] *)

Lemma xml_induction (P : Validate.xml -> Prop) :
  (forall tag attrib text children tail,
      Forall P children -> P (Validate.Element tag attrib text children tail)) ->
  P Validate.NotElement ->
  forall x, P x.
Proof.
  intros Helement Hother. fix IH 1. intros [tag attrib text children tail|].
  - apply Helement. induction children as [|child rest IHrest]; constructor.
    + apply IH.
    + exact IHrest.
  - exact Hother.
Qed.

Lemma each_returns {A B} (f : A -> Py.outcome B) (l : list A) :
  Forall (fun x => exists y, f x = Py.Returned y) l ->
  exists ys, Py.each f l = Py.Returned ys.
Proof.
  induction 1 as [|x l [y Hy] _ [ys IH]]; cbn [Py.each]; [eauto|].
  rewrite Hy. cbn [Py.bind]. fold (Py.each f l). rewrite IH. cbn [Py.bind]. eauto.
Qed.

Lemma each_raises {A B} (f : A -> Py.outcome B) (e : Py.exn) (l : list A) (bad : A) :
  Forall (fun x => (exists y, f x = Py.Returned y) \/ f x = Py.Raised e) l ->
  In bad l -> f bad = Py.Raised e ->
  Py.each f l = Py.Raised e.
Proof.
  intros Hall Hin Hbad. induction Hall as [|x l Hx _ IH]; [contradiction|].
  cbn [Py.each]. fold (Py.each f l). destruct Hx as [[y Hy]|Hx].
  - rewrite Hy. cbn [Py.bind]. destruct Hin as [->|Hin]; [congruence|].
    rewrite (IH Hin). reflexivity.
  - rewrite Hx. reflexivity.
Qed.

Lemma serialize_outcome (x : Validate.xml) :
  (exists s, Validate.serialize x = Py.Returned s) \/
  Validate.serialize x = Py.Raised Py.AttributeError.
Proof.
  induction x as [tag attrib text children tail Hall|] using xml_induction; [|right; reflexivity].
  assert ((exists ss, Py.each Validate.serialize children = Py.Returned ss) \/
          Py.each Validate.serialize children = Py.Raised Py.AttributeError) as Hkids.
  { induction Hall as [|c l Hc _ IH]; [left; exists []; reflexivity|].
    cbn [Py.each]. fold (Py.each Validate.serialize l).
    destruct Hc as [[s ->]| ->]; [|right; reflexivity]. cbn [Py.bind].
    destruct IH as [[ss ->]| ->]; [left; eexists; reflexivity | right; reflexivity]. }
  cbn [Validate.serialize].
  repeat match goal with
  | |- context [if ?c then _ else _] => destruct c
  end;
    try (left; eexists; reflexivity);
    (destruct Hkids as [[ss ->]| ->]; [left; eexists; reflexivity | right; reflexivity]).
Qed.

(** [serialize] returns a string for every tree made of elements
    only.  A comment, processing instruction or entity has no tag to
    read: when one stands among the children of a reading, word,
    abbreviation, highlighted, expanded, unclear, supplied or choice
    element, [serialize] of that element raises [AttributeError]. *)
Theorem serialize_wants_elements :
  (forall x, ValidateSpec.all_elements x = true ->
             exists s, Validate.serialize x = Py.Returned s) /\
  (forall tag attrib text children tail,
      ValidateSpec.descends tag = true ->
      In Validate.NotElement children ->
      Validate.serialize (Validate.Element tag attrib text children tail)
      = Py.Raised Py.AttributeError).
Proof.
  split.
  - induction x as [tag attrib text children tail Hall|] using xml_induction;
      [|discriminate].
    cbn [ValidateSpec.all_elements]. intros Hel. rewrite forallb_forall in Hel.
    assert (exists ss, Py.each Validate.serialize children = Py.Returned ss) as [ss Hss].
    { apply each_returns. rewrite Forall_forall in *. intros c Hc.
      exact (Hall c Hc (Hel c Hc)). }
    cbn [Validate.serialize]. rewrite Hss. cbn [Py.bind].
    repeat match goal with
    | |- context [if ?c then _ else _] => destruct c
    end; eexists; reflexivity.
  - intros tag attrib text children tail Hd Hin.
    assert (Py.each Validate.serialize children = Py.Raised Py.AttributeError) as Hkids.
    { apply (each_raises _ _ _ Validate.NotElement); [|exact Hin | reflexivity].
      apply Forall_forall. intros c _. apply serialize_outcome. }
    cbn [Validate.serialize]. rewrite Hkids. cbn [Py.bind].
    unfold ValidateSpec.descends in Hd. revert Hd.
    set (raw_tag := Py.replace tag _ ""). unfold Py.mem. cbn [existsb].
    rewrite !(String.eqb_sym raw_tag).
    destruct (String.eqb "rdg" raw_tag); [reflexivity|].
    destruct (String.eqb "w" raw_tag); [reflexivity|].
    destruct (String.eqb "abbr" raw_tag); [reflexivity|].
    destruct (String.eqb "hi" raw_tag); [reflexivity|].
    cbn [orb].
    destruct (String.eqb "space" raw_tag) eqn:E1.
    { apply String.eqb_eq in E1. rewrite <- E1. discriminate. }
    destruct (String.eqb "ex" raw_tag); [reflexivity|].
    destruct (String.eqb "gap" raw_tag) eqn:E2.
    { apply String.eqb_eq in E2. rewrite <- E2. discriminate. }
    destruct (String.eqb "unclear" raw_tag); [reflexivity|].
    destruct (String.eqb "supplied" raw_tag); [reflexivity|].
    cbn [orb].
    destruct (String.eqb "choice" raw_tag); [reflexivity|].
    discriminate.
Qed.

Lemma serialize_wants_elements_witness :
  Validate.serialize
    (ValidateFixtures.reading "1" "01" [ValidateFixtures.word "en"; Validate.NotElement])
  = Py.Raised Py.AttributeError /\
  exists s, Validate.serialize ValidateFixtures.unit = Py.Returned s.
Proof.
  split.
  - apply (proj2 serialize_wants_elements); [reflexivity | right; left; reflexivity].
  - apply (proj1 serialize_wants_elements). reflexivity.
Defined.

(** ** Duplicate readings and ambiguous attestations *)

Lemma filed_cons {V} (k : string) (e : string * V) (l : list (string * V)) :
  PySpec.filed k (e :: l)
  = if String.eqb (fst e) k then snd e :: PySpec.filed k l else PySpec.filed k l.
Proof. unfold PySpec.filed. cbn [filter]. destruct (String.eqb (fst e) k); reflexivity. Qed.

Lemma filed_app {V} (k : string) (l1 l2 : list (string * V)) :
  PySpec.filed k (l1 ++ l2) = (PySpec.filed k l1 ++ PySpec.filed k l2)%list.
Proof. unfold PySpec.filed. rewrite filter_app, map_app. reflexivity. Qed.

(** Filing values one by one with [dict_append]: under every key
    stand, after what stood there, the values filed under it, in the
    order in which they came. *)
Lemma dict_get_filed {V} (l : list (string * V)) :
  forall (d : Py.dict (list V)) (k : string),
    Py.dict_get (fold_left (fun d e => Py.dict_append d (fst e) (snd e)) l d) k
    = match PySpec.filed k l with
      | [] => Py.dict_get d k
      | vs => Some (match Py.dict_get d k with Some old => old | None => [] end ++ vs)%list
      end.
Proof.
  induction l as [|e l IH]; intros d k; [reflexivity|].
  cbn [fold_left]. rewrite IH, filed_cons, dict_get_append.
  destruct (String.eqb_spec (fst e) k) as [->|Hne].
  - destruct (PySpec.filed k l) as [|v vs]; [reflexivity|].
    rewrite <- app_assoc. reflexivity.
  - reflexivity.
Qed.

Lemma keys_dict_set_nodup {V} (d : Py.dict V) (k : string) (v : V) :
  NoDup (Py.keys d) -> NoDup (Py.keys (Py.dict_set d k v)).
Proof.
  induction d as [|[k0 v0] d IH]; cbn [Py.dict_set Py.keys map fst]; intros Hnd.
  - constructor; [intros [] | constructor].
  - inversion Hnd as [|? ? Hnotin Hrest]; subst.
    destruct (String.eqb_spec k0 k) as [->|Hne]; cbn [map fst]; [exact Hnd|].
    constructor; [|exact (IH Hrest)].
    intros Hin. apply (keys_dict_set d k v k0) in Hin. destruct Hin as [->|Hin]; auto.
Qed.

Lemma keys_filed_nodup {V} (l : list (string * V)) :
  forall d : Py.dict (list V),
    NoDup (Py.keys d) ->
    NoDup (Py.keys (fold_left (fun d e => Py.dict_append d (fst e) (snd e)) l d)).
Proof.
  induction l as [|e l IH]; intros d Hd; [exact Hd|].
  cbn [fold_left]. apply IH. unfold Py.dict_append.
  destruct (Py.dict_get d (fst e)); apply keys_dict_set_nodup; exact Hd.
Qed.

Lemma In_dict_get {V} (d : Py.dict V) (k : string) (v : V) :
  NoDup (Py.keys d) -> In (k, v) d -> Py.dict_get d k = Some v.
Proof.
  induction d as [|[k0 v0] d IH]; cbn [Py.keys map fst Py.dict_get]; intros Hnd Hin;
    [contradiction|].
  inversion Hnd as [|? ? Hnotin Hrest]; subst.
  destruct Hin as [[= -> ->]|Hin].
  - rewrite String.eqb_refl. reflexivity.
  - destruct (String.eqb_spec k0 k) as [->|_]; [|exact (IH Hrest Hin)].
    exfalso. apply Hnotin. apply in_map_iff. exists (k, v). auto.
Qed.

Lemma report_repeated_In
      (mk : string -> list (option string) -> option string -> Validate.notice)
      (unit_id : option string) (d : Py.dict (list (option string))) (x : Validate.notice) :
  In x (Validate.report_repeated mk unit_id d) <->
  exists k vs, In (k, vs) d /\ 1 < List.length vs /\ x = mk k vs unit_id.
Proof.
  unfold Validate.report_repeated. rewrite in_flat_map. split.
  - intros ([k vs] & Hin & Hx). cbn [fst snd] in Hx.
    destruct (Nat.ltb_spec 1 (List.length vs)) as [Hlt|_]; [|contradiction].
    destruct Hx as [<-|[]]. eauto.
  - intros (k & vs & Hin & Hlt & ->). exists (k, vs). split; [exact Hin|].
    cbn [fst snd]. destruct (Nat.ltb_spec 1 (List.length vs)); [left; reflexivity | lia].
Qed.

Lemma over_apps_In (check : Validate.xml -> Py.outcome (list Validate.notice))
      (apps : list Validate.xml) (printed : list Validate.notice) :
  Validate.over_apps check apps = (printed, Py.Returned tt) ->
  forall x,
    In x printed <-> exists app found, In app apps /\ check app = Py.Returned found /\ In x found.
Proof.
  revert printed. induction apps as [|a apps IH]; intros printed; cbn [Validate.over_apps].
  - intros [= <-] x. split; [intros [] | intros (? & ? & [] & _)].
  - destruct (check a) as [found| |] eqn:E; try discriminate.
    destruct (Validate.over_apps check apps) as [rest o] eqn:Er. cbn [fst snd].
    intros [= <- ->] x. rewrite in_app_iff, (IH rest eq_refl x). split.
    + intros [Hx|(app & f & Hin & Hf & Hx)].
      * exists a, found. simpl. auto.
      * exists app, f. simpl. auto.
    + intros (app & f & [<-|Hin] & Hf & Hx).
      * left. congruence.
      * right. eauto.
Qed.

Lemma fold_same_value {V} (v : V) (ts : list string) :
  forall acc : Py.dict (list V),
    fold_left (fun d e => Py.dict_append d (fst e) (snd e)) (map (fun t => (t, v)) ts) acc
    = fold_left (fun d t => Py.dict_append d t v) ts acc.
Proof.
  induction ts as [|t ts IH]; intros acc; [reflexivity|].
  cbn [map fold_left fst snd]. apply IH.
Qed.

Lemma filed_same_value {V} (v : V) (k : string) (ts : list string) :
  PySpec.filed k (map (fun t => (t, v)) ts) = map (fun _ => v) (filter (String.eqb k) ts).
Proof.
  unfold PySpec.filed. induction ts as [|t ts IH]; [reflexivity|].
  cbn [map filter fst]. rewrite (String.eqb_sym k t).
  destruct (String.eqb t k); cbn [map snd]; rewrite IH; reflexivity.
Qed.

Section Grouping.
Import Py Validate.

Lemma duplicates_loop (rdgs : list xml) :
  forall acc rdgs_by_text,
    for_each rdgs acc
      (fun rdgs_by_text rdg =>
         if overlap_or_lac rdg then Returned rdgs_by_text
         else
           rdg_text <- serialize rdg ;;
           Returned (dict_append rdgs_by_text rdg_text (get rdg "n")))
    = Returned rdgs_by_text ->
    exists pairs,
      rdgs_by_text = fold_left (fun d e => dict_append d (fst e) (snd e)) pairs acc /\
      forall rdg_text,
        PySpec.filed rdg_text pairs
        = map (fun rdg => get rdg "n") (filter (ValidateSpec.reads_as rdg_text) rdgs).
Proof.
  induction rdgs as [|rdg rdgs IH]; intros acc d; cbn [for_each].
  - intros [= <-]. exists []. split; reflexivity.
  - unfold ValidateSpec.reads_as. cbn [filter].
    destruct (overlap_or_lac rdg) eqn:Eo; cbn [bind negb andb].
    + intros H. destruct (IH _ _ H) as (pairs & -> & Hf). exists pairs. auto.
    + destruct (serialize rdg) as [t| |] eqn:Es; cbn [bind]; try discriminate.
      intros H. destruct (IH _ _ H) as (pairs & -> & Hf).
      exists ((t, get rdg "n") :: pairs). split; [reflexivity|].
      intros rdg_text. rewrite filed_cons. cbn [fst snd].
      destruct (String.eqb t rdg_text); cbn [map]; rewrite Hf; reflexivity.
Qed.

Lemma attestations_loop (rdgs : list xml) :
  forall acc rdgs_by_wit,
    for_each rdgs acc
      (fun rdgs_by_wit rdg =>
         wits <- wits_of rdg ;;
         Returned (fold_left (fun d wit => dict_append d wit (get rdg "n"))
                     wits rdgs_by_wit))
    = Returned rdgs_by_wit ->
    exists pairs,
      rdgs_by_wit = fold_left (fun d e => dict_append d (fst e) (snd e)) pairs acc /\
      forall wit,
        PySpec.filed wit pairs = flat_map (ValidateSpec.cited_under wit) rdgs.
Proof.
  induction rdgs as [|rdg rdgs IH]; intros acc d; cbn [for_each].
  - intros [= <-]. exists []. split; reflexivity.
  - unfold wits_of, ValidateSpec.cited_under. cbn [flat_map].
    destruct (get rdg "wit") as [w|]; cbn [bind]; [|discriminate].
    intros H. destruct (IH _ _ H) as (pairs & -> & Hf).
    exists (map (fun wit => (wit, get rdg "n")) (split_ws w) ++ pairs)%list. split.
    + rewrite fold_left_app, fold_same_value. reflexivity.
    + intros wit. rewrite filed_app, Hf, filed_same_value. reflexivity.
Qed.

End Grouping.

Lemma repeated_filed (pairs : list (string * option string))
      (k : string) (vs : list (option string)) :
  In (k, vs) (fold_left (fun d e => Py.dict_append d (fst e) (snd e)) pairs []) /\
  1 < List.length vs <->
  vs = PySpec.filed k pairs /\ 1 < List.length vs.
Proof.
  set (d := fold_left (fun d e => Py.dict_append d (fst e) (snd e)) pairs []).
  assert (NoDup (Py.keys d)) as Hnd by (apply keys_filed_nodup; constructor).
  assert (forall key, Py.dict_get d key
                      = match PySpec.filed key pairs with [] => None | l => Some l end)
    as Hget.
  { intros key. unfold d. rewrite dict_get_filed. cbn [Py.dict_get List.app].
    reflexivity. }
  split.
  - intros [Hin Hlen]. split; [|exact Hlen].
    apply (In_dict_get _ _ _ Hnd) in Hin. rewrite Hget in Hin.
    destruct (PySpec.filed k pairs); congruence.
  - intros [-> Hlen]. split; [|exact Hlen]. apply dict_get_In. rewrite Hget.
    destruct (PySpec.filed k pairs); [cbn in Hlen; lia | reflexivity].
Qed.

(** When [find_duplicate_readings] comes to its end, it has printed
    "Reading ... occurs in readings ..." for a text and a unit exactly
    when two or more of the unit's readings, overlaps and lacunae left
    aside, serialize to that text; the readings listed are all of
    those, in document order. *)
Theorem duplicate_readings_reported
        (apps : list Validate.xml) (printed : list Validate.notice) :
  Validate.find_duplicate_readings apps = (printed, Py.Returned tt) ->
  forall rdg_text readings unit_id,
    In (Validate.DuplicateReading rdg_text readings unit_id) printed <->
    exists app,
      In app apps /\ unit_id = Validate.unit_id app /\
      readings = map (fun rdg => Validate.get rdg "n")
                   (filter (ValidateSpec.reads_as rdg_text)
                      (Validate.children_named "rdg" app)) /\
      1 < List.length readings.
Proof.
  intros Hrun rdg_text readings u.
  rewrite (over_apps_In _ _ _ Hrun). split.
  - intros (app & found & Hin & Hf & Hx). exists app. split; [exact Hin|].
    unfold Validate.duplicates_in_app in Hf.
    destruct (Py.for_each (Validate.children_named "rdg" app) [] _) as [d| |] eqn:E;
      cbn [Py.bind] in Hf; try discriminate.
    injection Hf as <-. destruct (duplicates_loop _ _ _ E) as (pairs & -> & Hfiled).
    apply report_repeated_In in Hx. destruct Hx as (k & vs & Hkv & Hlen & [= -> -> ->]).
    split; [reflexivity|]. rewrite <- Hfiled.
    apply repeated_filed. auto.
  - intros (app & Hin & -> & Hr & Hlen).
    assert (exists found, Validate.duplicates_in_app app = Py.Returned found) as [found Hf].
    { clear -Hrun Hin. revert printed Hrun. unfold Validate.find_duplicate_readings.
      induction apps as [|a apps IH]; intros printed; [contradiction|].
      cbn [Validate.over_apps].
      destruct (Validate.duplicates_in_app a) as [f| |] eqn:E; try discriminate.
      destruct Hin as [<-|Hin]; [eauto|].
      destruct (Validate.over_apps Validate.duplicates_in_app apps) as [rest o] eqn:Er.
      cbn [fst snd]. intros [= _ ->]. exact (IH Hin rest eq_refl). }
    exists app, found. split; [exact Hin|]. split; [exact Hf|].
    unfold Validate.duplicates_in_app in Hf.
    destruct (Py.for_each (Validate.children_named "rdg" app) [] _) as [d| |] eqn:E;
      cbn [Py.bind] in Hf; try discriminate.
    injection Hf as <-. destruct (duplicates_loop _ _ _ E) as (pairs & -> & Hfiled).
    apply report_repeated_In. rewrite <- Hfiled in Hr.
    destruct (proj2 (repeated_filed pairs rdg_text readings) (conj Hr Hlen)) as [Hkv Hl].
    exists rdg_text, readings. auto.
Qed.

(** When [find_ambiguous_attestations] comes to its end, it has
    printed "Witness ... supports readings ..." for a siglum and a
    unit exactly when the siglum stands twice or more in the [wit]
    attributes of the unit's readings, be it under two readings or
    twice under one; the readings listed are those of all its
    citations, in document order. *)
Theorem ambiguous_attestations_reported
        (apps : list Validate.xml) (printed : list Validate.notice) :
  Validate.find_ambiguous_attestations apps = (printed, Py.Returned tt) ->
  forall wit readings unit_id,
    In (Validate.AmbiguousWitness wit readings unit_id) printed <->
    exists app,
      In app apps /\ unit_id = Validate.unit_id app /\
      readings = flat_map (ValidateSpec.cited_under wit) (Validate.children_named "rdg" app) /\
      1 < List.length readings.
Proof.
  intros Hrun wit readings u.
  rewrite (over_apps_In _ _ _ Hrun). split.
  - intros (app & found & Hin & Hf & Hx). exists app. split; [exact Hin|].
    unfold Validate.attestations_in_app in Hf.
    destruct (Py.for_each (Validate.children_named "rdg" app) [] _) as [d| |] eqn:E;
      cbn [Py.bind] in Hf; try discriminate.
    injection Hf as <-. destruct (attestations_loop _ _ _ E) as (pairs & -> & Hfiled).
    apply report_repeated_In in Hx. destruct Hx as (k & vs & Hkv & Hlen & [= -> -> ->]).
    split; [reflexivity|]. rewrite <- Hfiled.
    apply repeated_filed. auto.
  - intros (app & Hin & -> & Hr & Hlen).
    assert (exists found, Validate.attestations_in_app app = Py.Returned found) as [found Hf].
    { clear -Hrun Hin. revert printed Hrun. unfold Validate.find_ambiguous_attestations.
      induction apps as [|a apps IH]; intros printed; [contradiction|].
      cbn [Validate.over_apps].
      destruct (Validate.attestations_in_app a) as [f| |] eqn:E; try discriminate.
      destruct Hin as [<-|Hin]; [eauto|].
      destruct (Validate.over_apps Validate.attestations_in_app apps) as [rest o] eqn:Er.
      cbn [fst snd]. intros [= _ ->]. exact (IH Hin rest eq_refl). }
    exists app, found. split; [exact Hin|]. split; [exact Hf|].
    unfold Validate.attestations_in_app in Hf.
    destruct (Py.for_each (Validate.children_named "rdg" app) [] _) as [d| |] eqn:E;
      cbn [Py.bind] in Hf; try discriminate.
    injection Hf as <-. destruct (attestations_loop _ _ _ E) as (pairs & -> & Hfiled).
    apply report_repeated_In. rewrite <- Hfiled in Hr.
    destruct (proj2 (repeated_filed pairs wit readings) (conj Hr Hlen)) as [Hkv Hl].
    exists wit, readings. auto.
Qed.

(** [find_ambiguous_attestations] stops with [AttributeError] at the
    first unit that has a reading without a [wit] attribute, and on a
    document that has none it comes to its end. *)
Theorem ambiguous_attestations_need_wit (apps : list Validate.xml) :
  (snd (Validate.find_ambiguous_attestations apps) = Py.Raised Py.AttributeError <->
   exists app rdg,
     In app apps /\ In rdg (Validate.children_named "rdg" app) /\
     Validate.get rdg "wit" = None) /\
  (snd (Validate.find_ambiguous_attestations apps) = Py.Returned tt <->
   forall app rdg,
     In app apps -> In rdg (Validate.children_named "rdg" app) ->
     Validate.get rdg "wit" <> None).
Proof.
  assert (forall app,
             (Validate.attestations_in_app app = Py.Raised Py.AttributeError /\
              exists rdg, In rdg (Validate.children_named "rdg" app) /\
                          Validate.get rdg "wit" = None) \/
             ((exists found, Validate.attestations_in_app app = Py.Returned found) /\
              forall rdg, In rdg (Validate.children_named "rdg" app) ->
                          Validate.get rdg "wit" <> None)) as Happ.
  { intros app. unfold Validate.attestations_in_app.
    match goal with
    | |- context [Py.for_each ?l ?a ?b] => set (body := b); set (rdgs := l)
    end.
    assert (forall l acc,
               (Py.for_each l acc body = Py.Raised Py.AttributeError /\
                exists rdg, In rdg l /\ Validate.get rdg "wit" = None) \/
               ((exists d, Py.for_each l acc body = Py.Returned d) /\
                forall rdg, In rdg l -> Validate.get rdg "wit" <> None)) as Hloop.
    { induction l as [|rdg l IH]; intros acc.
      - right. split; [cbn; eauto | intros ? []].
      - cbn [Py.for_each]. unfold body at 1 3. unfold Validate.wits_of.
        destruct (Validate.get rdg "wit") as [w|] eqn:Ew; cbn [Py.bind].
        + destruct (IH (fold_left
                          (fun d wit => Py.dict_append d wit (Validate.get rdg "n"))
                          (Py.split_ws w) acc)) as [[Hr (bad & Hbad & Hnone)]|[Hr Hall]].
          * left. split; [exact Hr|]. exists bad. split; [right; exact Hbad | exact Hnone].
          * right. split; [exact Hr|]. intros x [<-|Hx]; [congruence | exact (Hall x Hx)].
        + left. split; [reflexivity|]. exists rdg. split; [left; reflexivity | exact Ew]. }
    destruct (Hloop rdgs []) as [[Hr Hbad]|[[d Hr] Hall]]; rewrite Hr;
      cbn [Py.bind]; [left | right]; eauto. }
  unfold Validate.find_ambiguous_attestations.
  induction apps as [|a apps [IH1 IH2]]; cbn [Validate.over_apps snd].
  - split; split.
    + discriminate.
    + intros (? & ? & [] & _).
    + intros _ ? ? [].
    + reflexivity.
  - destruct (Happ a) as [[Hr (bad & Hbad & Hnone)]|[[found Hr] Hall]]; rewrite Hr; cbn [snd].
    + split; split.
      * intros _. exists a, bad. simpl. auto.
      * reflexivity.
      * discriminate.
      * intros H. exfalso. exact (H a bad (or_introl eq_refl) Hbad Hnone).
    + split; split.
      * intros H. apply IH1 in H. destruct H as (app & rdg & Hin & Hrest).
        exists app, rdg. split; [right; exact Hin | exact Hrest].
      * intros (app & rdg & [<-|Hin] & Hrdg & Hnone).
        -- exfalso. exact (Hall rdg Hrdg Hnone).
        -- apply IH1. exists app, rdg. auto.
      * intros H app rdg [<-|Hin]; [apply Hall | apply (proj1 IH2 H app rdg Hin)].
      * intros H. apply IH2. intros app rdg Hin. apply H. right. exact Hin.
Qed.

Lemma duplicate_readings_reported_witness :
  let printed := [Validate.DuplicateReading "en" [Some "1"; Some "3"] (Some "B10K1V1U2")] in
  Validate.find_duplicate_readings [ValidateFixtures.unit] = (printed, Py.Returned tt) /\
  exists app,
    In app [ValidateFixtures.unit] /\ Some "B10K1V1U2" = Validate.unit_id app /\
    [Some "1"; Some "3"]
    = map (fun rdg => Validate.get rdg "n")
        (filter (ValidateSpec.reads_as "en") (Validate.children_named "rdg" app)) /\
    1 < List.length [Some "1"; Some "3"].
Proof.
  intros printed. split; [reflexivity|].
  exact (proj1 (duplicate_readings_reported [ValidateFixtures.unit] printed eq_refl
                  "en" [Some "1"; Some "3"] (Some "B10K1V1U2"))
           (or_introl eq_refl)).
Defined.

Lemma ambiguous_attestations_reported_witness :
  let printed := [Validate.AmbiguousWitness "01" [Some "1"; Some "2"] (Some "B10K1V1U2")] in
  Validate.find_ambiguous_attestations [ValidateFixtures.unit] = (printed, Py.Returned tt) /\
  exists app,
    In app [ValidateFixtures.unit] /\ Some "B10K1V1U2" = Validate.unit_id app /\
    [Some "1"; Some "2"]
    = flat_map (ValidateSpec.cited_under "01") (Validate.children_named "rdg" app) /\
    1 < List.length [Some "1"; Some "2"].
Proof.
  intros printed. split; [reflexivity|].
  exact (proj1 (ambiguous_attestations_reported [ValidateFixtures.unit] printed eq_refl
                  "01" [Some "1"; Some "2"] (Some "B10K1V1U2"))
           (or_introl eq_refl)).
Defined.

(** ** [get_base_wit]: the longest listed prefix *)

(** [get_base_wit] returns the longest prefix of the citation that is
    in the witness list, the citation itself included, and the empty
    string when no prefix is; applied to its own result it returns it
    unchanged. *)
Theorem get_base_wit_longest_prefix (index : Py.dict nat) (wit : string) :
  (exists j,
      j <= String.length wit /\
      Merge.get_base_wit index wit = substring 0 j wit /\
      (j = 0 \/ Py.dict_mem index (substring 0 j wit) = true) /\
      (forall i, j < i <= String.length wit ->
                 Py.dict_mem index (substring 0 i wit) = false)) /\
  Merge.get_base_wit index (Merge.get_base_wit index wit) = Merge.get_base_wit index wit.
Proof.
  split; [apply get_base_wit_prefix|].
  destruct (get_base_wit_prefix index wit) as (j & _ & Hr & [->|Hm] & _).
  - rewrite Hr, substring_0_0. reflexivity.
  - rewrite Hr. apply get_base_wit_fixed. exact Hm.
Qed.

(** ** The units that are merged *)

(** Which units are merged, and in which order, does not depend on
    the order in which their ids are given: the units are those of the
    document whose id is among the ids, in document order, and two
    lists of the same ids give the same merged unit. *)
Theorem merge_ignores_order_of_ids
        (set_order : list string -> list string) (sigla : list string)
        (apps : list Merge.variation_unit) (ids ids' : list string) :
  (forall id, In id ids <-> In id ids') ->
  Merge.new_Collation sigla apps ids = Merge.new_Collation sigla apps ids' /\
  Merge.merge_variation_units set_order (Merge.new_Collation sigla apps ids)
  = Merge.merge_variation_units set_order (Merge.new_Collation sigla apps ids').
Proof.
  intros Hsame.
  assert (Merge.new_Collation sigla apps ids = Merge.new_Collation sigla apps ids') as Heq.
  { unfold Merge.new_Collation, Merge.parse_apps. cbn [fst snd].
    assert (filter (fun a => Py.mem (Merge.app_id a) ids) apps
            = filter (fun a => Py.mem (Merge.app_id a) ids') apps) as ->; [|reflexivity].
    apply filter_ext. intros a.
    pose proof (mem_In (Merge.app_id a) ids) as H1.
    pose proof (mem_In (Merge.app_id a) ids') as H2.
    pose proof (Hsame (Merge.app_id a)) as H3.
    destruct (Py.mem (Merge.app_id a) ids), (Py.mem (Merge.app_id a) ids');
      intuition congruence. }
  rewrite Heq. split; reflexivity.
Qed.

Lemma merge_ignores_order_of_ids_witness :
  let apps := [Fixtures.plain_app "B10K1V1U2" [Fixtures.plain_rdg "1" "01" "en"];
               Fixtures.plain_app "B10K1V1U4" [Fixtures.plain_rdg "1" "01" "om"]] in
  Merge.merge_variation_units (fun s => s)
    (Merge.new_Collation ["01"] apps ["B10K1V1U2"; "B10K1V1U4"])
  = Merge.merge_variation_units (fun s => s)
      (Merge.new_Collation ["01"] apps ["B10K1V1U4"; "B10K1V1U2"]).
Proof.
  intros apps.
  apply (merge_ignores_order_of_ids (fun s => s) ["01"] apps
           ["B10K1V1U2"; "B10K1V1U4"] ["B10K1V1U4"; "B10K1V1U2"]).
  intros id. simpl. tauto.
Defined.

(** ** Merging without a unit *)

Lemma sorted_with_returns {A K} (leb : K -> K -> bool) (key : A -> Py.outcome K)
      (l : list A) :
  (forall x, In x l -> exists k, key x = Py.Returned k) ->
  exists r, Py.sorted_with leb key l = Py.Returned r.
Proof.
  intros Hkey. unfold Py.sorted_with.
  destruct (for_each_returns
              (fun acc x => Py.bind (key x) (fun k => Py.Returned (acc ++ [(k, x)])%list)) l)
    with (acc := @nil (K * A)) as [keyed ->].
  - intros acc x Hx. destruct (Hkey x Hx) as [k ->]. cbn [Py.bind]. eauto.
  - cbn [Py.bind]. eauto.
Qed.

Lemma keys_fold_set {V} (v : V) (l : list string) :
  forall (d : Py.dict V) k,
    In k (Py.keys (fold_left (fun d s => Py.dict_set d s v) l d)) <->
    In k l \/ In k (Py.keys d).
Proof.
  induction l as [|x l IH]; intros d k; cbn [fold_left]; [simpl; tauto|].
  rewrite IH, keys_dict_set. simpl. intuition congruence.
Qed.

Lemma Forall_fold_set {V} (P : string * V -> Prop) (v : V) (l : list string) :
  (forall k, P (k, v)) ->
  forall d : Py.dict V, Forall P d -> Forall P (fold_left (fun d s => Py.dict_set d s v) l d).
Proof.
  intros Hv. induction l as [|x l IH]; intros d Hd; cbn [fold_left]; [exact Hd|].
  apply IH. apply Forall_dict_set; [exact Hd | apply Hv].
Qed.

(** Rows that are all empty fall into one group, under the empty
    sequence. *)
Lemma group_empty_rows (L : Py.dict (list string)) :
  Forall (fun entry => snd entry = []) L ->
  forall acc : list string,
    fold_left (fun d entry => Py.dict_append d (Py.join "," (snd entry)) (fst entry))
      L [("", acc)]
    = [("", (acc ++ map fst L)%list)].
Proof.
  induction 1 as [|[k row] L Hrow _ IH]; intros acc; cbn [fold_left map].
  - rewrite app_nil_r. reflexivity.
  - cbn [snd fst] in *. subst row. cbn [Py.join]. unfold Py.dict_append at 2.
    cbn [Py.dict_get String.eqb Py.dict_set].
    rewrite IH, <- app_assoc. reflexivity.
Qed.

(** When none of the ids given names a unit of the document, and the
    witness list is not empty, [merge_variation_units] raises
    [IndexError]: every witness has the empty sequence of readings,
    and the sort key of the empty sequence asks the first of no
    reading-to-index maps for the reading [""]. *)
Theorem merge_without_units_raises
        (set_order : list string -> list string) (sigla : list string)
        (apps : list Merge.variation_unit) (ids : list string) :
  sigla <> [] ->
  (forall a, In a apps -> ~ In (Merge.app_id a) ids) ->
  Merge.merge_variation_units set_order (Merge.new_Collation sigla apps ids)
  = ([], Py.Raised Py.IndexError).
Proof.
  intros Hsigla Hnone.
  assert (Merge.new_Collation sigla apps ids
          = Merge.Build_Collation sigla (Py.index_map sigla) [] []) as ->.
  { unfold Merge.new_Collation, Merge.parse_apps, Merge.parse_list_wit. cbn [fst snd].
    assert (filter (fun a => Py.mem (Merge.app_id a) ids) apps = []) as ->; [|reflexivity].
    induction apps as [|a apps IH]; [reflexivity|]. cbn [filter].
    pose proof (mem_In (Merge.app_id a) ids) as Hm.
    destruct (Py.mem (Merge.app_id a) ids).
    - exfalso. apply (Hnone a (or_introl eq_refl)). apply Hm. reflexivity.
    - apply IH. intros b Hb. apply Hnone. right. exact Hb. }
  set (c := Merge.Build_Collation sigla (Py.index_map sigla) [] []).
  set (S0 := fold_left (fun d wit => Py.dict_set d wit (@nil string)) sigla []).
  set (L0 := fold_left (fun d wit => Py.dict_set d wit (@nil string)) sigla []).
  assert (Merge.init_reading_lists set_order c S0 = Py.Returned L0) as Hinit.
  { unfold Merge.init_reading_lists. cbn [Merge.witnesses Merge.variation_units c].
    cbn [List.length repeat]. unfold L0.
    assert (forall l (acc : Py.dict (list string)),
               (forall w, In w l -> In w sigla) ->
               Py.for_each l acc
                 (fun reading_lists_by_siglum base_wit =>
                    sg <- Py.dict_index S0 base_wit ;;
                    if (List.length sg =? 0)%nat
                    then Py.Returned (Py.dict_set reading_lists_by_siglum base_wit [])
                    else Py.Returned
                           (fold_left (fun d siglum => Py.dict_set d siglum [])
                              (set_order sg) reading_lists_by_siglum))
               = Py.Returned (fold_left (fun d wit => Py.dict_set d wit []) l acc)) as Hloop.
    { induction l as [|w l IH]; intros acc Hin; [reflexivity|].
      cbn [Py.for_each fold_left]. unfold Py.dict_index, S0.
      rewrite dict_get_fold_set.
      assert (Py.mem w sigla = true) as -> by (apply mem_In, Hin; left; reflexivity).
      cbn [Py.bind List.length Nat.eqb]. apply IH. intros x Hx. apply Hin. right. exact Hx. }
    apply Hloop. auto. }
  assert (Forall (fun entry : string * list string => snd entry = []) L0) as Hrows.
  { unfold L0. apply Forall_fold_set; [reflexivity | constructor]. }
  assert (forall w, In w (map fst L0) -> In w sigla) as Hkeys.
  { intros w Hw. unfold L0 in Hw. apply (keys_fold_set [] sigla [] w) in Hw.
    destruct Hw as [Hw|[]]. exact Hw. }
  assert (exists k0 rest, L0 = k0 :: rest) as (k0 & rest & HL0).
  { destruct L0 as [|k0 rest] eqn:E; [|eauto]. exfalso.
    destruct sigla as [|w sigla']; [congruence|].
    assert (In w (Py.keys L0)) as Hin.
    { unfold L0. apply keys_fold_set. left. left. reflexivity. }
    rewrite E in Hin. exact Hin. }
  assert (exists wits, Merge.group_by_sequence c L0 = Py.Returned [("", wits)])
    as [wits Hgroup].
  { unfold Merge.group_by_sequence.
    assert (fold_left (fun d entry => Py.dict_append d (Py.join "," (snd entry)) (fst entry))
              L0 [] = [("", map fst L0)]) as ->.
    { rewrite HL0 in *. cbn [fold_left]. inversion Hrows as [|? ? Hk0 Hrest]; subst.
      rewrite Hk0. cbn [Py.join]. unfold Py.dict_append at 2.
      cbn [Py.dict_get Py.dict_set]. rewrite (group_empty_rows rest Hrest).
      reflexivity. }
    cbn [Py.for_each fst snd].
    destruct (sorted_with_returns Nat.leb
                (fun w => Py.dict_index (Merge.witness_index_by_id c)
                            (Merge.get_base_wit (Merge.witness_index_by_id c) w))
                (map fst L0)) as [wits ->].
    - intros w Hw. cbn [Merge.witness_index_by_id c].
      assert (Py.dict_mem (Py.index_map sigla) w = true) as Hm.
      { apply dict_mem_keys, keys_index_map, Hkeys, Hw. }
      rewrite (get_base_wit_fixed _ _ Hm). unfold Py.dict_index.
      unfold Py.dict_mem in Hm. destruct (Py.dict_get (Py.index_map sigla) w); [eauto|].
      discriminate.
    - cbn [Py.bind List.app]. eauto. }
  unfold Merge.merge_variation_units, Merge.attestation_matrix,
    Merge.build_sigla_by_base_witness.
  cbn [Merge.variation_units Merge.witnesses Merge.witness_index_by_id c
         Merge.all_wits flat_map Merge.lfor_each].
  fold S0. unfold Merge.lbind, Merge.ret, Merge.lift. cbn [fst snd List.app].
  fold c. rewrite Hinit. cbn [Py.bind Merge.record_units fst snd List.app].
  rewrite Hgroup. cbn [Py.bind Py.keys map fst].
  reflexivity.
Qed.

Lemma merge_without_units_raises_witness :
  Merge.merge_variation_units (fun s => s)
    (Merge.new_Collation ["01"; "02"]
       [Fixtures.plain_app "B10K1V1U2" [Fixtures.plain_rdg "1" "01 02" "en"]]
       ["B10K1V1U4"])
  = ([], Py.Raised Py.IndexError).
Proof.
  apply merge_without_units_raises; [discriminate|].
  intros a [<-|[]] [H|[]]. discriminate.
Defined.

(** ** A citation without base witness stops the merge *)

Lemma all_wits_tokens (units : list Merge.variation_unit) :
  Forall PySpec.token (Merge.all_wits units).
Proof.
  unfold Merge.all_wits. apply Forall_forall. intros w Hw.
  apply in_flat_map in Hw. destruct Hw as (u & _ & Hw).
  apply in_flat_map in Hw. destruct Hw as (r & _ & Hw).
  unfold Merge.wits_of in Hw.
  pose proof (split_ws_tokens (Py.replace (Merge.rdg_wit r) "#" "")) as Ht.
  rewrite Forall_forall in Ht. exact (Ht w Hw).
Qed.

Lemma get_base_wit_listed (sigla : list string) (wit : string) :
  Merge.get_base_wit (Py.index_map sigla) wit <> "" ->
  In (Merge.get_base_wit (Py.index_map sigla) wit) sigla.
Proof.
  intros Hne.
  destruct (get_base_wit_prefix (Py.index_map sigla) wit) as (j & _ & Hr & [->|Hm] & _).
  - rewrite Hr, substring_0_0 in Hne. congruence.
  - rewrite Hr. apply keys_index_map, dict_mem_keys. exact Hm.
Qed.

(** A citation that has a base witness is registered without a word
    and without an exception. *)
Lemma register_siglum_resolved (set_order : list string -> list string)
      (sigla : list string) (S : Py.dict (list string)) (wit : string) :
  (forall k, Py.dict_mem S k = Py.mem k sigla) ->
  Merge.get_base_wit (Py.index_map sigla) wit <> "" ->
  exists S',
    Merge.register_siglum set_order (Py.index_map sigla) S wit = ([], Py.Returned S') /\
    forall k, Py.dict_mem S' k = Py.mem k sigla.
Proof.
  intros Hkeys Hne.
  assert (exists S', snd (Merge.register_siglum set_order (Py.index_map sigla) S wit)
                     = Py.Returned S') as [S' HS'].
  { unfold Merge.register_siglum, Merge.lbind, Merge.ret, Merge.lift.
    destruct (String.eqb_spec (Merge.get_base_wit (Py.index_map sigla) wit) "")
      as [E|_]; [congruence|].
    cbn [fst snd].
    destruct (String.eqb wit (Merge.get_base_wit (Py.index_map sigla) wit));
      cbn [fst snd]; [eauto|].
    pose proof (Hkeys (Merge.get_base_wit (Py.index_map sigla) wit)) as Hm.
    rewrite (proj2 (mem_In _ _) (get_base_wit_listed sigla wit Hne)) in Hm.
    unfold Py.dict_mem in Hm. unfold Py.dict_index.
    destruct (Py.dict_get S (Merge.get_base_wit (Py.index_map sigla) wit));
      [|discriminate].
    cbn [fst snd]. destruct (Merge.first_in_set set_order _ l); cbn [fst snd]; eauto. }
  exists S'. split.
  - pose proof (register_siglum_log set_order (Py.index_map sigla) S wit) as Hlog.
    destruct (String.eqb_spec (Merge.get_base_wit (Py.index_map sigla) wit) "")
      as [E|_]; [congruence|].
    destruct (Merge.register_siglum set_order (Py.index_map sigla) S wit) as [lg o].
    cbn [fst snd] in *. congruence.
  - intros k. destruct (register_siglum_spec _ _ _ _ _ HS') as [Hk _].
    rewrite Hk. apply Hkeys.
Qed.

(** When a citation of the units to merge has no base witness in the
    witness list (and the empty string is not the id of a witness),
    [merge_variation_units] does not go on after the report: it
    prints "Encountered siglum ... with no corresponding base
    witness!" for the first such citation, in document order, and
    raises [KeyError] on the empty base. *)
Theorem merge_stops_at_unresolved_citation
        (set_order : list string -> list string) (sigla : list string)
        (apps : list Merge.variation_unit) (ids : list string)
        (before after : list string) (wit : string) :
  let c := Merge.new_Collation sigla apps ids in
  ~ In "" sigla ->
  Merge.all_wits (Merge.variation_units c) = (before ++ wit :: after)%list ->
  (forall w, In w before -> Merge.get_base_wit (Merge.witness_index_by_id c) w <> "") ->
  Merge.get_base_wit (Merge.witness_index_by_id c) wit = "" ->
  Merge.merge_variation_units set_order c
  = ([Merge.NoBaseWitness wit], Py.Raised (Py.KeyError "")).
Proof.
  intros c Hempty Hsplit Hbefore Hwit.
  assert (wit <> "") as Hne.
  { pose proof (all_wits_tokens (Merge.variation_units c)) as Ht.
    rewrite Hsplit, Forall_forall in Ht.
    destruct (Ht wit) as [H _]; [apply in_elt | exact H]. }
  assert (Merge.witness_index_by_id c = Py.index_map sigla) as Hindex by reflexivity.
  rewrite Hindex in *.
  assert (forall l S,
             (forall k, Py.dict_mem S k = Py.mem k sigla) ->
             (forall w, In w l -> Merge.get_base_wit (Py.index_map sigla) w <> "") ->
             Merge.lfor_each (l ++ wit :: after) S
               (Merge.register_siglum set_order (Py.index_map sigla))
             = ([Merge.NoBaseWitness wit], Py.Raised (Py.KeyError ""))) as Hloop.
  { induction l as [|w l IH]; intros S HS Hl.
    - cbn [List.app Merge.lfor_each].
      rewrite (unresolved_citation_stops_merge set_order _ S wit Hwit Hne).
      + reflexivity.
      + rewrite HS. pose proof (mem_In "" sigla) as Hm.
        destruct (Py.mem "" sigla); [exfalso; apply Hempty, Hm; reflexivity | reflexivity].
    - cbn [List.app Merge.lfor_each].
      destruct (register_siglum_resolved set_order sigla S w HS (Hl w (or_introl eq_refl)))
        as (S' & -> & HS').
      unfold Merge.lbind at 1. cbn [fst snd List.app].
      rewrite (IH S' HS'); [reflexivity|].
      intros x Hx. apply Hl. right. exact Hx. }
  unfold Merge.merge_variation_units, Merge.attestation_matrix,
    Merge.build_sigla_by_base_witness.
  rewrite Hindex, Hsplit, Hloop.
  - reflexivity.
  - intros k. unfold Py.dict_mem. rewrite dict_get_fold_set. cbn [Py.dict_get].
    change (Merge.witnesses c) with sigla. destruct (Py.mem k sigla); reflexivity.
  - exact Hbefore.
Qed.

Lemma merge_stops_at_unresolved_citation_witness :
  let c := Merge.new_Collation ["01"; "02"]
             [Fixtures.plain_app "B10K1V1U2"
                [Fixtures.plain_rdg "1" "01* Q9" "en"; Fixtures.plain_rdg "2" "02" "om"]]
             ["B10K1V1U2"] in
  Merge.merge_variation_units (fun s => s) c
  = ([Merge.NoBaseWitness "Q9"], Py.Raised (Py.KeyError "")).
Proof.
  intros c.
  apply (merge_stops_at_unresolved_citation (fun s => s) ["01"; "02"]
           [Fixtures.plain_app "B10K1V1U2"
              [Fixtures.plain_rdg "1" "01* Q9" "en"; Fixtures.plain_rdg "2" "02" "om"]]
           ["B10K1V1U2"] ["01*"] ["02"] "Q9").
  - intros [H|[H|[]]]; discriminate.
  - reflexivity.
  - intros w [<-|[]]. discriminate.
  - reflexivity.
Defined.

(** ** The merged reading *)






(** ** Relations: the two sets of targets *)

Lemma active_targets_sorted_image_witness :
  let d := Transpose.make_transposition_dict ["2"; "3"; "1"] in
  Transpose.active_targets d "1 2 3" = Py.Returned ["1"; "2"; "3"] /\
  exists image numbers,
    Forall2 (fun target t => Transpose.relation_target d target = Py.Returned t)
      (Py.split_ws "1 2 3") image /\
    Permutation ["1"; "2"; "3"] image /\
    Forall2 (fun t z => Transpose.reading_reference_key t = Py.Returned z)
      ["1"; "2"; "3"] numbers /\
    StronglySorted Z.le numbers.
Proof.
  intros d. split; [reflexivity|].
  exact (active_targets_sorted_image d "1 2 3" ["1"; "2"; "3"] eq_refl).
Defined.

(** On a set of at most one target the loop over the passive targets
    does what the loop over the active targets does: the misplaced
    [sorted] has nothing to displace there. *)
Theorem passive_targets_single (d : Py.dict string) (passive : string) :
  List.length (Py.split_ws passive) <= 1 ->
  Transpose.passive_targets d passive = Transpose.active_targets d passive.
Proof.
  unfold Transpose.passive_targets, Transpose.active_targets.
  destruct (Py.split_ws passive) as [|t [|t' rest]]; cbn [List.length]; try lia; intros _.
  - reflexivity.
  - unfold Py.enumerate. cbn [List.length seq combine Py.for_each fst snd].
    destruct (Transpose.relation_target d t) as [t1| |]; cbn [Py.bind]; try reflexivity.
    cbn [Py.list_assign List.app Py.bind].
    destruct (Transpose.sort_references [t1]); reflexivity.
Qed.

Lemma passive_targets_single_witness :
  let d := Transpose.make_transposition_dict ["2"; "3"; "1"] in
  Transpose.passive_targets d "3" = Py.Returned ["2"] /\
  Transpose.passive_targets d "3" = Transpose.active_targets d "3".
Proof.
  intros d. split; [reflexivity|].
  apply (passive_targets_single d "3"). vm_compute. apply le_n.
Defined.

(** ** References by [xml:id] *)

Lemma lstrip_first (c : ascii) (s : string) :
  Py.lstrip c s = "" \/ exists d s', Py.lstrip c s = String d s' /\ Ascii.eqb d c = false.
Proof.
  induction s as [|d s IH]; cbn [Py.lstrip]; [left; reflexivity|].
  destruct (Ascii.eqb d c) eqn:E; [exact IH|]. right. eauto.
Qed.

Lemma rstrip_first (c d : ascii) (s : string) :
  Ascii.eqb d c = false -> exists s', Py.rstrip c (String d s) = String d s'.
Proof.
  intros E. cbn [Py.rstrip]. destruct (Py.rstrip c s); [rewrite E|]; eauto.
Qed.

(** What [s.strip(c)] returns does not start with [c]. *)
Lemma strip_first (c : ascii) (s : string) :
  Py.strip c s = "" \/ exists d s', Py.strip c s = String d s' /\ Ascii.eqb d c = false.
Proof.
  unfold Py.strip. destruct (lstrip_first c s) as [->|(d & s' & -> & E)];
    [left; reflexivity|].
  right. destruct (rstrip_first c d s' E) as [s'' ->]. eauto.
Qed.

Lemma split_on_first (c e : ascii) (s : string) :
  (s = "" \/ exists d s', s = String d s' /\ Ascii.eqb d e = false) ->
  hd "" (Py.split_on c s) = "" \/
  exists d s', hd "" (Py.split_on c s) = String d s' /\ Ascii.eqb d e = false.
Proof.
  intros [->|(d & s' & -> & E)]; [left; reflexivity|].
  rewrite split_on_cons. destruct (Ascii.eqb d c); cbn [hd]; [left; reflexivity|].
  right. eauto.
Qed.

Lemma list_assign_second {A} (l l' : list A) (v : A) :
  Py.list_assign l 1 v = Py.Returned l' ->
  exists a b rest, l = a :: b :: rest /\ l' = a :: v :: rest.
Proof.
  destruct l as [|a [|b rest]]; cbn [Py.list_assign Py.bind]; try discriminate.
  intros [= <-]. eauto.
Qed.

(** A reference that was written with a leading [#] comes out of the
    rewriting of a relation's target without it, as the id with the
    new number after its first [R]; the key function of the sort
    takes that for a bare number and [int] rejects it. *)
Lemma relation_target_hash (d : Py.dict string) (target t : string) :
  Transpose.first_is "#" target = Py.Returned true ->
  Transpose.relation_target d target = Py.Returned t ->
  Transpose.reading_reference_key t = Py.Raised (Py.ValueError t).
Proof.
  intros Hhash. unfold Transpose.relation_target. rewrite Hhash. cbn [Py.bind].
  destruct (Py.list_index (Py.split_on "R" (Py.strip "#" target)) 1) as [old| |];
    cbn [Py.bind]; try discriminate.
  destruct (Py.dict_index d old) as [new| |]; cbn [Py.bind]; try discriminate.
  destruct (Py.list_assign (Py.split_on "R" (Py.strip "#" target)) 1 new) as [parts| |] eqn:E;
    cbn [Py.bind]; try discriminate.
  intros [= <-]. destruct (list_assign_second _ _ _ E) as (a & b & rest & Hsplit & ->).
  assert (a = "" \/ exists c s', a = String c s' /\ Ascii.eqb c "#" = false) as Ha.
  { pose proof (split_on_first "R" "#" (Py.strip "#" target) (strip_first "#" target)) as H.
    rewrite Hsplit in H. exact H. }
  change (Py.join "R" (a :: new :: rest)) with (a ++ "R" ++ Py.join "R" (new :: rest)).
  set (joined := a ++ "R" ++ Py.join "R" (new :: rest)).
  assert (Transpose.first_is "#" joined = Py.Returned false) as Hfirst.
  { unfold joined. destruct Ha as [->|(c & s' & -> & Ec)]; cbn; [reflexivity|].
    rewrite Ec. reflexivity. }
  assert (Py.int joined = None) as Hint.
  { destruct (Py.int joined) eqn:Ei; [|reflexivity].
    assert (TransposeSpec.lacks "R" joined = true) as Hl
        by (apply int_lacks; [reflexivity | congruence]).
    unfold joined in Hl. rewrite lacks_append in Hl. cbn in Hl.
    rewrite andb_false_r in Hl. discriminate. }
  unfold Transpose.reading_reference_key. rewrite Hfirst. cbn [Py.bind].
  unfold Transpose.to_int. rewrite Hint. reflexivity.
Qed.

Lemma sort_references_needs_keys (l r : list string) (t : string) (e : Py.exn) :
  In t l -> Transpose.reading_reference_key t = Py.Raised e ->
  Transpose.sort_references l <> Py.Returned r.
Proof.
  intros Hin Hkey Hsorted. unfold Transpose.sort_references in Hsorted.
  destruct (sorted_with_inv _ _ _ _ Hsorted) as (ks & Hks & _).
  destruct (Forall2_In_l _ _ _ t Hks Hin) as (k & _ & Hk). congruence.
Qed.

Lemma for_each_body_returned {A S} (body : S -> A -> Py.outcome S) (l : list A) :
  forall acc r x,
    Py.for_each l acc body = Py.Returned r -> In x l ->
    exists a a', body a x = Py.Returned a'.
Proof.
  induction l as [|y l IH]; intros acc r x; cbn [Py.for_each]; [intros _ []|].
  destruct (body acc y) as [acc'| |] eqn:E; cbn [Py.bind]; try discriminate.
  intros Hrun [->|Hin]; [eauto | exact (IH _ _ _ Hrun Hin)].
Qed.

Lemma enumerate_In {A} (l : list A) (i : nat) (x : A) :
  nth_error l i = Some x -> In (i, x) (Py.enumerate l).
Proof.
  unfold Py.enumerate.
  assert (forall n j, nth_error l j = Some x ->
                      In (n + j, x) (combine (seq n (List.length l)) l)) as H.
  { induction l as [|y l IH]; intros n [|j] Hj; try discriminate;
      cbn [List.length seq combine].
    - injection Hj as ->. left. rewrite Nat.add_0_r. reflexivity.
    - right. replace (n + S j) with (S n + j) by lia. apply IH. exact Hj. }
  exact (H 0 i).
Qed.

Lemma sorted_with_decides {A K} (leb : K -> K -> bool) (key : A -> Py.outcome K)
      (l : list A) :
  (forall x, key x <> Py.Hangs) -> Py.sorted_with leb key l <> Py.Hangs.
Proof.
  intros Hkey. unfold Py.sorted_with.
  pose proof (for_each_no_hang
                (fun acc x => Py.bind (key x) (fun k => Py.Returned (acc ++ [(k, x)])%list)) l)
    as Hloop.
  destruct (Py.for_each l [] _) as [keyed| |] eqn:E; cbn [Py.bind]; try discriminate.
  exfalso. apply (Hloop) with (acc := @nil (K * A)); [|exact E].
  intros acc x _. specialize (Hkey x). destruct (key x); cbn [Py.bind]; congruence.
Qed.

Lemma reading_reference_key_decides (s : string) :
  Transpose.reading_reference_key s <> Py.Hangs.
Proof.
  unfold Transpose.reading_reference_key, Transpose.first_is, Transpose.to_int, Py.list_index.
  destruct s as [|c s]; cbn [Py.bind]; [discriminate|].
  destruct (Ascii.eqb c "#").
  - destruct (nth_error _ 1) as [part|]; cbn [Py.bind]; [|discriminate].
    destruct (Py.int part); discriminate.
  - destruct (Py.int (String c s)); discriminate.
Qed.

Lemma relation_target_decides (d : Py.dict string) (target : string) :
  Transpose.relation_target d target <> Py.Hangs.
Proof.
  unfold Transpose.relation_target, Transpose.first_is, Py.list_index, Py.dict_index.
  destruct target as [|c s]; cbn [Py.bind]; [discriminate|].
  destruct (Ascii.eqb c "#").
  - destruct (nth_error _ 1) as [old|]; cbn [Py.bind]; [|discriminate].
    destruct (Py.dict_get d old) as [new|]; cbn [Py.bind]; [|discriminate].
    pose proof (list_assign_no_hang (Py.split_on "R" (Py.strip "#" (String c s))) 1 new).
    destruct (Py.list_assign _ 1 new); cbn [Py.bind]; congruence.
  - destruct (Py.dict_get d (String c s)); discriminate.
Qed.

Lemma process_relation_decides (xml : Transpose.relation) (d : Py.dict string) :
  Transpose.process_relation xml d <> Py.Hangs.
Proof.
  assert (forall l, Transpose.sort_references l <> Py.Hangs) as Hsort.
  { intros l. apply sorted_with_decides, reading_reference_key_decides. }
  assert (Transpose.active_targets d (Transpose.rel_active xml) <> Py.Hangs) as Ha.
  { unfold Transpose.active_targets.
    pose proof (for_each_no_hang
                  (fun acc target =>
                     t <- Transpose.relation_target d target ;;
                     Py.Returned (acc ++ [t])%list)
                  (Py.split_ws (Transpose.rel_active xml))) as Hloop.
    destruct (Py.for_each (Py.split_ws (Transpose.rel_active xml)) [] _) as [ts| |] eqn:E;
      cbn [Py.bind]; [apply Hsort | discriminate|].
    exfalso. apply Hloop with (acc := @nil string); [|exact E].
    intros acc x _. pose proof (relation_target_decides d x).
    destruct (Transpose.relation_target d x); cbn [Py.bind]; congruence. }
  assert (Transpose.passive_targets d (Transpose.rel_passive xml) <> Py.Hangs) as Hp.
  { unfold Transpose.passive_targets. apply for_each_no_hang.
    intros acc [i target] _. cbn [fst snd].
    pose proof (relation_target_decides d target).
    destruct (Transpose.relation_target d target) as [t| |]; cbn [Py.bind];
      [|discriminate | congruence].
    pose proof (list_assign_no_hang acc i t).
    destruct (Py.list_assign acc i t) as [cur| |]; cbn [Py.bind];
      [apply Hsort | discriminate | congruence]. }
  unfold Transpose.process_relation.
  destruct (Transpose.active_targets d _); cbn [Py.bind]; try congruence.
  destruct (Transpose.passive_targets d _); cbn [Py.bind]; congruence.
Qed.

(** A relation that names one of its targets by [xml:id], with a
    leading [#], is never renumbered: [process_relation] raises.  The
    target is written back without its [#], and the sort that follows
    reads the whole id as a number. *)
Theorem relation_with_id_reference_raises
        (xml : Transpose.relation) (d : Py.dict string) (target : string) :
  In target (Py.split_ws (Transpose.rel_active xml)) \/
  In target (Py.split_ws (Transpose.rel_passive xml)) ->
  Transpose.first_is "#" target = Py.Returned true ->
  exists e, Transpose.process_relation xml d = Py.Raised e.
Proof.
  intros Hin Hhash.
  assert (forall r, Transpose.process_relation xml d <> Py.Returned r) as Hnot.
  { intros r. unfold Transpose.process_relation.
    destruct (Transpose.active_targets d (Transpose.rel_active xml)) as [active| |] eqn:Ea;
      cbn [Py.bind]; try discriminate.
    destruct (Transpose.passive_targets d (Transpose.rel_passive xml)) as [passive| |] eqn:Ep;
      cbn [Py.bind]; try discriminate.
    intros _. destruct Hin as [Hin|Hin].
    - unfold Transpose.active_targets in Ea.
      destruct (Py.for_each (Py.split_ws (Transpose.rel_active xml)) [] _) as [ts| |] eqn:E;
        cbn [Py.bind] in Ea; try discriminate.
      destruct (for_each_append_inv (Transpose.relation_target d) _ _ _ E)
        as (ys & -> & Himg).
      destruct (Forall2_In_l _ _ _ target Himg Hin) as (t & Ht & Hrun).
      exact (sort_references_needs_keys _ _ t _ Ht (relation_target_hash d _ _ Hhash Hrun) Ea).
    - unfold Transpose.passive_targets in Ep.
      assert (exists i, In (i, target) (Py.enumerate (Py.split_ws (Transpose.rel_passive xml))))
        as [i Hi].
      { apply In_nth_error in Hin. destruct Hin as [i Hi].
        exists i. apply enumerate_In. exact Hi. }
      destruct (for_each_body_returned _ _ _ _ _ Ep Hi) as (cur & cur' & Hbody).
      cbn [fst snd] in Hbody.
      destruct (Transpose.relation_target d target) as [t| |] eqn:Et; cbn [Py.bind] in Hbody;
        try discriminate.
      destruct (Py.list_assign cur i t) as [cur1| |] eqn:El; cbn [Py.bind] in Hbody;
        try discriminate.
      destruct (list_assign_spec _ _ _ _ El) as (_ & Hnth & _).
      apply nth_error_In in Hnth.
      exact (sort_references_needs_keys _ _ t _ Hnth (relation_target_hash d _ _ Hhash Et)
               Hbody). }
  pose proof (process_relation_decides xml d) as Hd.
  destruct (Transpose.process_relation xml d) as [r|e|]; [|eauto|congruence].
  exfalso. exact (Hnot r eq_refl).
Qed.

Lemma relation_with_id_reference_raises_witness :
  let d := Transpose.make_transposition_dict ["2"; "1"] in
  let xml := Transpose.Build_relation "#B10K1V1U2R1" "2" None "" in
  Transpose.process_relation xml d = Py.Raised (Py.ValueError "B10K1V1U2R2") /\
  exists e, Transpose.process_relation xml d = Py.Raised e.
Proof.
  intros d xml. split; [reflexivity|].
  apply (relation_with_id_reference_raises xml d "#B10K1V1U2R1");
    [left; left; reflexivity | reflexivity].
Defined.

(** A [certainty] whose target is written with a leading [#] is never
    renumbered either, whatever the sequence: once the number in the
    id is replaced, the id itself is looked up in the dictionary,
    whose keys are reading numbers. *)
Theorem certainty_with_id_reference_raises (d : Py.dict string) (target : string) :
  (forall k, In k (Py.keys d) -> Transpose.first_is "#" k <> Py.Returned true) ->
  Transpose.first_is "#" target = Py.Returned true ->
  exists e, Transpose.process_certainty target d = Py.Raised e.
Proof.
  intros Hkeys Hhash. unfold Transpose.process_certainty. rewrite Hhash. cbn [Py.bind].
  unfold Py.list_index.
  destruct (nth_error (Py.split_on "R" (Py.strip "#" target)) 1) as [old|]; cbn [Py.bind];
    [|eauto].
  unfold Py.dict_index at 1.
  destruct (Py.dict_get d old) as [new|]; cbn [Py.bind]; [|eauto].
  pose proof (list_assign_no_hang (Py.split_on "R" (Py.strip "#" target)) 1 new) as Hn.
  destruct (Py.list_assign (Py.split_on "R" (Py.strip "#" target)) 1 new) as [parts| |];
    cbn [Py.bind]; [|eauto | congruence].
  unfold Py.dict_index.
  destruct (Py.dict_get d ("#" ++ Py.join "R" parts)) as [v|] eqn:E; [|eauto].
  exfalso. apply (Hkeys ("#" ++ Py.join "R" parts)); [|reflexivity].
  apply dict_mem_keys. unfold Py.dict_mem. rewrite E. reflexivity.
Qed.

Lemma certainty_with_id_reference_raises_witness :
  let d := Transpose.make_transposition_dict ["2"; "1"] in
  Transpose.process_certainty "#B10K1V1U2R1" d = Py.Raised (Py.KeyError "#B10K1V1U2R2") /\
  exists e, Transpose.process_certainty "#B10K1V1U2R1" d = Py.Raised e.
Proof.
  intros d. split; [reflexivity|].
  apply (certainty_with_id_reference_raises d "#B10K1V1U2R1"); [|reflexivity].
  intros k [<-|[<-|[]]]; discriminate.
Defined.

(** ** Renumbering one reading *)

Lemma split_on_two (c : ascii) (s : string) :
  TransposeSpec.lacks c s = false ->
  exists a b rest, Py.split_on c s = a :: b :: rest.
Proof.
  induction s as [|d s IH]; cbn [TransposeSpec.lacks]; [discriminate|].
  rewrite split_on_cons. destruct (Ascii.eqb d c); cbn [negb andb].
  - intros _. pose proof (split_on_not_nil c s).
    destruct (Py.split_on c s) as [|b rest]; [congruence | eauto].
  - intros H. destruct (IH H) as (a & b & rest & ->). cbn [hd tl]. eauto.
Qed.

(** What [process_rdg] comes to.  The first part of the reading's
    number must be a key of the dictionary, or [KeyError] is raised;
    an [xml:id] must hold an [R], or [IndexError] is raised.  In every
    other case the reading comes back with the first part of its
    number replaced, the parts after it kept, everything else
    untouched, and in its [xml:id] the new number in the place of
    what stood between the first [R] and the second. *)
Theorem process_rdg_outcomes (xml : Transpose.rdg) (d : Py.dict string) :
  let parts := Py.split_on "-" (Transpose.rdg_n xml) in
  let number := hd "" parts in
  (Py.dict_get d number = None ->
   Transpose.process_rdg xml d = Py.Raised (Py.KeyError number)) /\
  (forall new rdg_id,
      Py.dict_get d number = Some new ->
      Transpose.rdg_xml_id xml = Some rdg_id ->
      TransposeSpec.lacks "R" rdg_id = true ->
      Transpose.process_rdg xml d = Py.Raised Py.IndexError) /\
  (forall new,
      Py.dict_get d number = Some new ->
      Transpose.rdg_xml_id xml = None ->
      Transpose.process_rdg xml d
      = Py.Returned (Transpose.Build_rdg (Py.join "-" (new :: tl parts)) None
                       (Transpose.rdg_rest xml))) /\
  (forall new rdg_id,
      Py.dict_get d number = Some new ->
      Transpose.rdg_xml_id xml = Some rdg_id ->
      TransposeSpec.lacks "R" rdg_id = false ->
      exists before between after,
        Py.split_on "R" rdg_id = before :: between :: after /\
        Transpose.process_rdg xml d
        = Py.Returned
            (Transpose.Build_rdg (Py.join "-" (new :: tl parts))
               (Some (Py.join "R" (before :: Py.join "-" (new :: tl parts) :: after)))
               (Transpose.rdg_rest xml))).
Proof.
  intros parts number.
  assert (Transpose.process_rdg xml d
          = (new <- Py.dict_index d number ;;
             xml_id <- Transpose.renumber_id (Transpose.rdg_xml_id xml)
                         (Py.join "-" (new :: tl parts)) ;;
             Py.Returned (Transpose.Build_rdg (Py.join "-" (new :: tl parts)) xml_id
                            (Transpose.rdg_rest xml)))) as Hrun.
  { unfold Transpose.process_rdg, number, parts.
    rewrite <- (hd_tl_split_on "-" (Transpose.rdg_n xml)) at 1. reflexivity. }
  rewrite Hrun. unfold Py.dict_index. repeat split.
  - intros ->. reflexivity.
  - intros new rdg_id -> -> Hl. cbn [Py.bind Transpose.renumber_id].
    rewrite (split_on_lacking _ _ Hl). reflexivity.
  - intros new -> ->. reflexivity.
  - intros new rdg_id -> -> Hl. cbn [Py.bind Transpose.renumber_id].
    destruct (split_on_two _ _ Hl) as (a & b & rest & ->).
    exists a, b, rest. split; reflexivity.
Qed.

Lemma process_rdg_outcomes_witness :
  let d := Transpose.make_transposition_dict ["2"; "1"] in
  Transpose.process_rdg (Transpose.Build_rdg "3-f1" None "") d = Py.Raised (Py.KeyError "3") /\
  Transpose.process_rdg (Transpose.Build_rdg "2-f1" (Some "B10K1V1U2") "") d
  = Py.Raised Py.IndexError /\
  Transpose.process_rdg (Transpose.Build_rdg "2-f1" (Some "B10K1V1U2R2-f1") "") d
  = Py.Returned (Transpose.Build_rdg "1-f1" (Some "B10K1V1U2R1-f1") "").
Proof.
  intros d. split; [|split].
  - exact (proj1 (process_rdg_outcomes (Transpose.Build_rdg "3-f1" None "") d) eq_refl).
  - exact (proj1 (proj2 (process_rdg_outcomes
                           (Transpose.Build_rdg "2-f1" (Some "B10K1V1U2") "") d))
             "1" "B10K1V1U2" eq_refl eq_refl eq_refl).
  - reflexivity.
Defined.

(** ** The order [process_app] leaves *)

Lemma process_child_keeps_kind (d : Py.dict string) (x y : Transpose.node) :
  Transpose.process_child d x = Py.Returned y ->
  (Transpose.rdg_key_own x = None <-> Transpose.rdg_key_own y = None).
Proof.
  destruct x as [text|xml|r|w|children|tag xml]; cbn [Transpose.process_child].
  - intros [= <-]. tauto.
  - intros [= <-]. tauto.
  - destruct (Transpose.process_rdg r d); cbn [Py.bind]; try discriminate.
    intros [= <-]. cbn. split; discriminate.
  - destruct (Transpose.attr_is (Transpose.wd_type w) "ambiguous").
    + destruct (Transpose.process_wit_detail w d); cbn [Py.bind]; try discriminate.
      intros [= <-]. cbn. split; discriminate.
    + intros [= <-]. tauto.
  - destruct (Transpose.process_note children d); cbn [Py.bind]; try discriminate.
    intros [= <-]. cbn. split; discriminate.
  - intros [= <-]. tauto.
Qed.

(** On a unit without comments, what [process_app] leaves is the
    list of the children as the dispatch rewrote them, in another
    order: ascending by [rdg_key], that is the lemma first, then the
    readings by their numbers, the witness details, the notes. *)
Theorem process_app_sorts
        (children sorted_children : list Transpose.node) (d : Py.dict string) :
  Forall (fun x => Transpose.rdg_key_own x <> None) children ->
  Transpose.process_app children d = Py.Returned sorted_children ->
  exists processed,
    Forall2 (fun x y => Transpose.process_child d x = Py.Returned y) children processed /\
    Permutation sorted_children processed /\
    TransposeSpec.ascending sorted_children.
Proof.
  intros Hown. unfold Transpose.process_app.
  destruct (Py.for_each children [] _) as [processed| |] eqn:E; cbn [Py.bind];
    try discriminate.
  destruct (for_each_append_inv (Transpose.process_child d) _ _ _ E) as (ys & -> & Hys).
  cbn [List.app]. clear E.
  destruct (Transpose.rdg_keys ys) as [ks| |] eqn:Ek; cbn [Py.bind]; try discriminate.
  intros [= <-]. exists ys. split; [exact Hys|].
  assert (forall y, In y ys -> Transpose.rdg_key_own y <> None) as Hown'.
  { intros y Hy. clear -Hown Hys Hy. induction Hys as [|x y0 l l' Hxy _ IH]; [contradiction|].
    inversion Hown as [|? ? Hx Hrest]; subst. destruct Hy as [<-|Hy]; [|exact (IH Hrest Hy)].
    intros H. apply Hx. apply (process_child_keeps_kind d x y0 Hxy). exact H. }
  pose proof (sibling_keys_inv Transpose.rdg_key_own ys Hown' _ _ Ek) as Hks.
  assert (ks = map TransposeSpec.key_of ys) as ->.
  { apply (Forall2_fun_map _ TransposeSpec.key_of _ _) in Hks; [exact Hks|].
    intros y k _ Hyk. unfold TransposeSpec.key_of. rewrite Hyk. reflexivity. }
  rewrite sorted_by_keys_map. split.
  - apply sorted_perm.
  - apply sorted_sorted.
    + intros a b. apply ztuple_leb_total.
    + intros a b c. apply ztuple_leb_trans.
Qed.

Lemma process_app_sorts_witness :
  let d := Transpose.make_transposition_dict ["1"; "2"] in
  Transpose.process_app Fixtures.unordered_unit d
  = Py.Returned (rev Fixtures.unordered_unit) /\
  exists processed,
    Forall2 (fun x y => Transpose.process_child d x = Py.Returned y)
      Fixtures.unordered_unit processed /\
    Permutation (rev Fixtures.unordered_unit) processed /\
    TransposeSpec.ascending (rev Fixtures.unordered_unit).
Proof.
  intros d. split; [reflexivity|].
  apply (process_app_sorts Fixtures.unordered_unit (rev Fixtures.unordered_unit) d);
    [|reflexivity].
  repeat constructor; discriminate.
Defined.

(** ** The dictionary of a sequence *)

Lemma digits_value_string_of_uint (d : Decimal.uint) :
  forall acc,
    Py.digits_value acc (NilEmpty.string_of_uint d) = Some (Nat.of_uint_acc d acc).
Proof.
  induction d as [|d IH|d IH|d IH|d IH|d IH|d IH|d IH|d IH|d IH|d IH]; intros acc;
    [reflexivity|..];
    cbn [NilEmpty.string_of_uint Py.digits_value Nat.of_uint_acc];
    match goal with
    | |- context [Py.is_digit ?c] => change (Py.is_digit c) with true
    end; cbv iota; rewrite IH; rewrite Nat.tail_mul_spec; f_equal; f_equal; cbn; lia.
Qed.

(** [int(str(n)) == n] *)
Lemma int_str (n : nat) : Py.int (Py.str n) = Some n.
Proof.
  unfold Py.str, Py.int.
  destruct (NilEmpty.string_of_uint (Nat.to_uint n)) as [|c s] eqn:E.
  - exfalso. assert (Nat.to_uint n = Decimal.Nil) as Hnil.
    { destruct (Nat.to_uint n); try discriminate. reflexivity. }
    pose proof (Unsigned.of_to n) as Hn. rewrite Hnil in Hn. cbn in Hn. subst n.
    discriminate.
  - rewrite <- E, digits_value_string_of_uint. f_equal. apply Unsigned.of_to.
Qed.

Lemma str_injective (m n : nat) : Py.str m = Py.str n -> m = n.
Proof.
  intros H. pose proof (int_str m) as Hm. rewrite H, int_str in Hm. congruence.
Qed.

Lemma enumerated_get (g : nat -> string) (l : list string) (x : string) :
  forall i0 (d : Py.dict string) y,
    Py.dict_get (fold_left (fun d i_n => Py.dict_set d (snd i_n) (g (fst i_n)))
                   (combine (seq i0 (List.length l)) l) d) x = Some y <->
    (exists p, y = g (i0 + p) /\ nth_error l p = Some x /\
               forall j, p < j -> nth_error l j <> Some x) \/
    ((forall j, nth_error l j <> Some x) /\ Py.dict_get d x = Some y).
Proof.
  induction l as [|z l IH]; intros i0 d y; cbn [List.length seq combine fold_left fst snd].
  - split.
    + intros H. right. split; [|exact H]. intros [|j]; discriminate.
    + intros [(p & _ & Hp & _)|[_ H]]; [destruct p; discriminate | exact H].
  - rewrite IH. split.
    + intros [(p & -> & Hp & Hlast)|[Hnone Hd]].
      * left. exists (S p). split; [f_equal; lia|]. split; [exact Hp|].
        intros [|j] Hj; [lia|]. apply Hlast. lia.
      * rewrite dict_get_set in Hd. destruct (String.eqb_spec z x) as [->|Hne].
        -- injection Hd as <-. left. exists 0. split; [f_equal; lia|].
           split; [reflexivity|]. intros [|j] Hj; [lia|]. apply Hnone.
        -- right. split; [|exact Hd]. intros [|j]; [cbn; congruence | apply Hnone].
    + intros [(p & -> & Hp & Hlast)|[Hnone Hd]].
      * destruct p as [|p].
        -- right. injection Hp as ->. split.
           ++ intros j. apply (Hlast (S j)). lia.
           ++ rewrite dict_get_set, String.eqb_refl. do 2 f_equal. lia.
        -- left. exists p. split; [f_equal; lia|]. split; [exact Hp|].
           intros j Hj. apply (Hlast (S j)). lia.
      * right. split; [intros j; apply (Hnone (S j))|].
        rewrite dict_get_set. destruct (String.eqb_spec z x) as [->|_]; [|exact Hd].
        exfalso. exact (Hnone 0 eq_refl).
Qed.

Lemma transposition_dict_get (sequence : list string) (x y : string) :
  Py.dict_get (Transpose.make_transposition_dict sequence) x = Some y <->
  exists i,
    nth_error sequence i = Some x /\
    (forall j, i < j -> nth_error sequence j <> Some x) /\
    y = Py.str (S i).
Proof.
  unfold Transpose.make_transposition_dict, Py.enumerate.
  rewrite (enumerated_get (fun i => Py.str (S i))). cbn [Py.dict_get Nat.add]. split.
  - intros [(p & -> & Hp & Hlast)|[_ H]]; [eauto | discriminate].
  - intros (i & Hi & Hlast & ->). left. eauto.
Qed.

(** The dictionary [main] builds from the sequence sends the number
    at each place of the sequence to the number of that place,
    counted from 1; a number that stands in the sequence more than
    once is sent to its last place. *)
Theorem transposition_dict_places (sequence : list string) (x y : string) :
  Py.dict_get (Transpose.make_transposition_dict sequence) x = Some y <->
  exists i,
    nth_error sequence i = Some x /\
    (forall j, i < j -> nth_error sequence j <> Some x) /\
    y = Py.str (S i).
Proof. apply transposition_dict_get. Qed.

Lemma transposition_dict_places_witness :
  Py.dict_get (Transpose.make_transposition_dict ["4"; "1"; "2"; "3"]) "1" = Some "2".
Proof.
  apply (proj2 (transposition_dict_places ["4"; "1"; "2"; "3"] "1" "2")).
  exists 1. split; [reflexivity|]. split; [|reflexivity].
  intros [|[|[|[|[|j]]]]] Hj; try lia; discriminate.
Defined.

(** When the numbers of the sequence are numerals, no two of the same
    value, the dictionary [main] builds is a numbering in the sense of
    the round trip: numerals are sent to numerals, one to one. *)
Theorem transposition_dict_numbering (sequence : list string) :
  Forall (fun n => Py.int n <> None) sequence ->
  NoDup (map Py.int sequence) ->
  TransposeSpec.numbering (Transpose.make_transposition_dict sequence).
Proof.
  intros Hplain Hnd. constructor.
  - intros x y Hg. apply transposition_dict_get in Hg. destruct Hg as (i & Hi & _ & ->).
    split; [|rewrite int_str; discriminate].
    rewrite Forall_forall in Hplain. apply Hplain. eapply nth_error_In. exact Hi.
  - intros x1 y1 x2 y2 H1 H2 Hint.
    apply transposition_dict_get in H1. destruct H1 as (i1 & Hi1 & _ & _).
    apply transposition_dict_get in H2. destruct H2 as (i2 & Hi2 & _ & _).
    assert (nth_error (map Py.int sequence) i1 = Some (Py.int x1)) as E1
        by (rewrite nth_error_map, Hi1; reflexivity).
    assert (nth_error (map Py.int sequence) i2 = Some (Py.int x2)) as E2
        by (rewrite nth_error_map, Hi2; reflexivity).
    rewrite <- Hint in E2.
    assert (i1 = i2) as ->.
    { apply (proj1 (NoDup_nth_error _) Hnd).
      - apply nth_error_Some. congruence.
      - congruence. }
    congruence.
  - intros x1 y1 x2 y2 H1 H2 Hint.
    apply transposition_dict_get in H1. destruct H1 as (i1 & _ & _ & ->).
    apply transposition_dict_get in H2. destruct H2 as (i2 & _ & _ & ->).
    rewrite !int_str in Hint. congruence.
Qed.

Lemma transposition_dict_numbering_witness :
  TransposeSpec.numbering (Transpose.make_transposition_dict ["4"; "1"; "2"; "3"]).
Proof.
  apply transposition_dict_numbering.
  - repeat constructor; discriminate.
  - cbn. repeat constructor; cbn; intuition discriminate.
Defined.

Lemma place_nth (l : list string) (x : string) :
  In x l ->
  nth_error l (TransposeSpec.place x l) = Some x /\
  forall i, nth_error l i = Some x -> TransposeSpec.place x l <= i.
Proof.
  induction l as [|y l IH]; [contradiction|]. intros Hin. cbn [TransposeSpec.place].
  destruct (String.eqb_spec y x) as [->|Hne].
  - split; [reflexivity | intros; lia].
  - destruct Hin as [?|Hin]; [congruence|]. destruct (IH Hin) as [Hp Hmin].
    split; [exact Hp|]. intros [|i] Hi; [cbn in Hi; congruence|].
    specialize (Hmin i Hi). lia.
Qed.

Lemma nth_error_seq (start len i : nat) :
  i < len -> nth_error (seq start len) i = Some (start + i).
Proof.
  revert start i. induction len as [|len IH]; intros start [|i] Hi; try lia; cbn [seq nth_error].
  - f_equal. lia.
  - rewrite IH by lia. f_equal. lia.
Qed.

(** For a sequence that arranges the numbers 1 to n, the dictionary
    built from the inverse arrangement sends every new number back to
    the old one: a second run with the inverse sequence uses the
    inverse dictionary. *)
Theorem inverse_sequence_inverts (sequence : list string) :
  Permutation sequence (map Py.str (seq 1 (List.length sequence))) ->
  TransposeSpec.inverts (Transpose.make_transposition_dict sequence)
    (Transpose.make_transposition_dict (TransposeSpec.inverse_sequence sequence)).
Proof.
  intros Hperm x y Hg. set (n := List.length sequence) in *.
  apply transposition_dict_get in Hg. destruct Hg as (i & Hi & _ & ->).
  assert (NoDup sequence) as Hnd.
  { apply (Permutation_NoDup (Permutation_sym Hperm)).
    apply Finite.Injective_map_NoDup; [|apply seq_NoDup].
    intros a b. apply str_injective. }
  assert (forall k, In (Py.str k) sequence <-> 1 <= k <= n) as Hmem.
  { intros k. split.
    - intros H. apply (Permutation_in _ Hperm) in H. apply in_map_iff in H.
      destruct H as (k' & Hk' & Hin). apply str_injective in Hk'. subst k'.
      apply in_seq in Hin. lia.
    - intros H. apply (Permutation_in _ (Permutation_sym Hperm)).
      apply in_map. apply in_seq. lia. }
  assert (exists k, x = Py.str k /\ 1 <= k <= n) as (k & -> & Hk).
  { apply nth_error_In in Hi. apply (Permutation_in _ Hperm) in Hi.
    apply in_map_iff in Hi. destruct Hi as (k & <- & Hin). apply in_seq in Hin.
    exists k. split; [reflexivity | lia]. }
  assert (forall k', In (Py.str k') sequence ->
                     forall i', nth_error sequence i' = Some (Py.str k') ->
                                TransposeSpec.place (Py.str k') sequence = i') as Hplace.
  { intros k' Hin i' Hi'. destruct (place_nth sequence (Py.str k') Hin) as [Hp _].
    apply (proj1 (NoDup_nth_error _) Hnd); [|congruence].
    apply nth_error_Some. congruence. }
  assert (forall j, j < n ->
                    nth_error (TransposeSpec.inverse_sequence sequence) j
                    = Some (Py.str (S (TransposeSpec.place (Py.str (S j)) sequence)))) as Hinv.
  { intros j Hj. unfold TransposeSpec.inverse_sequence. fold n.
    rewrite nth_error_map, nth_error_seq by exact Hj. reflexivity. }
  apply transposition_dict_get. exists (k - 1). split; [|split].
  - rewrite Hinv by lia. replace (S (k - 1)) with k by lia.
    rewrite (Hplace k (proj2 (Hmem k) Hk) i Hi). reflexivity.
  - intros j Hj Hnth.
    assert (j < n) as Hjn.
    { assert (nth_error (TransposeSpec.inverse_sequence sequence) j <> None) as H
          by congruence.
      apply nth_error_Some in H. unfold TransposeSpec.inverse_sequence in H.
      rewrite length_map, length_seq in H. exact H. }
    rewrite (Hinv j Hjn) in Hnth. injection Hnth as Hnth.
    apply str_injective in Hnth. injection Hnth as Hnth.
    destruct (place_nth sequence (Py.str (S j)) (proj2 (Hmem (S j)) ltac:(lia))) as [Hp _].
    rewrite Hnth, Hi in Hp. injection Hp as Hp. apply str_injective in Hp. lia.
  - f_equal. lia.
Qed.

Lemma inverse_sequence_inverts_witness :
  TransposeSpec.inverse_sequence ["4"; "1"; "2"; "3"] = ["2"; "3"; "4"; "1"] /\
  TransposeSpec.inverts (Transpose.make_transposition_dict ["4"; "1"; "2"; "3"])
    (Transpose.make_transposition_dict ["2"; "3"; "4"; "1"]).
Proof.
  split; [reflexivity|].
  apply (inverse_sequence_inverts ["4"; "1"; "2"; "3"]).
  change (Permutation ["4"; "1"; "2"; "3"] ["1"; "2"; "3"; "4"]).
  apply (Permutation_cons_app ["1"; "2"; "3"] [] "4"). reflexivity.
Defined.

(** ** The sequence on the command line *)

Lemma lstrip_lacks (c : ascii) (s : string) :
  TransposeSpec.lacks c s = true -> Py.lstrip c s = s.
Proof.
  destruct s as [|d s]; [reflexivity|]. cbn [TransposeSpec.lacks Py.lstrip].
  intros H. apply andb_true_iff in H. destruct H as [Hd _].
  apply negb_true_iff in Hd. rewrite Hd. reflexivity.
Qed.

Lemma rstrip_lacks (c : ascii) (s : string) :
  TransposeSpec.lacks c s = true -> Py.rstrip c s = s.
Proof.
  induction s as [|d s IH]; [reflexivity|]. cbn [TransposeSpec.lacks Py.rstrip].
  intros H. apply andb_true_iff in H. destruct H as [Hd Hs].
  apply negb_true_iff in Hd. rewrite (IH Hs), Hd. destruct s; reflexivity.
Qed.

Lemma rstrip_last (c : ascii) (s : string) :
  Py.rstrip c (s ++ String c "") = Py.rstrip c s.
Proof.
  induction s as [|d s IH].
  - cbn. rewrite Ascii.eqb_refl. reflexivity.
  - change (String d s ++ String c "") with (String d (s ++ String c "")).
    cbn [Py.rstrip]. rewrite IH. reflexivity.
Qed.

(** The sequence is read off the command line as it was written
    there: a parenthesized list of numbers, separated by commas, that
    hold no comma and no parenthesis, comes back as the list of those
    numbers. *)
Theorem sequence_of_argument_reads (sequence : list string) :
  sequence <> [] ->
  Forall (fun n => TransposeSpec.lacks "," n = true /\
                   TransposeSpec.lacks "(" n = true /\
                   TransposeSpec.lacks ")" n = true) sequence ->
  Transpose.sequence_of_argument ("(" ++ Py.join "," sequence ++ ")") = sequence.
Proof.
  intros Hne Hall. unfold Transpose.sequence_of_argument.
  set (body := Py.join "," sequence).
  assert (TransposeSpec.lacks "(" body = true) as Hopen.
  { apply join_lacks; [reflexivity|]. eapply Forall_impl; [|exact Hall]. cbn. tauto. }
  assert (TransposeSpec.lacks ")" body = true) as Hclose.
  { apply join_lacks; [reflexivity|]. eapply Forall_impl; [|exact Hall]. cbn. tauto. }
  assert (Py.strip "(" ("(" ++ body ++ ")") = body ++ ")") as ->.
  { unfold Py.strip. change ("(" ++ body ++ ")") with (String "(" (body ++ ")")).
    cbn [Py.lstrip]. rewrite Ascii.eqb_refl.
    assert (TransposeSpec.lacks "(" (body ++ ")") = true) as Hl
        by (rewrite lacks_append, Hopen; reflexivity).
    rewrite (lstrip_lacks _ _ Hl). apply rstrip_lacks. exact Hl. }
  assert (Py.strip ")" (body ++ ")") = body) as ->.
  { unfold Py.strip. destruct body as [|d body'] eqn:E; [reflexivity|].
    assert (Py.lstrip ")" (String d body' ++ ")") = String d body' ++ ")") as ->.
    { cbn [TransposeSpec.lacks] in Hclose. apply andb_true_iff in Hclose.
      destruct Hclose as [Hd _]. apply negb_true_iff in Hd.
      change (String d body' ++ ")") with (String d (body' ++ ")")).
      cbn [Py.lstrip]. rewrite Hd. reflexivity. }
    rewrite rstrip_last. apply rstrip_lacks. exact Hclose. }
  apply split_on_join; [exact Hne|].
  eapply Forall_impl; [|exact Hall]. cbn. tauto.
Qed.

Lemma sequence_of_argument_reads_witness :
  Transpose.sequence_of_argument "(4,1,2,3)" = ["4"; "1"; "2"; "3"].
Proof.
  apply (sequence_of_argument_reads ["4"; "1"; "2"; "3"]); [discriminate|].
  repeat constructor.
Defined.

(** ** The merged readings: one for each sequence of readings *)

Lemma flat_snd_dict_set {V} (d : Py.dict (list V)) (k : string) (l : list V) (v : V) :
  Py.dict_get d k = Some l ->
  Permutation (flat_map snd (Py.dict_set d k (l ++ [v])%list)) (v :: flat_map snd d).
Proof.
  induction d as [|[k0 l0] d IH]; cbn [Py.dict_get Py.dict_set]; [discriminate|].
  destruct (String.eqb_spec k0 k) as [->|Hne].
  - intros [= ->]. cbn [flat_map snd]. rewrite <- app_assoc. cbn [List.app].
    apply Permutation_sym. apply Permutation_middle.
  - intros H. cbn [flat_map snd]. rewrite (IH H).
    apply Permutation_sym. apply Permutation_middle.
Qed.

Lemma flat_snd_dict_new {V} (d : Py.dict (list V)) (k : string) (v : V) :
  Py.dict_get d k = None ->
  Permutation (flat_map snd (Py.dict_set d k [v])) (v :: flat_map snd d).
Proof.
  induction d as [|[k0 l0] d IH]; cbn [Py.dict_get Py.dict_set]; [reflexivity|].
  destruct (String.eqb_spec k0 k) as [->|Hne]; [discriminate|].
  intros H. cbn [flat_map snd]. rewrite (IH H). apply Permutation_sym. apply Permutation_middle.
Qed.

Lemma flat_snd_dict_append {V} (d : Py.dict (list V)) (k : string) (v : V) :
  Permutation (flat_map snd (Py.dict_append d k v)) (v :: flat_map snd d).
Proof.
  unfold Py.dict_append. destruct (Py.dict_get d k) as [l|] eqn:E.
  - apply flat_snd_dict_set. exact E.
  - apply flat_snd_dict_new. exact E.
Qed.

Lemma In_dict_set {V} (d : Py.dict V) (k k' : string) (v v' : V) :
  In (k', v') (Py.dict_set d k v) -> (k' = k /\ v' = v) \/ In (k', v') d.
Proof.
  induction d as [|[k0 v0] d IH]; cbn [Py.dict_set].
  - intros [[= <- <-]|[]]. auto.
  - destruct (String.eqb_spec k0 k) as [->|Hne].
    + intros [[= <- <-]|H]; [auto | right; right; exact H].
    + intros [H|H]; [right; left; exact H|].
      destruct (IH H) as [?|?]; [auto | right; right; assumption].
Qed.

Lemma In_dict_append {V} (d : Py.dict (list V)) (k k' : string) (v v' : V) (vs : list V) :
  In (k', vs) (Py.dict_append d k v) -> In v' vs ->
  (k' = k /\ v' = v) \/ exists vs0, In (k', vs0) d /\ In v' vs0.
Proof.
  unfold Py.dict_append. destruct (Py.dict_get d k) as [l|] eqn:E; intros Hin Hv.
  - apply In_dict_set in Hin. destruct Hin as [[-> ->]|Hin]; [|eauto].
    apply in_app_iff in Hv. destruct Hv as [Hv|[<-|[]]]; [|auto].
    right. exists l. split; [apply dict_get_In; exact E | exact Hv].
  - apply In_dict_set in Hin. destruct Hin as [[-> ->]|Hin]; [|eauto].
    destruct Hv as [<-|[]]. auto.
Qed.

Section GroupBySequence.
Import Py Merge.
Variables (c : Collation) (M : dict (list string)).

Let sequence_of (entry : string * list string) : string := join "," (snd entry).

(** The first loop of the grouping (lines 212-217): the keys are
    the sequences of the rows, each once; every siglum of the matrix
    stands under the sequence of its row, and nowhere else. *)
Lemma grouped_spec (rows : list (string * list string)) :
  forall d : dict (list string),
    NoDup (keys d) ->
    let grouped := fold_left (fun d entry => dict_append d (sequence_of entry) (fst entry))
                     rows d in
    NoDup (keys grouped) /\
    Permutation (flat_map snd grouped) (flat_map snd d ++ map fst rows) /\
    (forall seq wits wit,
      In (seq, wits) grouped -> In wit wits ->
      (exists wits0, In (seq, wits0) d /\ In wit wits0) \/
      exists row, In (wit, row) rows /\ join "," row = seq) /\
    forall seq,
      In seq (keys grouped) ->
      In seq (keys d) \/ exists wit row, In (wit, row) rows /\ join "," row = seq.
Proof.
  induction rows as [|[w row] rows IH]; intros d Hnd; cbn [fold_left map fst].
  - split; [exact Hnd|]. split; [rewrite app_nil_r; reflexivity|]. split; eauto.
  - assert (NoDup (keys (dict_append d (sequence_of (w, row)) w))) as Hnd1.
    { unfold dict_append. destruct (dict_get d _); apply keys_dict_set_nodup; exact Hnd. }
    destruct (IH _ Hnd1) as (Hk & Hp & Hin & Hkeys). split; [exact Hk|]. split; [|split].
    + rewrite Hp, (flat_snd_dict_append d). apply Permutation_middle.
    + intros seq wits wit H1 H2. destruct (Hin seq wits wit H1 H2) as [(w0 & Hw0 & Hw)|Hr].
      * destruct (In_dict_append _ _ _ _ _ _ Hw0 Hw) as [[-> ->]|Hold]; [|left; exact Hold].
        right. exists row. split; [left; reflexivity | reflexivity].
      * right. destruct Hr as (r & Hr & Hj). exists r. split; [right; exact Hr | exact Hj].
    + intros seq H. destruct (Hkeys seq H) as [Hd|(w0 & r & Hr & Hj)].
      * unfold dict_append in Hd.
        destruct (dict_get d (sequence_of (w, row))); apply keys_dict_set in Hd;
          (destruct Hd as [->|Hd]; [|left; exact Hd]);
          right; exists w, row; (split; [left; reflexivity | reflexivity]).
      * right. exists w0, r. split; [right; exact Hr | exact Hj].
Qed.

Lemma group_by_sequence_inv (wits_by_reading_sequence : dict (list string)) :
  group_by_sequence c M = Returned wits_by_reading_sequence ->
  NoDup (keys wits_by_reading_sequence) /\
  Permutation (flat_map snd wits_by_reading_sequence) (keys M) /\
  (forall seq wits wit,
      In (seq, wits) wits_by_reading_sequence -> In wit wits ->
      exists row, In (wit, row) M /\ join "," row = seq) /\
  forall seq,
    In seq (keys wits_by_reading_sequence) ->
    exists wit row, In (wit, row) M /\ join "," row = seq.
Proof.
  unfold group_by_sequence.
  destruct (grouped_spec M [] (NoDup_nil _)) as (Hk & Hp & Hin & Hseq).
  cbv zeta in Hk, Hp, Hin, Hseq. unfold sequence_of in Hk, Hp, Hin, Hseq.
  set (grouped := fold_left (fun d entry => dict_append d (join "," (snd entry)) (fst entry))
                    M []) in *.
  cbn [flat_map List.app] in Hp.
  intros Hrun.
  assert (forall (l acc out : list (string * list string)),
             for_each l acc
               (fun acc entry =>
                  wits <- sorted_with Nat.leb
                            (fun w => dict_index (witness_index_by_id c)
                                        (get_base_wit (witness_index_by_id c) w))
                            (snd entry) ;;
                  Returned (acc ++ [(fst entry, wits)])%list)
             = Returned out ->
             exists sorted_entries,
               out = (acc ++ sorted_entries)%list /\
               Forall2 (fun entry sorted_entry =>
                          fst sorted_entry = fst entry /\
                          Permutation (snd sorted_entry) (snd entry)) l sorted_entries)
    as Hloop.
  { induction l as [|entry l IH]; intros acc out; cbn [for_each].
    - intros [= <-]. exists []. rewrite app_nil_r. split; [reflexivity | constructor].
    - destruct (sorted_with _ _ (snd entry)) as [wits| |] eqn:Es; cbn [bind];
        try discriminate.
      intros H. destruct (IH _ _ H) as (rest & -> & Hall).
      exists ((fst entry, wits) :: rest). rewrite <- app_assoc. split; [reflexivity|].
      constructor; [|exact Hall]. cbn [fst snd]. split; [reflexivity|].
      destruct (sorted_with_inv _ _ _ _ Es) as (ks & Hks & ->).
      apply sorted_by_keys_perm. symmetry. eapply Forall2_length. exact Hks. }
  destruct (Hloop _ _ _ Hrun) as (sorted_entries & -> & Hall). cbn [List.app].
  clear Hloop Hrun.
  assert (keys sorted_entries = keys grouped) as Hkeys.
  { clear -Hall. unfold keys. induction Hall as [|g s l l' [Hf _] _ IH]; [reflexivity|].
    cbn [map]. rewrite Hf, IH. reflexivity. }
  split; [rewrite Hkeys; exact Hk|]. split; [|split].
  - rewrite <- Hp. clear -Hall.
    induction Hall as [|g s l l' [_ Hs] _ IH]; [reflexivity|].
    cbn [flat_map]. rewrite Hs, IH. reflexivity.
  - intros seq wits wit H1 H2.
    assert (exists wits0, In (seq, wits0) grouped /\ In wit wits0) as (wits0 & Hg & Hw).
    { clear -Hall H1 H2. induction Hall as [|g s l l' [Hf Hs] _ IH]; [contradiction|].
      destruct H1 as [->|H1].
      - cbn [fst snd] in *. exists (snd g). split.
        + left. destruct g; cbn [fst snd] in *. congruence.
        + eapply Permutation_in; [exact Hs | exact H2].
      - destruct (IH H1) as (w0 & Hg & Hw). exists w0. split; [right; exact Hg | exact Hw]. }
    destruct (Hin seq wits0 wit Hg Hw) as [(? & [] & _)|Hr]. exact Hr.
  - intros seq H. rewrite Hkeys in H. destruct (Hseq seq H) as [[]|Hr]. exact Hr.
Qed.

End GroupBySequence.

Lemma merge_sequence_inv
      (variation_unit_ids : list string)
      (rdg_by_app_rdg : list ((string * string) * Merge.rdg))
      (wits_by_reading_sequence : Py.dict (list string))
      (rdg_sequence : string) (m : Merge.merged_rdg) :
  Merge.merge_sequence variation_unit_ids rdg_by_app_rdg wits_by_reading_sequence rdg_sequence
  = Py.Returned m ->
  exists wits,
    Py.dict_get wits_by_reading_sequence rdg_sequence = Some wits /\
    Merge.m_n m = rdg_sequence /\ Merge.m_wit m = Py.join " " wits.
Proof.
  unfold Merge.merge_sequence, Py.dict_index.
  destruct (Py.dict_get wits_by_reading_sequence rdg_sequence) as [wits|]; cbn [Py.bind];
    [|discriminate].
  destruct (Py.for_each _ [] _) as [rdgs| |]; cbn [Py.bind]; try discriminate.
  intros [= <-]. exists wits. auto.
Qed.

Lemma flat_map_values {V} (d : Py.dict (list V)) :
  NoDup (Py.keys d) ->
  flat_map (fun k => match Py.dict_get d k with Some l => l | None => [] end) (Py.keys d)
  = flat_map snd d.
Proof.
  intros Hnd.
  assert (forall l, incl l d ->
                    flat_map (fun k => match Py.dict_get d k with Some l => l | None => [] end)
                      (map fst l) = flat_map snd l) as H.
  { induction l as [|[k v] l IH]; intros Hincl; [reflexivity|].
    cbn [map flat_map fst snd].
    rewrite (In_dict_get d k v Hnd (Hincl _ (or_introl eq_refl))).
    rewrite IH; [reflexivity|]. intros x Hx. apply Hincl. right. exact Hx. }
  apply H. apply incl_refl.
Qed.

(** When [merge_variation_units] returns, the merged readings are the
    distinct sequences of readings of the attestation matrix, one
    merged reading for each: every key of the matrix stands in the
    [wit] of exactly one merged reading, the one whose number is the
    key's row joined by commas. *)
Theorem merged_readings_partition
        (set_order : list string -> list string) (c : Merge.Collation)
        (log : list Merge.report) (merged : list Merge.merged_rdg) :
  Merge.merge_variation_units set_order c = (log, Py.Returned merged) ->
  exists sigla_by_base_witness reading_lists_by_siglum wits_of_merged,
    Merge.attestation_matrix set_order c
    = (log, Py.Returned (sigla_by_base_witness, reading_lists_by_siglum)) /\
    Forall2 (fun m wits =>
               Merge.m_wit m = Py.join " " wits /\
               forall wit, In wit wits ->
                           exists row, In (wit, row) reading_lists_by_siglum /\
                                       Py.join "," row = Merge.m_n m)
      merged wits_of_merged /\
    Permutation (concat wits_of_merged) (Py.keys reading_lists_by_siglum) /\
    NoDup (map Merge.m_n merged).
Proof.
  unfold Merge.merge_variation_units, Merge.lbind.
  destruct (Merge.attestation_matrix set_order c) as [lg [[S M]| |]]; cbn [fst snd];
    try discriminate.
  unfold Merge.lift. cbn [fst snd]. rewrite app_nil_r.
  destruct (Merge.group_by_sequence c M) as [wbrs| |] eqn:Eg; cbn [Py.bind]; try discriminate.
  destruct (Py.sorted_with Py.tuple_leb (Merge.sequence_key c) (Py.keys wbrs))
    as [seqs| |] eqn:Es; cbn [Py.bind]; try discriminate.
  destruct (Py.for_each seqs [] _) as [ms| |] eqn:Em; cbn [Py.bind]; try discriminate.
  intros [= <- <-]. exists S, M.
  destruct (group_by_sequence_inv c M wbrs Eg) as (Hnd & Hperm & Hrows & _).
  assert (Permutation seqs (Py.keys wbrs)) as Hseqs.
  { destruct (sorted_with_inv _ _ _ _ Es) as (ks & Hks & ->).
    apply sorted_by_keys_perm. symmetry. eapply Forall2_length. exact Hks. }
  destruct (for_each_append_inv
              (Merge.merge_sequence (map Merge.app_id (Merge.variation_units c))
                 (Merge.build_rdg_by_app_rdg c) wbrs) _ _ _ Em) as (ys & -> & Hms).
  cbn [List.app]. clear Em.
  set (wits_at := fun seq => match Py.dict_get wbrs seq with Some l => l | None => [] end).
  exists (map wits_at seqs). split; [reflexivity|]. split; [|split].
  - clear -Hms Hrows. induction Hms as [|seq m l l' Hm _ IH]; cbn [map]; constructor;
      [|exact IH].
    destruct (merge_sequence_inv _ _ _ _ _ Hm) as (wits & Hget & Hn & Hw).
    unfold wits_at. rewrite Hget. split; [exact Hw|].
    intros wit Hwit. rewrite Hn. apply (Hrows seq wits wit); [|exact Hwit].
    apply dict_get_In. exact Hget.
  - rewrite <- flat_map_concat_map, <- Hperm, <- (flat_map_values wbrs Hnd).
    apply Permutation_flat_map. exact Hseqs.
  - assert (map Merge.m_n ys = seqs) as ->.
    { clear -Hms. induction Hms as [|seq m l l' Hm _ IH]; [reflexivity|].
      cbn [map]. destruct (merge_sequence_inv _ _ _ _ _ Hm) as (_ & _ & -> & _).
      rewrite IH. reflexivity. }
    apply (Permutation_NoDup (Permutation_sym Hseqs)). exact Hnd.
Qed.

Lemma merged_readings_partition_witness :
  exists merged sigla_by_base_witness reading_lists_by_siglum wits_of_merged,
    Merge.merge_variation_units (fun s => s) Fixtures.hand_then_base
    = ([], Py.Returned merged) /\
    Merge.attestation_matrix (fun s => s) Fixtures.hand_then_base
    = ([], Py.Returned (sigla_by_base_witness, reading_lists_by_siglum)) /\
    Forall2 (fun m wits =>
               Merge.m_wit m = Py.join " " wits /\
               forall wit, In wit wits ->
                           exists row, In (wit, row) reading_lists_by_siglum /\
                                       Py.join "," row = Merge.m_n m)
      merged wits_of_merged /\
    Permutation (concat wits_of_merged) (Py.keys reading_lists_by_siglum) /\
    NoDup (map Merge.m_n merged).
Proof.
  eexists.
  destruct (merged_readings_partition (fun s => s) Fixtures.hand_then_base [] _ eq_refl)
    as (S & M & W & H).
  exists S, M, W. split; [reflexivity | exact H].
Defined.

(** ** When [merge_variation_units] returns *)











Section MergeReturns.
Import Py Merge.
Variable set_order : list string -> list string.
Hypothesis set_order_members : forall s x, In x (set_order s) <-> In x s.
Variables (sigla : list string) (apps : list variation_unit) (targets : list string).

Let c := new_Collation sigla apps targets.
Let index := index_map sigla.
Let units := variation_units c.
Let n := List.length units.
Let blank := repeat LAC_SYMBOL n.

Hypothesis resolved : forall wit, In wit (all_wits units) -> get_base_wit index wit <> "".
Hypothesis units_not_empty : units <> [].
Hypothesis ids_without_comma :
  forall u r, In u units -> In r (vu_rdgs u) -> TransposeSpec.lacks "," (rdg_id r) = true.


Variable S : dict (list string).
Hypothesis S_keys : forall k, dict_mem S k = mem k sigla.
Hypothesis S_based : MergeSpec.sigla_well_based index S.


Variable L0 : dict (list string).
Hypothesis L0_init : init_reading_lists set_order c S = Returned L0.





(** What the loop over the citations keeps of the matrix: its keys,
    each once, and the length of its rows. *)
Let kept (L : dict (list string)) : Prop :=
  NoDup (keys L) /\
  (forall key row, dict_get L key = Some row -> List.length row = n) /\
  (forall key, dict_mem L key = dict_mem L0 key).





Variable M : dict (list string).
Hypothesis M_recorded : record_units set_order index S 0 units L0 = Returned M.
Hypothesis M_kept : kept M.







End MergeReturns.


